(** * Time-block scheduling engine of the TimeBlocking page

    Shallow embedding of the scheduling logic of
    [src/pages/TimeBlocking.tsx]: the snapping and formatting helpers, the
    interval-conflict detector, the drop-target computation and the state
    transitions of the page (place, complete, delete), together with the
    derived metrics.

    Numbers.  A JavaScript [number] holding a time of day is modelled as an
    exact rational ([Q]); counters such as the XP total are modelled as
    integers ([Z]).  The non-finite values of IEEE arithmetic (NaN, the
    infinities) and rounding error are outside this model; the statements
    below only ever divide by a non-zero number.

    Asynchrony.  Every handler awaits one call to the persistence layer.  The
    outcome of that call is an explicit argument of the embedded handler
    ([Resolved v] or [Rejected msg]); the state setters run in program order
    on an explicit [State] record.  Where a statement depends on what is sent
    to the server, the server is a function from the request to the outcome
    (module [Remote]).  Where it depends on what happens while a handler
    awaits, the handler is split at its [await] into the checks made on the
    render it starts in and the continuation run when the call returns
    (module [MockAsync]). *)

From Stdlib Require Import ZArith QArith Qround Qabs Lqa Lia List Bool String Ascii.
From Stdlib Require Import DecimalString DecimalPos DecimalZ.
Import ListNotations.

Local Open Scope Q_scope.

(** ** JavaScript arithmetic primitives *)

(** [Math.floor]. *)
Definition Math_floor (x : Q) : Z := Qfloor x.

(** [Math.round]: nearest integer, a half rounds towards plus infinity. *)
Definition Math_round (x : Q) : Z := Qfloor (x + (1 # 2)).

(** Truncation towards zero, the integer quotient behind [%]. *)
Definition js_trunc (x : Q) : Z :=
  if Qle_bool 0 x then Qfloor x else Qceiling x.

(** [a % n]: the remainder has the sign of the dividend. *)
Definition js_rem (a n : Q) : Q := a - inject_Z (js_trunc (a / n)) * n.

(** [n.toString()] on an integral number, digit by digit: what JavaScript
    prints below 10^21 in magnitude. *)
Definition toString (n : Z) : string := NilZero.string_of_int (Z.to_int n).

(** [String.prototype.repeat] restricted to a one-character pad. *)
Fixpoint repeat_char (c : ascii) (n : nat) : string :=
  match n with
  | O => EmptyString
  | S k => String c (repeat_char c k)
  end.

(** [s.padStart(targetLength, c)] for a one-character pad string. *)
Definition padStart (s : string) (targetLength : nat) (c : ascii) : string :=
  (repeat_char c (targetLength - String.length s) ++ s)%string.

(** ** Constants *)

Definition HOUR_HEIGHT : Q := 80.
Definition SNAP_INTERVAL : Q := 15.

(** ** Helper functions *)

Definition snapToInterval (time interval : Q) : Q :=
  let minutes := js_rem time 1 * 60 in
  let snappedMinutes := inject_Z (Math_round (minutes / interval)) * interval in
  inject_Z (Math_floor time) + snappedMinutes / 60.

Definition formatTime (hour : Q) : string :=
  let h := Math_floor hour in
  let m := Math_round (js_rem hour 1 * 60) in
  (padStart (toString h) 2 "0" ++ ":" ++ padStart (toString m) 2 "0")%string.

(** ** Data model ([Task], [TimeBlock] of [services/api.ts])

    The server timestamps [blockDate], [createdAt] and [updatedAt] of a
    [TimeBlock] are never read by the page and are left out. *)

Record Task : Type := mkTask {
  task_id : string;
  title : string;
  duration : Q;
  color : string
}.

Record TimeBlock : Type := mkTimeBlock {
  block_id : string;
  task : Task;
  startHour : Q;
  endHour : Q;
  completed : bool
}.

(** The geometry read from [scheduleContainerRef.current]:
    [getBoundingClientRect().top] and [scrollTop]. *)
Record Container : Type := mkContainer {
  rect_top : Q;
  scrollTop : Q
}.

Record DropPosition : Type := mkDropPosition {
  drop_startHour : Q;
  drop_endHour : Q
}.

(** Strict comparison of two numbers, [a < b]. *)
Definition Qlt_bool (a b : Q) : bool := negb (Qle_bool b a).

(** Truthiness of an optional string: [undefined] and the empty string are
    falsy. *)
Definition truthy (s : option string) : bool :=
  match s with
  | None => false
  | Some str => negb (String.eqb str EmptyString)
  end.

(** [block.id === excludeId] for an optional [excludeId]. *)
Definition id_equals (i : string) (excludeId : option string) : bool :=
  match excludeId with
  | None => false
  | Some e => String.eqb i e
  end.

(** ** Interval conflict detector *)

Definition hasConflict (timeBlocks : list TimeBlock)
    (startHour' endHour' : Q) (excludeId : option string) : bool :=
  existsb (fun block =>
    if truthy excludeId && id_equals (block_id block) excludeId then false
    else Qlt_bool startHour' (endHour block) && Qlt_bool (startHour block) endHour')
    timeBlocks.

(** ** Drop-target computation *)

Definition calculateDropPosition (scheduleContainerRef : option Container)
    (clientY : Q) (task' : Task) : option DropPosition :=
  match scheduleContainerRef with
  | None => None
  | Some container =>
      let relativeY := clientY - rect_top container + scrollTop container in
      let hourDecimal := 8 + relativeY / HOUR_HEIGHT in
      let snappedStart := snapToInterval hourDecimal SNAP_INTERVAL in
      let duration' := duration task' / 60 in
      let snappedEnd := snappedStart + duration' in
      if Qlt_bool snappedStart 8 || Qlt_bool 21 snappedEnd then None
      else Some (mkDropPosition snappedStart snappedEnd)
  end.

(** ** Page state and derived metrics *)

Record State : Type := mkState {
  tasks : list Task;
  timeBlocks : list TimeBlock;
  xp : Z;
  error : option string;
  showDoneCheck : bool;
  showPerfectDay : bool
}.

Definition totalBlocks (blocks : list TimeBlock) : nat := List.length blocks.

Definition completedBlocks (blocks : list TimeBlock) : nat :=
  List.length (filter completed blocks).

Definition progressPercentage (blocks : list TimeBlock) : Q :=
  if (0 <? totalBlocks blocks)%nat
  then inject_Z (Z.of_nat (completedBlocks blocks))
       / inject_Z (Z.of_nat (totalBlocks blocks)) * 100
  else 0.

Definition isPerfectDay (blocks : list TimeBlock) : bool :=
  (0 <? totalBlocks blocks)%nat
  && (completedBlocks blocks =? totalBlocks blocks)%nat.

(** Outcome of an awaited call to the persistence layer. *)
Inductive api_result (A : Type) : Type :=
  | Resolved (value : A)
  | Rejected (message : string).
Arguments Resolved {A} value.
Arguments Rejected {A} message.

(** What a handler leaves behind besides the new state: an [alert], a normal
    return, or an error caught and logged. *)
Inductive Outcome : Type :=
  | Alert (message : string)
  | Returned
  | Logged (message : string).

(** State setters. *)
Definition setTasks (v : list Task) (st : State) : State :=
  mkState v (timeBlocks st) (xp st) (error st) (showDoneCheck st) (showPerfectDay st).
Definition setTimeBlocks (v : list TimeBlock) (st : State) : State :=
  mkState (tasks st) v (xp st) (error st) (showDoneCheck st) (showPerfectDay st).
Definition setXp (v : Z) (st : State) : State :=
  mkState (tasks st) (timeBlocks st) v (error st) (showDoneCheck st) (showPerfectDay st).
Definition setError (v : option string) (st : State) : State :=
  mkState (tasks st) (timeBlocks st) (xp st) v (showDoneCheck st) (showPerfectDay st).
Definition setShowDoneCheck (v : bool) (st : State) : State :=
  mkState (tasks st) (timeBlocks st) (xp st) (error st) v (showPerfectDay st).
Definition setShowPerfectDay (v : bool) (st : State) : State :=
  mkState (tasks st) (timeBlocks st) (xp st) (error st) (showDoneCheck st) v.

(** The check shared by both completion handlers: does completing [id] make
    every block of the current render completed? *)
Definition willBePerfect (blocks : list TimeBlock) (id : string) : bool :=
  let newCompletedCount :=
    List.length (filter (fun b => String.eqb (block_id b) id || completed b) blocks) in
  (0 <? totalBlocks blocks)%nat && (newCompletedCount =? totalBlocks blocks)%nat.

Definition signalCompletion (blocks : list TimeBlock) (id : string) (st : State) : State :=
  if willBePerfect blocks id then setShowPerfectDay true st
  else setShowDoneCheck true st.

(** ** The page backed by the remote API (first component of the file) *)

Module Backend.

(** The body of a [POST /time-blocks] request, [TimeBlockCreate]. *)
Record TimeBlockCreate : Type := mkTimeBlockCreate {
  create_title : string;
  create_duration : Q;
  create_color : string;
  create_startHour : Q;
  create_endHour : Q
}.

(** [createTimeBlock]: [None] stands for the re-thrown error. *)
Definition createTimeBlock (st : State) (data : TimeBlockCreate)
    (response : api_result TimeBlock) : State * option TimeBlock :=
  let st := setError None st in
  match response with
  | Resolved newBlock =>
      (setTimeBlocks (timeBlocks st ++ [newBlock]) st, Some newBlock)
  | Rejected message => (setError (Some message) st, None)
  end.

Definition completeTimeBlock (st : State) (id : string)
    (response : api_result TimeBlock) : State :=
  let blocks := timeBlocks st in
  let st := setError None st in
  match response with
  | Resolved updatedBlock =>
      let st := setTimeBlocks
        (map (fun block => if String.eqb (block_id block) id then updatedBlock else block)
             (timeBlocks st)) st in
      let st := setXp (xp st + 50)%Z st in
      signalCompletion blocks id st
  | Rejected message => setError (Some message) st
  end.

Definition deleteTimeBlock (st : State) (id : string)
    (response : api_result unit) : State :=
  match find (fun b => String.eqb (block_id b) id) (timeBlocks st) with
  | None => st
  | Some block =>
      let st := setError None st in
      match response with
      | Resolved _ =>
          let st := setTimeBlocks
            (filter (fun b => negb (String.eqb (block_id b) id)) (timeBlocks st)) st in
          let st := setTasks (tasks st ++ [task block]) st in
          if completed block then setXp (Z.max 0 (xp st - 50)) st else st
      | Rejected message => setError (Some message) st
      end
  end.

Definition addTimeBlock (st : State) (task' : Task) (startHour' endHour' : Q)
    (response : api_result TimeBlock) : State * Outcome :=
  if Qlt_bool 21 endHour' then
    (st, Alert "This task would extend beyond 9 PM.")
  else if hasConflict (timeBlocks st) startHour' endHour' None then
    (st, Alert "Time conflict detected!")
  else
    let pool := tasks st in
    let data := mkTimeBlockCreate (title task') (duration task') (color task')
                  startHour' endHour' in
    match createTimeBlock st data response with
    | (st, Some _) =>
        (setTasks (filter (fun t => negb (String.eqb (task_id t) (task_id task'))) pool) st,
         Returned)
    | (st, None) => (st, Logged "Failed to add time block:")
    end.

(** [handleDropOnSchedule]: the only caller of [addTimeBlock]. *)
Definition handleDropOnSchedule (st : State) (draggedTask : option Task)
    (scheduleContainerRef : option Container) (clientY : Q)
    (response : api_result TimeBlock) : State * Outcome :=
  match draggedTask with
  | None => (st, Returned)
  | Some dragged =>
      match calculateDropPosition scheduleContainerRef clientY dragged with
      | Some dropPosition =>
          addTimeBlock st dragged (drop_startHour dropPosition)
            (drop_endHour dropPosition) response
      | None => (st, Returned)
      end
  end.

(** Modelled from the spec: the server behind [timeBlockAPI.create] is not
    part of the repository.  Section 6 of the specification gives its
    contract: the created block carries the display fields of the request
    and the requested interval, and starts out not completed. *)
Definition honours_create (data : TimeBlockCreate) (b : TimeBlock) : Prop :=
  title (task b) = create_title data /\
  duration (task b) = create_duration data /\
  color (task b) = create_color data /\
  startHour b = create_startHour data /\
  endHour b = create_endHour data /\
  completed b = false.

End Backend.

(** ** The page backed by [mockAPI] (second component of the file)

    [USE_MOCK_API] is [true]: every persistence call goes to [mockAPI], which
    keeps the blocks in [localStorage] under one key. *)

Module Mock.

(** The parsed content of [localStorage[STORAGE_KEY]]; a missing key reads
    as the empty list. *)
Definition Storage : Type := list TimeBlock.

(** [Omit<TimeBlock, 'id'>]. *)
Record NewBlock : Type := mkNewBlock {
  new_task : Task;
  new_startHour : Q;
  new_endHour : Q;
  new_completed : bool
}.

Fixpoint findIndex {A : Type} (p : A -> bool) (l : list A) : option nat :=
  match l with
  | [] => None
  | x :: r => if p x then Some O else option_map S (findIndex p r)
  end.

(** [l[i] = v] for an index inside the list. *)
Fixpoint assign {A : Type} (l : list A) (i : nat) (v : A) : list A :=
  match l, i with
  | [], _ => []
  | _ :: r, O => v :: r
  | x :: r, S k => x :: assign r k v
  end.

(** [mockAPI.createBlock]; [fresh] is the identifier built from the clock
    and the random source. *)
Definition mockAPI_createBlock (storage : Storage) (fresh : string)
    (block : NewBlock) : Storage * TimeBlock :=
  let newBlock := mkTimeBlock fresh (new_task block) (new_startHour block)
                    (new_endHour block) (new_completed block) in
  (storage ++ [newBlock], newBlock).

(** [mockAPI.updateBlock]; [updates] is the spread of the partial block
    over the stored one. *)
Definition mockAPI_updateBlock (storage : Storage) (id : string)
    (updates : TimeBlock -> TimeBlock) : Storage * api_result TimeBlock :=
  match findIndex (fun b => String.eqb (block_id b) id) storage with
  | None => (storage, Rejected "Block not found")
  | Some index =>
      match nth_error storage index with
      | Some old =>
          (assign storage index (updates old), Resolved (updates old))
      | None => (storage, Rejected "Block not found")
      end
  end.

Definition mockAPI_deleteBlock (storage : Storage) (id : string) : Storage :=
  filter (fun b => negb (String.eqb (block_id b) id)) storage.

(** [{ completed: true }] spread over a block. *)
Definition mark_completed (b : TimeBlock) : TimeBlock :=
  mkTimeBlock (block_id b) (task b) (startHour b) (endHour b) true.

(** With [mockAPI] the call cannot be rejected; the catch branch of
    [createTimeBlockAPI] and of [deleteTimeBlockAPI] is never entered. *)
Definition createTimeBlockAPI (st : State) (storage : Storage) (fresh : string)
    (block : NewBlock) : State * Storage * TimeBlock :=
  let (storage, newBlock) := mockAPI_createBlock storage fresh block in
  (setTimeBlocks (timeBlocks st ++ [newBlock]) st, storage, newBlock).

(** [None] stands for the re-thrown error. *)
Definition updateTimeBlockAPI (st : State) (storage : Storage) (id : string)
    (updates : TimeBlock -> TimeBlock) : State * Storage * option TimeBlock :=
  match mockAPI_updateBlock storage id updates with
  | (storage, Resolved updatedBlock) =>
      (setTimeBlocks
         (map (fun block => if String.eqb (block_id block) id then updatedBlock else block)
              (timeBlocks st)) st,
       storage, Some updatedBlock)
  | (storage, Rejected _) =>
      (setError (Some "Failed to update time block. Please try again."%string) st,
       storage, None)
  end.

Definition deleteTimeBlockAPI (st : State) (storage : Storage) (id : string)
    : State * Storage :=
  let storage := mockAPI_deleteBlock storage id in
  (setTimeBlocks (filter (fun block => negb (String.eqb (block_id block) id))
                    (timeBlocks st)) st,
   storage).

Definition addTimeBlock (st : State) (storage : Storage) (fresh : string)
    (task' : Task) (startHour' endHour' : Q) : State * Storage * Outcome :=
  if Qlt_bool 21 endHour' then
    (st, storage,
     Alert "This task would extend beyond 9 PM. Please choose an earlier time.")
  else if hasConflict (timeBlocks st) startHour' endHour' None then
    (st, storage,
     Alert "Time conflict detected! Please choose a different time slot.")
  else
    let pool := tasks st in
    let newBlock := mkNewBlock task' startHour' endHour' false in
    match createTimeBlockAPI st storage fresh newBlock with
    | (st, storage, _) =>
        (setTasks (filter (fun t => negb (String.eqb (task_id t) (task_id task'))) pool) st,
         storage, Returned)
    end.

Definition completeBlock (st : State) (storage : Storage) (blockId : string)
    : State * Storage :=
  let blocks := timeBlocks st in
  match find (fun b => String.eqb (block_id b) blockId) blocks with
  | None => (st, storage)
  | Some block =>
      if completed block then (st, storage)
      else
        match updateTimeBlockAPI st storage blockId mark_completed with
        | (st, storage, Some _) =>
            let st := setXp (xp st + 50)%Z st in
            (signalCompletion blocks blockId st, storage)
        | (st, storage, None) => (st, storage)
        end
  end.

Definition deleteBlock (st : State) (storage : Storage) (blockId : string)
    : State * Storage :=
  let pool := tasks st in
  match find (fun b => String.eqb (block_id b) blockId) (timeBlocks st) with
  | None => (st, storage)
  | Some block =>
      let (st, storage) := deleteTimeBlockAPI st storage blockId in
      let st := setTasks (pool ++ [task block]) st in
      if completed block then (setXp (Z.max 0 (xp st - 50)) st, storage)
      else (st, storage)
  end.

End Mock.

(** ** The API-backed handlers with the server in view

    Where a statement depends on what the page posts, the persistence layer
    is a function from the request to the outcome of the call, and the
    handlers that create a block are read with that function in place of the
    bare outcome. *)

Module Remote.

(** [createTimeBlock]: [timeBlockAPI.create(data)] is the server applied to
    the request; [None] stands for the re-thrown error. *)
Definition createTimeBlock
    (api_create : Backend.TimeBlockCreate -> api_result TimeBlock)
    (st : State) (data : Backend.TimeBlockCreate) : State * option TimeBlock :=
  let st := setError None st in
  match api_create data with
  | Resolved newBlock =>
      (setTimeBlocks (timeBlocks st ++ [newBlock]) st, Some newBlock)
  | Rejected message => (setError (Some message) st, None)
  end.

Definition addTimeBlock
    (api_create : Backend.TimeBlockCreate -> api_result TimeBlock)
    (st : State) (task' : Task) (startHour' endHour' : Q) : State * Outcome :=
  if Qlt_bool 21 endHour' then
    (st, Alert "This task would extend beyond 9 PM.")
  else if hasConflict (timeBlocks st) startHour' endHour' None then
    (st, Alert "Time conflict detected!")
  else
    let pool := tasks st in
    match createTimeBlock api_create st
            (Backend.mkTimeBlockCreate (title task') (duration task') (color task')
               startHour' endHour') with
    | (st, Some _) =>
        (setTasks (filter (fun t => negb (String.eqb (task_id t) (task_id task'))) pool) st,
         Returned)
    | (st, None) => (st, Logged "Failed to add time block:")
    end.

Definition handleDropOnSchedule
    (api_create : Backend.TimeBlockCreate -> api_result TimeBlock)
    (st : State) (draggedTask : option Task)
    (scheduleContainerRef : option Container) (clientY : Q) : State * Outcome :=
  match draggedTask with
  | None => (st, Returned)
  | Some dragged =>
      match calculateDropPosition scheduleContainerRef clientY dragged with
      | Some dropPosition =>
          addTimeBlock api_create st dragged (drop_startHour dropPosition)
            (drop_endHour dropPosition)
      | None => (st, Returned)
      end
  end.

End Remote.

(** ** The mock-backed handlers in two halves

    Every handler of the mock-backed page checks its guard against the state
    of the render it was started in, awaits [mockAPI] (a timer), and only then
    touches the store and the state: through functional updaters where the
    source writes [prev => ...], and with the values of the starting render
    where it does not.  Other handlers may start or finish in between. *)

Module MockAsync.

(** A handler that has passed its checks and awaits [mockAPI], with what its
    continuation keeps from the render it was started in. *)
Inductive Pending : Type :=
  | AwaitCreate (pool : list Task) (task' : Task) (startHour' endHour' : Q)
  | AwaitUpdate (blocks : list TimeBlock) (blockId : string)
  | AwaitDelete (pool : list Task) (block : TimeBlock) (blockId : string).

(** [addTimeBlock] up to its [await]. *)
Definition addTimeBlock_start (st : State) (task' : Task) (startHour' endHour' : Q)
    : Outcome + Pending :=
  if Qlt_bool 21 endHour' then
    inl (Alert "This task would extend beyond 9 PM. Please choose an earlier time.")
  else if hasConflict (timeBlocks st) startHour' endHour' None then
    inl (Alert "Time conflict detected! Please choose a different time slot.")
  else inr (AwaitCreate (tasks st) task' startHour' endHour').

(** [completeBlock] up to its [await]. *)
Definition completeBlock_start (st : State) (blockId : string) : option Pending :=
  match find (fun b => String.eqb (block_id b) blockId) (timeBlocks st) with
  | None => None
  | Some block =>
      if completed block then None else Some (AwaitUpdate (timeBlocks st) blockId)
  end.

(** [deleteBlock] up to its [await]. *)
Definition deleteBlock_start (st : State) (blockId : string) : option Pending :=
  match find (fun b => String.eqb (block_id b) blockId) (timeBlocks st) with
  | None => None
  | Some block => Some (AwaitDelete (tasks st) block blockId)
  end.

(** The continuation of a pending handler, run on the state and the store of
    the moment the timer fires; [fresh] is the identifier [mockAPI.createBlock]
    builds at that moment. *)
Definition resume (p : Pending) (fresh : string) (st : State)
    (storage : Mock.Storage) : State * Mock.Storage :=
  match p with
  | AwaitCreate pool task' startHour' endHour' =>
      match Mock.createTimeBlockAPI st storage fresh
              (Mock.mkNewBlock task' startHour' endHour' false) with
      | (st, storage, _) =>
          (setTasks (filter (fun t => negb (String.eqb (task_id t) (task_id task'))) pool) st,
           storage)
      end
  | AwaitUpdate blocks blockId =>
      match Mock.updateTimeBlockAPI st storage blockId Mock.mark_completed with
      | (st, storage, Some _) =>
          let st := setXp (xp st + 50)%Z st in
          (signalCompletion blocks blockId st, storage)
      | (st, storage, None) => (st, storage)
      end
  | AwaitDelete pool block blockId =>
      let (st, storage) := Mock.deleteTimeBlockAPI st storage blockId in
      let st := setTasks (pool ++ [task block]) st in
      if completed block then (setXp (Z.max 0 (xp st - 50)) st, storage)
      else (st, storage)
  end.

End MockAsync.

(** ** Vocabulary of the specification *)

(** The part of a time of day past the full hour, in minutes. *)
Definition sub_hour_minutes (h : Q) : Q := (h - inject_Z (Qfloor h)) * 60.

(** [s] is the multiple of [m] nearest to [x]; when [x] lies half-way
    between two multiples, [s] is the larger one (round half up). *)
Definition nearest_multiple_half_up (x m s : Q) : Prop :=
  (exists k : Z, s == inject_Z k * m) /\
  s - Qabs m / 2 <= x /\ x < s + Qabs m / 2.

(** [r] is [h] snapped to the grid of [m] minutes: the minutes past the hour
    rounded to the nearest multiple of [m], put back on the full hour. *)
Definition snapped (h m r : Q) : Prop :=
  exists s, nearest_multiple_half_up (sub_hour_minutes h) m s /\
            r == inject_Z (Qfloor h) + s / 60.

(** [x] lies on the quarter-hour grid. *)
Definition on_quarter_grid (x : Q) : Prop := exists z : Z, x == inject_Z z / 4.

(** The candidate interval [[s, e)] overlaps the interval of [b]. *)
Definition overlaps (s e : Q) (b : TimeBlock) : Prop :=
  s < endHour b /\ startHour b < e.

(** The block is the one named by [excludeId]. *)
Definition matches_excludeId (excludeId : option string) (b : TimeBlock) : Prop :=
  excludeId = Some (block_id b).

(** The decimal digit [d], for [0 <= d <= 9]. *)
Definition digit (d : Z) : ascii := ascii_of_nat (48 + Z.to_nat d).

(** A number below 100 written with exactly two decimal digits. *)
Definition two_digits (n : Z) : string :=
  String (digit (n / 10)) (String (digit (n mod 10)) EmptyString).

(** ** Rendering geometry ([TimeBlockComponent]) *)

(** [Math.max] on two numbers. *)
Definition Math_max (a b : Q) : Q := if Qle_bool a b then b else a.

(** The [top] of a block, in pixels below the 8:00 line. *)
Definition topPosition (block : TimeBlock) : Q :=
  (startHour block - 8) * HOUR_HEIGHT.

(** The [height] of a block before the floor of 36 pixels. *)
Definition height (block : TimeBlock) : Q :=
  let duration' := endHour block - startHour block in
  duration' * HOUR_HEIGHT.

(** The height written into the style, [Math.max(height - 4, 36)]. *)
Definition styleHeight (block : TimeBlock) : Q := Math_max (height block - 4) 36.

(** The maximal height of the schedule viewport (first component). *)
Definition scheduleHeight (blocks : list TimeBlock) : Z :=
  Z.min (400 + Z.of_nat (List.length blocks) * 60) 900.

(** ** Task identifiers *)

(** [generateTaskId]: the module counter is incremented, then printed after
    the clock reading [now] ([Date.now()]).  Returns the new counter and the
    identifier. *)
Definition generateTaskId (taskIdCounter now : Z) : Z * string :=
  let taskIdCounter := (taskIdCounter + 1)%Z in
  (taskIdCounter,
   ("task-" ++ toString now ++ "-" ++ toString taskIdCounter)%string).

(** ** Strings of the form fields

    A string is a sequence of code units below 256; the white space and line
    terminators of JavaScript in that range are TAB, LF, VT, FF, CR, SP and
    NBSP. *)

Definition is_white_space (c : ascii) : bool :=
  let n := nat_of_ascii c in
  ((9 <=? n) && (n <=? 13) || (n =? 32) || (n =? 160))%nat.

Fixpoint trimStart (s : string) : string :=
  match s with
  | EmptyString => EmptyString
  | String c r => if is_white_space c then trimStart r else s
  end.

Fixpoint trimEnd (s : string) : string :=
  match s with
  | EmptyString => EmptyString
  | String c r =>
      match trimEnd r with
      | EmptyString => if is_white_space c then EmptyString else String c EmptyString
      | r' => String c r'
      end
  end.

(** [s.trim()]. *)
Definition trim (s : string) : string := trimEnd (trimStart s).

(** The value of a digit in the given radix (10 or 16), if it is one. *)
Definition digit_value (radix : Z) (c : ascii) : option Z :=
  let n := Z.of_nat (nat_of_ascii c) in
  let v :=
    if (48 <=? n)%Z && (n <=? 57)%Z then Some (n - 48)%Z
    else if (97 <=? n)%Z && (n <=? 102)%Z then Some (n - 87)%Z
    else if (65 <=? n)%Z && (n <=? 70)%Z then Some (n - 55)%Z
    else None in
  match v with
  | Some d => if (d <? radix)%Z then Some d else None
  | None => None
  end.

(** The value of the longest prefix of digits, [None] when that prefix is
    empty; [acc] is the value read so far. *)
Fixpoint parse_digits (radix : Z) (s : string) (acc : option Z) : option Z :=
  match s with
  | EmptyString => acc
  | String c r =>
      match digit_value radix c with
      | Some d =>
          parse_digits radix r
            (Some (match acc with Some a => a * radix + d | None => d end)%Z)
      | None => acc
      end
  end.

(** [parseInt(s)] without a radix argument: leading white space, an optional
    sign, an optional [0x] prefix, then digits; [None] is NaN.  The result is
    the whole number the digits denote.  JavaScript returns the double
    nearest to it, which is that number up to 2^53 in magnitude; beyond, the
    double is rounded (and infinite from 309 decimal digits on), which the
    model does not follow: see [exact_number]. *)
Definition parseInt (s : string) : option Z :=
  let S0 := trimStart s in
  let (sign, S1) :=
    match S0 with
    | String "-" r => ((-1)%Z, r)
    | String "+" r => (1%Z, r)
    | _ => (1%Z, S0)
    end in
  let (radix, S2) :=
    match S1 with
    | String "0" (String "x" r) => (16%Z, r)
    | String "0" (String "X" r) => (16%Z, r)
    | _ => (10%Z, S1)
    end in
  match parse_digits radix S2 None with
  | Some v => Some (sign * v)%Z
  | None => None
  end.

(** ** The whole page: schedule state, form fields, drag state *)

Record Form : Type := mkForm {
  newTaskTitle : string;
  newTaskDuration : string;
  newTaskColor : string;
  editingTaskId : option string;
  editTitle : string;
  editDuration : string;
  editColor : string
}.

(** The callback installed in [autoScrollIntervalRef]. *)
Inductive AutoScroll : Type := ScrollDown | ScrollUp.

Record Drag : Type := mkDrag {
  draggedTask : option Task;
  dragPreview : option DropPosition;
  autoScrollIntervalRef : option AutoScroll
}.

(** The schedule element as the drag handlers read it: the geometry used by
    [calculateDropPosition] and the bottom edge of its rectangle. *)
Record Viewport : Type := mkViewport {
  container : Container;
  rect_bottom : Q
}.

(** [PRESET_COLORS[0].value]. *)
Definition PRESET_COLOR_0 : string := "bg-blue-500".

(** [cancelEditingTask]. *)
Definition cancelEditingTask (f : Form) : Form :=
  mkForm (newTaskTitle f) (newTaskDuration f) (newTaskColor f)
    None EmptyString EmptyString EmptyString.

(** [Number.prototype.toString] where its output is the plain decimal print:
    on whole numbers below 10^21 in magnitude.  Elsewhere (a fraction, the
    exponent form from 10^21 on) the print is not modelled and the result is
    [None]. *)
Definition Number_toString (x : Q) : option string :=
  if Qeq_bool x (inject_Z (Qfloor x)) && (Z.abs (Qfloor x) <? 10 ^ 21)%Z
  then Some (toString (Qfloor x)) else None.

(** [startEditingTask]; [None] where the print of the duration is not
    modelled. *)
Definition startEditingTask (f : Form) (task' : Task) : option Form :=
  match Number_toString (duration task') with
  | Some printed =>
      Some (mkForm (newTaskTitle f) (newTaskDuration f) (newTaskColor f)
              (Some (task_id task')) (title task') printed (color task'))
  | None => None
  end.

(** [handleDeleteTask]. *)
Definition handleDeleteTask (st : State) (taskId : string) : State :=
  setTasks (filter (fun t => negb (String.eqb (task_id t) taskId)) (tasks st)) st.

(** The [map] of [saveEditedTask]: the task under edit gets the new fields. *)
Definition apply_edit (editing : option string) (title' : string) (duration' : Z)
    (color' : string) (pool : list Task) : list Task :=
  map (fun task' =>
         if id_equals (task_id task') editing
         then mkTask (task_id task') title' (inject_Z duration') color'
         else task') pool.

(** [handleDragStart], [handleDragEnd], [handleDragLeaveSchedule]. *)
Definition handleDragStart (d : Drag) (task' : Task) : Drag :=
  mkDrag (Some task') (dragPreview d) (autoScrollIntervalRef d).

Definition handleDragEnd (d : Drag) : Drag := mkDrag None None None.

Definition handleDragLeaveSchedule (d : Drag) : Drag :=
  mkDrag (draggedTask d) None None.

(** [handleDragOverSchedule]: the preview, then the auto-scroll timer. *)
Definition handleDragOverSchedule (st : State) (d : Drag)
    (scheduleContainerRef : option Viewport) (clientY : Q) : Drag :=
  match scheduleContainerRef, draggedTask d with
  | Some view, Some dragged =>
      let dropPosition :=
        calculateDropPosition (Some (container view)) clientY dragged in
      let preview :=
        match dropPosition with
        | Some p =>
            if negb (hasConflict (timeBlocks st) (drop_startHour p) (drop_endHour p) None)
            then Some p else None
        | None => None
        end in
      let scrollThreshold := 100 in
      let distanceFromBottom := rect_bottom view - clientY in
      let distanceFromTop := clientY - rect_top (container view) in
      let timer :=
        if Qlt_bool distanceFromBottom scrollThreshold && Qlt_bool 0 distanceFromBottom
        then Some ScrollDown
        else if Qlt_bool distanceFromTop scrollThreshold && Qlt_bool 0 distanceFromTop
        then Some ScrollUp
        else None in
      mkDrag (draggedTask d) preview timer
  | _, _ => d
  end.

(** ** Form handlers of the API-backed page *)

Module BackendForm.

Definition handleCreateTask (st : State) (f : Form) (taskIdCounter now : Z)
    : State * Form * Z * Outcome :=
  match trim (newTaskTitle f) with
  | EmptyString => (st, f, taskIdCounter, Alert "Please enter a task title")
  | String _ _ =>
      match parseInt (newTaskDuration f) with
      | None => (st, f, taskIdCounter, Alert "Please enter a valid duration")
      | Some duration' =>
          if (duration' <=? 0)%Z
          then (st, f, taskIdCounter, Alert "Please enter a valid duration")
          else
            let (taskIdCounter, id) := generateTaskId taskIdCounter now in
            let newTask := mkTask id (trim (newTaskTitle f)) (inject_Z duration')
                             (newTaskColor f) in
            (setTasks (tasks st ++ [newTask]) st,
             mkForm EmptyString "30" PRESET_COLOR_0 (editingTaskId f)
               (editTitle f) (editDuration f) (editColor f),
             taskIdCounter, Returned)
      end
  end.

Definition saveEditedTask (st : State) (f : Form) : State * Form * Outcome :=
  match trim (editTitle f), editDuration f with
  | EmptyString, _ => (st, f, Alert "Please fill in all fields")
  | _, EmptyString => (st, f, Alert "Please fill in all fields")
  | String _ _, String _ _ =>
      match parseInt (editDuration f) with
      | None => (st, f, Alert "Please enter a valid duration")
      | Some duration' =>
          if (duration' <=? 0)%Z
          then (st, f, Alert "Please enter a valid duration")
          else
            (setTasks (apply_edit (editingTaskId f) (trim (editTitle f)) duration'
                         (editColor f) (tasks st)) st,
             cancelEditingTask f, Returned)
      end
  end.

(** The result of the two calls awaited by [fetchTimeBlocks]: the blocks,
    then the [xp] field of the statistics. *)
Definition fetchTimeBlocks (st : State) (blocks : api_result (list TimeBlock))
    (stats_xp : api_result Z) : State * bool :=
  let st := setError None st in
  match blocks with
  | Resolved blocks' =>
      let st := setTimeBlocks blocks' st in
      match stats_xp with
      | Resolved xp' => (setXp xp' st, false)
      | Rejected message => (setError (Some message) st, false)
      end
  | Rejected message => (setError (Some message) st, false)
  end.

End BackendForm.

(** ** Form handlers and loading of the mock-backed page *)

Module MockForm.

Definition handleCreateTask (st : State) (f : Form) (taskIdCounter now : Z)
    : State * Form * Z * Outcome :=
  match trim (newTaskTitle f) with
  | EmptyString => (st, f, taskIdCounter, Alert "Please enter a task title")
  | String _ _ =>
      match parseInt (newTaskDuration f) with
      | None =>
          (st, f, taskIdCounter,
           Alert "Please enter a valid duration (positive number)")
      | Some duration' =>
          if (duration' <=? 0)%Z
          then (st, f, taskIdCounter,
                Alert "Please enter a valid duration (positive number)")
          else
            let (taskIdCounter, id) := generateTaskId taskIdCounter now in
            let newTask := mkTask id (trim (newTaskTitle f)) (inject_Z duration')
                             (newTaskColor f) in
            (setTasks (tasks st ++ [newTask]) st,
             mkForm EmptyString "30" PRESET_COLOR_0 (editingTaskId f)
               (editTitle f) (editDuration f) (editColor f),
             taskIdCounter, Returned)
      end
  end.

Definition saveEditedTask (st : State) (f : Form) : State * Form * Outcome :=
  match trim (editTitle f) with
  | EmptyString => (st, f, Alert "Please enter a task title")
  | String _ _ =>
      match parseInt (editDuration f) with
      | None => (st, f, Alert "Please enter a valid duration (positive number)")
      | Some duration' =>
          if (duration' <=? 0)%Z
          then (st, f, Alert "Please enter a valid duration (positive number)")
          else
            (setTasks (apply_edit (editingTaskId f) (trim (editTitle f)) duration'
                         (editColor f) (tasks st)) st,
             cancelEditingTask f, Returned)
      end
  end.

(** [calculateScheduleHeight]. *)
Definition calculateScheduleHeight (blocks : list TimeBlock) : Z :=
  let baseHeight := 400%Z in
  let maxHeight := 900%Z in
  if (List.length blocks =? 0)%nat then baseHeight
  else Z.min (baseHeight + Z.of_nat (List.length blocks) * 60) maxHeight.

(** [fetchTimeBlocks] with [mockAPI.getAllBlocks]: the stored blocks are
    loaded and the XP total is recomputed from them.  The second component
    is [isLoading] on return. *)
Definition fetchTimeBlocks (st : State) (storage : Mock.Storage) : State * bool :=
  let st := setError None st in
  let data := storage in
  let st := setTimeBlocks data st in
  let completedCount := List.length (filter (fun b => completed b) data) in
  (setXp (Z.of_nat completedCount * 50)%Z st, false).

End MockForm.

(** ** Vocabulary for the invariants of the schedule *)

(** Two blocks do not overlap: one ends no later than the other starts. *)
Definition disjoint_pair (a b : TimeBlock) : Prop :=
  endHour a <= startHour b \/ endHour b <= startHour a.

(** No two blocks of the list overlap. *)
Fixpoint pairwise_disjoint (blocks : list TimeBlock) : Prop :=
  match blocks with
  | [] => True
  | a :: r => (forall b, In b r -> disjoint_pair a b) /\ pairwise_disjoint r
  end.

(** The block lies in the visible day, 8:00 to 21:00. *)
Definition within_day (b : TimeBlock) : Prop :=
  8 <= startHour b /\ endHour b <= 21.

(** The invariant of the mock-backed page: the blocks shown are the blocks
    stored, their ids are distinct, no two overlap, and the XP total is 50
    per completed block. *)
Definition mock_invariant (st : State) (storage : Mock.Storage) : Prop :=
  timeBlocks st = storage /\
  NoDup (map block_id storage) /\
  pairwise_disjoint storage /\
  xp st = (50 * Z.of_nat (completedBlocks (timeBlocks st)))%Z.

(** One mutation of the schedule on the mock-backed page with the handler
    run from its first line to the end of its continuation: no other handler
    starts or finishes while it awaits [mockAPI].  A placement draws an
    identifier that no stored block carries. *)
Inductive mock_step : State * Mock.Storage -> State * Mock.Storage -> Prop :=
  | step_addTimeBlock st storage fresh t s e :
      (forall b, In b storage -> block_id b <> fresh) ->
      mock_step (st, storage) (fst (Mock.addTimeBlock st storage fresh t s e))
  | step_completeBlock st storage blockId :
      mock_step (st, storage) (Mock.completeBlock st storage blockId)
  | step_deleteBlock st storage blockId :
      mock_step (st, storage) (Mock.deleteBlock st storage blockId).

(** Any number of such mutations, each finished before the next starts. *)
Inductive mock_run : State * Mock.Storage -> State * Mock.Storage -> Prop :=
  | run_done s : mock_run s s
  | run_step s s' s'' : mock_step s s' -> mock_run s' s'' -> mock_run s s''.

(** What the mock-backed page keeps whatever the timing of its handlers: the
    blocks shown are the blocks stored, their ids are distinct, and the XP
    total is not negative. *)
Definition store_invariant (st : State) (storage : Mock.Storage) : Prop :=
  timeBlocks st = storage /\
  NoDup (map block_id storage) /\
  (0 <= xp st)%Z.

(** One event on the mock-backed page with its handlers in flight: a handler
    starts on the current render and, past its checks, joins the pending
    ones; or the timer of any pending handler fires and its continuation
    runs.  A continuation that creates a block draws an identifier that no
    stored block carries. *)
Inductive async_step :
    State * Mock.Storage * list MockAsync.Pending ->
    State * Mock.Storage * list MockAsync.Pending -> Prop :=
  | start_addTimeBlock st storage pending t s e p :
      MockAsync.addTimeBlock_start st t s e = inr p ->
      async_step (st, storage, pending) (st, storage, pending ++ [p])
  | start_completeBlock st storage pending blockId p :
      MockAsync.completeBlock_start st blockId = Some p ->
      async_step (st, storage, pending) (st, storage, pending ++ [p])
  | start_deleteBlock st storage pending blockId p :
      MockAsync.deleteBlock_start st blockId = Some p ->
      async_step (st, storage, pending) (st, storage, pending ++ [p])
  | timer_fires st storage before p after fresh :
      (forall pool t s e, p = MockAsync.AwaitCreate pool t s e ->
         forall b, In b storage -> block_id b <> fresh) ->
      async_step (st, storage, before ++ p :: after)
        (MockAsync.resume p fresh st storage, before ++ after).

(** Any number of events, in any order the timers allow. *)
Inductive async_run :
    State * Mock.Storage * list MockAsync.Pending ->
    State * Mock.Storage * list MockAsync.Pending -> Prop :=
  | async_done c : async_run c c
  | async_next c c' c'' : async_step c c' -> async_run c' c'' -> async_run c c''.

(** The number the field reads lies where [parseInt] is exact: at most 2^53
    in magnitude, so that the double JavaScript returns is the number the
    digits denote.  A field that reads no number qualifies. *)
Definition exact_number (field : string) : Prop :=
  forall d, parseInt field = Some d -> (Z.abs d <= 2 ^ 53)%Z.

(** A task as the form handlers produce it from such fields: a title that is
    not empty and has no white space around it, and a duration that is a
    positive whole number of minutes, at most 2^53. *)
Definition well_formed_task (t : Task) : Prop :=
  title t <> EmptyString /\ trim (title t) = title t /\
  exists d : Z, (0 < d <= 2 ^ 53)%Z /\ duration t = inject_Z d.

(** Every character of the string is white space. *)
Fixpoint all_white_space (s : string) : bool :=
  match s with
  | EmptyString => true
  | String c r => is_white_space c && all_white_space r
  end.

(** The string holds no minus sign. *)
Fixpoint dash_free (s : string) : bool :=
  match s with
  | EmptyString => true
  | String c r => negb (Ascii.eqb c "-") && dash_free r
  end.

(** The identifier was handed out by [generateTaskId] at a counter value of
    at most [counter]. *)
Definition issued (counter : Z) (id : string) : Prop :=
  exists now c : Z, (0 <= now)%Z /\ (c <= counter)%Z /\
    id = ("task-" ++ toString now ++ "-" ++ toString c)%string.

(** One operation on the pool: a submission of the creation form (the clock
    never reads below zero), a saved edit, a deleted task, or a placement.
    The state carries the module counter of [generateTaskId]. *)
Inductive pool_step : State * Z -> State * Z -> Prop :=
  | pool_create st f counter now :
      (0 <= now)%Z ->
      pool_step (st, counter)
        (fst (fst (fst (BackendForm.handleCreateTask st f counter now))),
         snd (fst (BackendForm.handleCreateTask st f counter now)))
  | pool_create_mock st f counter now :
      (0 <= now)%Z ->
      pool_step (st, counter)
        (fst (fst (fst (MockForm.handleCreateTask st f counter now))),
         snd (fst (MockForm.handleCreateTask st f counter now)))
  | pool_edit st f counter :
      pool_step (st, counter) (fst (fst (BackendForm.saveEditedTask st f)), counter)
  | pool_edit_mock st f counter :
      pool_step (st, counter) (fst (fst (MockForm.saveEditedTask st f)), counter)
  | pool_delete st taskId counter :
      pool_step (st, counter) (handleDeleteTask st taskId, counter)
  | pool_place st t s e response counter :
      pool_step (st, counter) (fst (Backend.addTimeBlock st t s e response), counter)
  | pool_place_mock st storage fresh t s e counter :
      pool_step (st, counter)
        (fst (fst (Mock.addTimeBlock st storage fresh t s e)), counter).

Inductive pool_run : State * Z -> State * Z -> Prop :=
  | pool_done s : pool_run s s
  | pool_next s s' s'' : pool_step s s' -> pool_run s' s'' -> pool_run s s''.

(** The pool operations with every duration field in the range where
    [parseInt] is exact. *)
Inductive exact_pool_step : State * Z -> State * Z -> Prop :=
  | exact_create st f counter now :
      (0 <= now)%Z -> exact_number (newTaskDuration f) ->
      exact_pool_step (st, counter)
        (fst (fst (fst (BackendForm.handleCreateTask st f counter now))),
         snd (fst (BackendForm.handleCreateTask st f counter now)))
  | exact_create_mock st f counter now :
      (0 <= now)%Z -> exact_number (newTaskDuration f) ->
      exact_pool_step (st, counter)
        (fst (fst (fst (MockForm.handleCreateTask st f counter now))),
         snd (fst (MockForm.handleCreateTask st f counter now)))
  | exact_edit st f counter :
      exact_number (editDuration f) ->
      exact_pool_step (st, counter) (fst (fst (BackendForm.saveEditedTask st f)), counter)
  | exact_edit_mock st f counter :
      exact_number (editDuration f) ->
      exact_pool_step (st, counter) (fst (fst (MockForm.saveEditedTask st f)), counter)
  | exact_delete st taskId counter :
      exact_pool_step (st, counter) (handleDeleteTask st taskId, counter)
  | exact_place st t s e response counter :
      exact_pool_step (st, counter) (fst (Backend.addTimeBlock st t s e response), counter)
  | exact_place_mock st storage fresh t s e counter :
      exact_pool_step (st, counter)
        (fst (fst (Mock.addTimeBlock st storage fresh t s e)), counter).

Inductive exact_pool_run : State * Z -> State * Z -> Prop :=
  | exact_done s : exact_pool_run s s
  | exact_next s s' s'' :
      exact_pool_step s s' -> exact_pool_run s' s'' -> exact_pool_run s s''.

(** * Properties *)

(** ** Arithmetic of the primitives *)

(** Linear arithmetic on [Q] does not look through a division; the divisors
    of this development are constants, turned into factors first. *)
Ltac qdiv :=
  unfold Qdiv in *;
  change (/ 2) with (1 # 2) in *; change (/ 4) with (1 # 4) in *;
  change (/ 15) with (1 # 15) in *; change (/ 60) with (1 # 60) in *;
  change (/ 80) with (1 # 80) in *.

Ltac qlra := qdiv; lra.

Lemma Qlt_bool_iff (a b : Q) : Qlt_bool a b = true <-> a < b.
Proof.
  unfold Qlt_bool. rewrite negb_true_iff. split.
  - intros H. apply Qnot_le_lt. intros Hle.
    apply Qle_bool_iff in Hle. congruence.
  - intros H. destruct (Qle_bool b a) eqn:E; [|reflexivity].
    apply Qle_bool_iff in E. exfalso. apply (Qlt_not_le _ _ H E).
Qed.

Lemma Qlt_bool_false_iff (a b : Q) : Qlt_bool a b = false <-> b <= a.
Proof.
  unfold Qlt_bool. rewrite negb_false_iff. apply Qle_bool_iff.
Qed.

Lemma Qfloor_unique (x : Q) (n : Z) :
  inject_Z n <= x -> x < inject_Z n + 1 -> Qfloor x = n.
Proof.
  intros Hlo Hhi.
  pose proof (Qfloor_le x) as Hfl.
  pose proof (Qlt_floor x) as Hfu.
  rewrite inject_Z_plus in Hfu.
  assert (H1 : (Qfloor x < n + 1)%Z).
  { rewrite Zlt_Qlt, inject_Z_plus.
    apply Qle_lt_trans with x; [exact Hfl | exact Hhi]. }
  assert (H2 : (n < Qfloor x + 1)%Z).
  { rewrite Zlt_Qlt, inject_Z_plus.
    apply Qle_lt_trans with x; [exact Hlo | exact Hfu]. }
  lia.
Qed.

Lemma Math_round_bounds (x : Q) :
  inject_Z (Math_round x) - (1 # 2) <= x /\ x < inject_Z (Math_round x) + (1 # 2).
Proof.
  unfold Math_round.
  pose proof (Qfloor_le (x + (1 # 2))) as Hfl.
  pose proof (Qlt_floor (x + (1 # 2))) as Hfu.
  rewrite inject_Z_plus in Hfu. change (inject_Z 1) with 1 in Hfu.
  split; lra.
Qed.

Lemma Math_round_unique (x : Q) (k : Z) :
  inject_Z k - (1 # 2) <= x -> x < inject_Z k + (1 # 2) -> Math_round x = k.
Proof.
  intros Hlo Hhi. unfold Math_round. apply Qfloor_unique; lra.
Qed.

Lemma Math_round_inject_Z (k : Z) : Math_round (inject_Z k) = k.
Proof. apply Math_round_unique; lra. Qed.

#[export] Instance Math_floor_comp : Proper (Qeq ==> eq) Math_floor.
Proof. intros x y E. unfold Math_floor. now apply Qfloor_comp. Qed.

#[export] Instance Math_round_comp : Proper (Qeq ==> eq) Math_round.
Proof.
  intros x y E. unfold Math_round. apply Qfloor_comp. now rewrite E.
Qed.

#[export] Instance js_trunc_comp : Proper (Qeq ==> eq) js_trunc.
Proof.
  intros x y E. unfold js_trunc, Qceiling.
  rewrite (Qleb_comp 0 0 (Qeq_refl 0) x y E).
  rewrite (Qfloor_comp x y E).
  assert (E' : - x == - y) by (now rewrite E).
  rewrite (Qfloor_comp _ _ E'). reflexivity.
Qed.

#[export] Instance js_rem_comp : Proper (Qeq ==> Qeq ==> Qeq) js_rem.
Proof.
  intros a b E n m F. unfold js_rem.
  assert (G : a / n == b / m) by (now rewrite E, F).
  rewrite (js_trunc_comp _ _ G). now rewrite E, F.
Qed.

#[export] Instance snapToInterval_comp : Proper (Qeq ==> Qeq ==> Qeq) snapToInterval.
Proof.
  intros a b E n m F. unfold snapToInterval.
  assert (G : js_rem a 1 * 60 / n == js_rem b 1 * 60 / m) by (now rewrite E, F).
  rewrite (Math_round_comp _ _ G), (Math_floor_comp _ _ E). now rewrite F.
Qed.

Lemma js_trunc_nonneg (x : Q) : 0 <= x -> js_trunc x = Qfloor x.
Proof.
  intros H. unfold js_trunc.
  apply Qle_bool_iff in H. now rewrite H.
Qed.

(** On a time of day the remainder [time % 1] is the time past the hour. *)
Lemma js_rem_1_nonneg (h : Q) :
  0 <= h -> js_rem h 1 == h - inject_Z (Qfloor h).
Proof.
  intros H. unfold js_rem.
  assert (E : h / 1 == h) by (field).
  rewrite E, (js_trunc_nonneg h H). ring.
Qed.

Lemma frac_bounds (h : Q) :
  0 <= h - inject_Z (Qfloor h) /\ h - inject_Z (Qfloor h) < 1.
Proof.
  pose proof (Qfloor_le h). pose proof (Qlt_floor h) as Hu.
  rewrite inject_Z_plus in Hu. change (inject_Z 1) with 1 in Hu.
  split; lra.
Qed.

(** ** Snapping *)

Lemma snapToInterval_nonneg (h m : Q) :
  0 <= h ->
  snapToInterval h m ==
  inject_Z (Qfloor h) + inject_Z (Math_round (sub_hour_minutes h / m)) * m / 60.
Proof.
  intros Hh. unfold snapToInterval, sub_hour_minutes, Math_floor.
  assert (G : js_rem h 1 * 60 / m == (h - inject_Z (Qfloor h)) * 60 / m).
  { now rewrite (js_rem_1_nonneg h Hh). }
  rewrite (Math_round_comp _ _ G). reflexivity.
Qed.

Lemma round_quotient_nearest (x m : Q) :
  0 < m -> nearest_multiple_half_up x m (inject_Z (Math_round (x / m)) * m).
Proof.
  intros Hm. unfold nearest_multiple_half_up.
  split; [eexists; reflexivity|].
  assert (Ha : Qabs m == m) by (apply Qabs_pos; lra).
  destruct (Math_round_bounds (x / m)) as [Hlo Hhi].
  assert (Ex : x == x / m * m) by (field; lra).
  set (q := x / m) in *. set (k := inject_Z (Math_round q)) in *.
  rewrite Ha. split.
  - assert (H : 0 <= (q - (k - (1 # 2))) * m) by (apply Qmult_le_0_compat; lra).
    assert (E : (q - (k - (1 # 2))) * m == q * m - k * m + m / 2) by field.
    rewrite E in H. lra.
  - assert (H : 0 < (k + (1 # 2) - q) * m) by (apply Qmult_lt_0_compat; lra).
    assert (E : (k + (1 # 2) - q) * m == k * m + m / 2 - q * m) by field.
    rewrite E in H. lra.
Qed.

Lemma snapToInterval_snapped (h m : Q) :
  0 <= h -> 0 < m -> snapped h m (snapToInterval h m).
Proof.
  intros Hh Hm. exists (inject_Z (Math_round (sub_hour_minutes h / m)) * m).
  split.
  - apply round_quotient_nearest; exact Hm.
  - apply snapToInterval_nonneg; exact Hh.
Qed.

(** Whatever the sign of the input, a 15-minute snap lands on a quarter hour. *)
Lemma snapToInterval_15_on_grid (h : Q) : on_quarter_grid (snapToInterval h 15).
Proof.
  unfold on_quarter_grid, snapToInterval.
  set (k := Math_round (js_rem h 1 * 60 / 15)).
  exists (4 * Math_floor h + k)%Z.
  rewrite inject_Z_plus, inject_Z_mult. change (inject_Z 4) with 4. field.
Qed.

Lemma snapToInterval_15_fixes_grid (z : Z) :
  (0 <= z)%Z -> snapToInterval (inject_Z z / 4) 15 == inject_Z z / 4.
Proof.
  intros Hz.
  pose proof (Z.div_mod z 4 ltac:(lia)) as Hdm.
  pose proof (Z.mod_pos_bound z 4 ltac:(lia)) as Hr.
  set (q := (z / 4)%Z) in *. set (r := (z mod 4)%Z) in *.
  assert (Ez : inject_Z z == 4 * inject_Z q + inject_Z r).
  { rewrite Hdm, inject_Z_plus, inject_Z_mult. reflexivity. }
  assert (Hr0 : 0 <= inject_Z r) by (change 0 with (inject_Z 0); rewrite <- Zle_Qle; lia).
  assert (Hr3 : inject_Z r <= 3) by (change 3 with (inject_Z 3); rewrite <- Zle_Qle; lia).
  assert (Hq0 : 0 <= inject_Z q).
  { change 0 with (inject_Z 0). rewrite <- Zle_Qle. subst q.
    apply Z.div_pos; lia. }
  assert (Hh : 0 <= inject_Z z / 4) by (rewrite Ez; qlra).
  assert (Hfl : Qfloor (inject_Z z / 4) = q).
  { apply Qfloor_unique; rewrite Ez; qlra. }
  rewrite (snapToInterval_nonneg _ 15 Hh). unfold sub_hour_minutes.
  rewrite Hfl.
  assert (G : (inject_Z z / 4 - inject_Z q) * 60 / 15 == inject_Z r).
  { rewrite Ez. field. }
  rewrite (Math_round_comp _ _ G), Math_round_inject_Z, Ez. field.
Qed.

Lemma snapToInterval_15_nonneg_grid (h : Q) :
  0 <= h -> exists z : Z, (0 <= z)%Z /\ snapToInterval h 15 == inject_Z z / 4.
Proof.
  intros Hh.
  set (k := Math_round (sub_hour_minutes h / 15)).
  exists (4 * Qfloor h + k)%Z. split.
  - assert (Hf : (0 <= Qfloor h)%Z).
    { rewrite <- (Qfloor_Z 0). apply Qfloor_resp_le. exact Hh. }
    assert (Hk : (0 <= k)%Z).
    { destruct (Math_round_bounds (sub_hour_minutes h / 15)) as [_ Hhi].
      fold k in Hhi. destruct (frac_bounds h) as [Hlo _].
      unfold sub_hour_minutes in Hhi.
      assert (Hlt : inject_Z (-1) < inject_Z k).
      { change (inject_Z (-1)) with (-1).
        assert (0 <= (h - inject_Z (Qfloor h)) * 60 / 15).
        { setoid_replace ((h - inject_Z (Qfloor h)) * 60 / 15)
            with ((h - inject_Z (Qfloor h)) * 4) by field. lra. }
        lra. }
      rewrite <- Zlt_Qlt in Hlt. lia. }
    lia.
  - rewrite (snapToInterval_nonneg h 15 Hh). fold k.
    rewrite inject_Z_plus, inject_Z_mult. change (inject_Z 4) with 4. field.
Qed.

(** Below zero the remainder [time % 1] is not the time past the hour: it
    is non-positive, and the snap lands at or below the floor of the input. *)
Lemma js_rem_1_negative (h : Q) : h < 0 -> js_rem h 1 <= 0.
Proof.
  intros H. unfold js_rem.
  assert (E : h / 1 == h) by field.
  rewrite (js_trunc_comp _ _ E). unfold js_trunc.
  destruct (Qle_bool 0 h) eqn:Hb.
  - apply Qle_bool_iff in Hb. lra.
  - pose proof (Qle_ceiling h). lra.
Qed.

Lemma snapToInterval_negative (h m : Q) :
  h < 0 -> 0 < m -> snapToInterval h m <= -1.
Proof.
  intros Hh Hm. unfold snapToInterval, Math_floor.
  pose proof (js_rem_1_negative h Hh) as Hr.
  set (x := js_rem h 1 * 60 / m).
  assert (Hx : x <= 0).
  { assert (Hinv : 0 < / m) by (apply Qinv_lt_0_compat; exact Hm).
    assert (H : 0 <= (- (js_rem h 1 * 60)) * / m)
      by (apply Qmult_le_0_compat; lra).
    assert (E : (- (js_rem h 1 * 60)) * / m == - x) by (unfold x; field; lra).
    rewrite E in H. lra. }
  destruct (Math_round_bounds x) as [Hlo _].
  assert (Hk : (Math_round x <= 0)%Z).
  { assert (Hlt : inject_Z (Math_round x) < inject_Z 1)
      by (change (inject_Z 1) with 1; lra).
    rewrite <- Zlt_Qlt in Hlt. lia. }
  assert (Hf : (Qfloor h <= -1)%Z).
  { pose proof (Qfloor_le h) as Hfl.
    assert (Hlt : inject_Z (Qfloor h) < inject_Z 0)
      by (change (inject_Z 0) with 0; lra).
    rewrite <- Zlt_Qlt in Hlt. lia. }
  rewrite Zle_Qle in Hk, Hf.
  change (inject_Z 0) with 0 in Hk. change (inject_Z (-1)) with (-1) in Hf.
  set (k := inject_Z (Math_round x)) in *. set (f := inject_Z (Qfloor h)) in *.
  assert (H : 0 <= (- k) * m) by (apply Qmult_le_0_compat; lra).
  assert (E : (- k) * m == - (k * m)) by ring.
  rewrite E in H. qlra.
Qed.

(** A pointer above midnight of the grid never yields a target. *)
Lemma calculateDropPosition_negative_hour (container : Container) (clientY : Q)
    (task' : Task) :
  8 + (clientY - rect_top container + scrollTop container) / HOUR_HEIGHT < 0 ->
  calculateDropPosition (Some container) clientY task' = None.
Proof.
  intros H. unfold calculateDropPosition. cbv zeta.
  pose proof (snapToInterval_negative _ SNAP_INTERVAL H ltac:(unfold SNAP_INTERVAL; lra)) as Hs.
  set (start := snapToInterval _ SNAP_INTERVAL) in *.
  assert (Hlt : Qlt_bool start 8 = true) by (apply Qlt_bool_iff; lra).
  rewrite Hlt. reflexivity.
Qed.

(** C3 (amended).  For a time of day [h >= 0] and a grid of [m > 0] minutes,
    [snapToInterval h m] takes the minutes past the full hour, rounds them to
    the nearest multiple of [m] (a half rounds up) and puts them back on the
    full hour.  In particular 9.42 snaps to 9.5 on the 15-minute grid, 9:07
    snaps to 9.0, and a 60-minute task dropped at 9:07 yields the target
    [9.0, 10.0). *)
Theorem snapToInterval_rounds_to_nearest_multiple (h m : Q) :
  0 <= h -> 0 < m ->
  snapped h m (snapToInterval h m) /\
  snapToInterval (942 # 100) 15 == 95 # 10 /\
  snapToInterval (9 + 7 / 60) 15 == 9 /\
  exists p,
    calculateDropPosition (Some (mkContainer 0 0)) (268 # 3)
      (mkTask "task-1" "Deep Work" 60 "bg-blue-500") = Some p /\
    drop_startHour p == 9 /\ drop_endHour p == 10.
Proof.
  intros Hh Hm. split; [apply snapToInterval_snapped; assumption|].
  split; [vm_compute; reflexivity|].
  split; [vm_compute; reflexivity|].
  eexists. split; [vm_compute; reflexivity|].
  split; vm_compute; reflexivity.
Qed.

Lemma snapToInterval_rounds_to_nearest_multiple_witness :
  0 <= 187 # 20 /\ 0 < 30 /\ snapped (187 # 20) 30 (snapToInterval (187 # 20) 30).
Proof.
  split; [lra|]. split; [lra|].
  apply (snapToInterval_rounds_to_nearest_multiple (187 # 20) 30); lra.
Defined.

(** C3 as stated fails outside that domain.  At [h = -0.3] the code returns
    [-1.25], an hour away from the snapped value; with the interval [-15] a
    tie (7.5 minutes) is rounded down to 0 instead of up. *)
Lemma snapToInterval_not_snapped_outside_domain :
  snapToInterval (-3 # 10) 15 == -5 # 4 /\
  ~ snapped (-3 # 10) 15 (snapToInterval (-3 # 10) 15) /\
  snapToInterval (1 # 8) (-15) == 0 /\
  ~ snapped (1 # 8) (-15) (snapToInterval (1 # 8) (-15)).
Proof.
  split; [vm_compute; reflexivity|].
  split.
  - intros [s [[_ [_ Hhi]] E]].
    assert (E1 : snapToInterval (-3 # 10) 15 == -5 # 4) by (vm_compute; reflexivity).
    assert (E2 : sub_hour_minutes (-3 # 10) == 42) by (vm_compute; reflexivity).
    rewrite E1 in E. rewrite E2 in Hhi.
    change (Qfloor (-3 # 10)) with (-1)%Z in E. change (inject_Z (-1)) with (-1) in E.
    change (Qabs 15) with 15 in Hhi. qlra.
  - split; [vm_compute; reflexivity|].
    intros [s [[_ [_ Hhi]] E]].
    assert (E1 : snapToInterval (1 # 8) (-15) == 0) by (vm_compute; reflexivity).
    assert (E2 : sub_hour_minutes (1 # 8) == 15 # 2) by (vm_compute; reflexivity).
    rewrite E1 in E. rewrite E2 in Hhi.
    change (Qfloor (1 # 8)) with 0%Z in E. change (inject_Z 0) with 0 in E.
    change (Qabs (-15)) with 15 in Hhi. qlra.
Qed.

(** C9 (amended).  On times of day, [h >= 0], the 15-minute snap is
    idempotent. *)
Theorem snapToInterval_15_idempotent (h : Q) :
  0 <= h ->
  snapToInterval (snapToInterval h 15) 15 == snapToInterval h 15.
Proof.
  intros Hh.
  destruct (snapToInterval_15_nonneg_grid h Hh) as [z [Hz E]].
  rewrite (snapToInterval_comp _ _ E 15 15 (Qeq_refl 15)), E.
  apply snapToInterval_15_fixes_grid. exact Hz.
Qed.

Lemma snapToInterval_15_idempotent_witness :
  0 <= 942 # 100 /\
  snapToInterval (snapToInterval (942 # 100) 15) 15 == snapToInterval (942 # 100) 15.
Proof.
  split; [lra|]. apply (snapToInterval_15_idempotent (942 # 100)). lra.
Defined.

(** C9 as stated fails on a negative input: [-0.3] snaps to [-1.25], which
    snaps to [-2.25]. *)
Lemma snapToInterval_15_not_idempotent_negative :
  snapToInterval (-3 # 10) 15 == -5 # 4 /\
  snapToInterval (snapToInterval (-3 # 10) 15) 15 == -9 # 4 /\
  ~ snapToInterval (snapToInterval (-3 # 10) 15) 15 == snapToInterval (-3 # 10) 15.
Proof.
  split; [vm_compute; reflexivity|].
  split; [vm_compute; reflexivity|].
  intros H. vm_compute in H. discriminate H.
Qed.

(** ** Conflict detection *)

Lemma skip_block_iff (excludeId : option string) (b : TimeBlock) :
  truthy excludeId && id_equals (block_id b) excludeId = true <->
  matches_excludeId excludeId b /\ excludeId <> Some EmptyString.
Proof.
  unfold matches_excludeId. destruct excludeId as [e|]; simpl.
  - rewrite andb_true_iff, negb_true_iff, String.eqb_neq, String.eqb_eq. split.
    + intros [Hne Heq]. subst e. split; [reflexivity|congruence].
    + intros [Heq Hne]. injection Heq as Heq. subst e. split; [congruence|reflexivity].
  - split; [discriminate|]. intros [H _]. discriminate H.
Qed.

Lemma hasConflict_true_iff (blocks : list TimeBlock) (s e : Q)
    (excludeId : option string) :
  hasConflict blocks s e excludeId = true <->
  exists b, In b blocks /\
            ~ (matches_excludeId excludeId b /\ excludeId <> Some EmptyString) /\
            overlaps s e b.
Proof.
  unfold hasConflict, overlaps. rewrite existsb_exists. split.
  - intros [b [Hin Hb]]. exists b. split; [exact Hin|].
    destruct (truthy excludeId && id_equals (block_id b) excludeId) eqn:Hskip;
      [discriminate Hb|].
    apply andb_true_iff in Hb. destruct Hb as [H1 H2].
    apply Qlt_bool_iff in H1. apply Qlt_bool_iff in H2.
    split; [|split; assumption].
    intros Hm. apply skip_block_iff in Hm. congruence.
  - intros [b [Hin [Hn [H1 H2]]]]. exists b. split; [exact Hin|].
    destruct (truthy excludeId && id_equals (block_id b) excludeId) eqn:Hskip.
    + exfalso. apply Hn. apply skip_block_iff. exact Hskip.
    + apply andb_true_iff. split; apply Qlt_bool_iff; assumption.
Qed.

(** C1 (amended).  [hasConflict] returns true exactly when some block, other
    than the one named by a non-empty [excludeId], satisfies
    [candidateStart < block.endHour] and [candidateEnd > block.startHour];
    when every block is disjoint from the candidate or merely touches it, the
    answer is false. *)
Theorem hasConflict_strict_overlap (blocks : list TimeBlock) (s e : Q)
    (excludeId : option string) :
  (hasConflict blocks s e excludeId = true <->
   exists b, In b blocks /\
             ~ (matches_excludeId excludeId b /\ excludeId <> Some EmptyString) /\
             s < endHour b /\ startHour b < e) /\
  ((forall b, In b blocks -> e <= startHour b \/ endHour b <= s) ->
   hasConflict blocks s e excludeId = false).
Proof.
  split; [apply hasConflict_true_iff|].
  intros Hdisj. destruct (hasConflict blocks s e excludeId) eqn:Hc; [|reflexivity].
  apply hasConflict_true_iff in Hc. destruct Hc as [b [Hin [_ [H1 H2]]]].
  destruct (Hdisj b Hin) as [H|H]; lra.
Qed.

Lemma hasConflict_strict_overlap_witness :
  let t := mkTask "task-1" "Deep Work" 60 "bg-blue-500" in
  let blocks := [mkTimeBlock "41" t 9 10 false; mkTimeBlock "42" t 11 12 false] in
  hasConflict blocks 10 11 None = false /\
  hasConflict blocks (39 # 4) (41 # 4) None = true /\
  hasConflict blocks (39 # 4) (41 # 4) (Some "41"%string) = false.
Proof.
  intros t blocks. split.
  - apply (hasConflict_strict_overlap blocks 10 11 None).
    intros b [Hb|[Hb|[]]]; subst b; simpl; [right|left]; lra.
  - split; reflexivity.
Defined.

(** C1 as stated fails when [excludeId] is the empty string: the guard
    [excludeId && ...] is falsy, so a block whose id is the empty string is
    compared although it matches [excludeId]. *)
Lemma hasConflict_empty_excludeId :
  let b := mkTimeBlock "" (mkTask "task-1" "Deep Work" 60 "bg-blue-500") 9 10 false in
  hasConflict [b] 9 10 (Some EmptyString) = true /\
  ~ (exists b', In b' [b] /\ ~ matches_excludeId (Some EmptyString) b' /\ overlaps 9 10 b').
Proof.
  split; [reflexivity|].
  intros [b' [[Hb|[]] [Hn _]]]. subst b'. apply Hn. reflexivity.
Qed.

(** ** Drop target *)

Lemma calculateDropPosition_bounds (ref : option Container) (clientY : Q)
    (task' : Task) (p : DropPosition) :
  calculateDropPosition ref clientY task' = Some p ->
  8 <= drop_startHour p /\ drop_endHour p <= 21.
Proof.
  unfold calculateDropPosition. destruct ref as [container|]; [|discriminate].
  cbv zeta. set (start := snapToInterval _ SNAP_INTERVAL).
  destruct (Qlt_bool start 8) eqn:Hlo; [discriminate|].
  destruct (Qlt_bool 21 (start + duration task' / 60)) eqn:Hhi; [discriminate|].
  simpl. intros H. injection H as H. subst p. simpl.
  apply Qlt_bool_false_iff in Hlo. apply Qlt_bool_false_iff in Hhi.
  split; assumption.
Qed.

(** C2.  Whenever [calculateDropPosition] returns a target, the target starts
    at the snapped pointer hour, on the quarter-hour grid and not before 8,
    ends [duration / 60] hours later and not after 21.  A 90-minute task whose
    snapped start is 20:00 gets no target. *)
Theorem calculateDropPosition_within_day (scheduleContainerRef : option Container)
    (clientY : Q) (task' : Task) (p : DropPosition) :
  calculateDropPosition scheduleContainerRef clientY task' = Some p ->
  8 <= drop_startHour p /\ drop_endHour p <= 21 /\
  drop_endHour p == drop_startHour p + duration task' / 60 /\
  on_quarter_grid (drop_startHour p) /\
  (exists container,
     scheduleContainerRef = Some container /\
     drop_startHour p ==
     snapToInterval (8 + (clientY - rect_top container + scrollTop container) / 80) 15) /\
  calculateDropPosition (Some (mkContainer 0 0)) 960
    (mkTask "task-2" "Review" 90 "bg-red-500") = None.
Proof.
  unfold calculateDropPosition.
  destruct scheduleContainerRef as [container|]; [|discriminate].
  cbv zeta.
  set (start := snapToInterval _ SNAP_INTERVAL).
  destruct (Qlt_bool start 8) eqn:Hlo; [discriminate|].
  destruct (Qlt_bool 21 (start + duration task' / 60)) eqn:Hhi; [discriminate|].
  simpl. intros H. injection H as H. subst p. simpl.
  apply Qlt_bool_false_iff in Hlo. apply Qlt_bool_false_iff in Hhi.
  split; [exact Hlo|]. split; [exact Hhi|]. split; [reflexivity|].
  split; [apply snapToInterval_15_on_grid|].
  split; [exists container; split; reflexivity|].
  vm_compute. reflexivity.
Qed.

Lemma calculateDropPosition_within_day_witness :
  let t := mkTask "task-1" "Deep Work" 60 "bg-blue-500" in
  let p := mkDropPosition (snapToInterval (8 + (268 # 3) / 80) 15)
             (snapToInterval (8 + (268 # 3) / 80) 15 + 60 / 60) in
  calculateDropPosition (Some (mkContainer 0 0)) (268 # 3) t = Some p /\
  8 <= drop_startHour p /\ drop_endHour p <= 21.
Proof.
  intros t p.
  assert (H : calculateDropPosition (Some (mkContainer 0 0)) (268 # 3) t = Some p).
  { vm_compute. reflexivity. }
  split; [exact H|].
  destruct (calculateDropPosition_within_day _ _ _ _ H) as [H1 [H2 _]].
  split; assumption.
Defined.

(** ** Derived metrics *)

Lemma filter_length_all {A : Type} (f : A -> bool) (l : list A) :
  List.length (filter f l) = List.length l <-> forall x, In x l -> f x = true.
Proof.
  induction l as [|a l IH]; simpl.
  - split; [intros _ x []|reflexivity].
  - pose proof (filter_length_le f l) as Hle.
    destruct (f a) eqn:Ha; simpl.
    + split.
      * intros H x [Hx|Hx]; [subst x; exact Ha|].
        apply IH; [lia|exact Hx].
      * intros H. f_equal. apply IH. intros x Hx. apply H. right. exact Hx.
    + split; [lia|]. intros H. specialize (H a (or_introl eq_refl)). congruence.
Qed.

Lemma isPerfectDay_iff (blocks : list TimeBlock) :
  isPerfectDay blocks = true <->
  (0 < totalBlocks blocks)%nat /\ forall b, In b blocks -> completed b = true.
Proof.
  unfold isPerfectDay, completedBlocks, totalBlocks.
  rewrite andb_true_iff, Nat.ltb_lt, Nat.eqb_eq, filter_length_all. reflexivity.
Qed.

(** C7.  In every state the progress is [completedBlocks / totalBlocks * 100]
    when there is a block and 0 when there is none, and the day is perfect
    exactly when there is a block and every block is completed. *)
Theorem derived_metrics (st : State) :
  let blocks := timeBlocks st in
  progressPercentage blocks ==
    (if Nat.eq_dec (totalBlocks blocks) 0 then 0
     else inject_Z (Z.of_nat (completedBlocks blocks))
          / inject_Z (Z.of_nat (totalBlocks blocks)) * 100) /\
  (isPerfectDay blocks = true <->
   (0 < totalBlocks blocks)%nat /\ forall b, In b blocks -> completed b = true) /\
  totalBlocks blocks = List.length blocks /\
  completedBlocks blocks = List.length (filter (fun b => completed b) blocks).
Proof.
  intros blocks. split; [|split; [apply isPerfectDay_iff|split; reflexivity]].
  unfold progressPercentage.
  destruct (Nat.eq_dec (totalBlocks blocks) 0) as [E|E].
  - rewrite E. reflexivity.
  - destruct (0 <? totalBlocks blocks)%nat eqn:Hlt; [reflexivity|].
    apply Nat.ltb_ge in Hlt. lia.
Qed.

(** Scenario E of the specification: two of three blocks completed give two
    thirds of the bar and no perfect day; the third completion gives both. *)
Example derived_metrics_scenario_E :
  let t := mkTask "task-1" "Deep Work" 60 "bg-blue-500" in
  let two := [mkTimeBlock "1" t 9 10 true; mkTimeBlock "2" t 10 11 true;
              mkTimeBlock "3" t 11 12 false] in
  let three := [mkTimeBlock "1" t 9 10 true; mkTimeBlock "2" t 10 11 true;
                mkTimeBlock "3" t 11 12 true] in
  progressPercentage two == 200 # 3 /\ isPerfectDay two = false /\
  progressPercentage three == 100 /\ isPerfectDay three = true.
Proof. repeat split; vm_compute; reflexivity. Qed.

(** ** Deleting a block *)

Lemma find_none_iff (blocks : list TimeBlock) (id : string) :
  find (fun b => String.eqb (block_id b) id) blocks = None <->
  forall b, In b blocks -> block_id b <> id.
Proof.
  split.
  - intros H b Hin Heq.
    pose proof (find_none _ _ H b Hin) as Hf. simpl in Hf.
    apply String.eqb_neq in Hf. contradiction.
  - intros H. destruct (find _ blocks) as [b|] eqn:Hf; [|reflexivity].
    apply find_some in Hf. destruct Hf as [Hin Heq].
    apply String.eqb_eq in Heq. exfalso. exact (H b Hin Heq).
Qed.

Lemma find_some_id (blocks : list TimeBlock) (id : string) (block : TimeBlock) :
  find (fun b => String.eqb (block_id b) id) blocks = Some block ->
  In block blocks /\ block_id block = id.
Proof.
  intros H. apply find_some in H. destruct H as [Hin Heq].
  apply String.eqb_eq in Heq. split; assumption.
Qed.

Lemma In_filter_other_ids (blocks : list TimeBlock) (id : string) (b : TimeBlock) :
  In b (filter (fun b => negb (String.eqb (block_id b) id)) blocks) <->
  In b blocks /\ block_id b <> id.
Proof.
  rewrite filter_In, negb_true_iff, String.eqb_neq. reflexivity.
Qed.

(** C8 (amended).  When no block carries the id, [deleteTimeBlock] changes
    nothing.  When one does and the persistence call resolves, every block
    with that id leaves the block set, the task of the block found is appended
    to the end of the pool, and the XP total drops to [max 0 (xp - 50)] if
    that block was completed and is untouched otherwise; a non-negative total
    stays non-negative.  When the call is rejected, pool, block set and XP
    total stay as they were. *)
Theorem deleteTimeBlock_spec (st : State) (id : string) :
  ((forall b, In b (timeBlocks st) -> block_id b <> id) ->
   forall response, Backend.deleteTimeBlock st id response = st) /\
  ((exists b, In b (timeBlocks st) /\ block_id b = id) ->
   exists block, In block (timeBlocks st) /\ block_id block = id /\
     let st' := Backend.deleteTimeBlock st id (Resolved tt) in
     (forall b, In b (timeBlocks st') <-> In b (timeBlocks st) /\ block_id b <> id) /\
     tasks st' = tasks st ++ [task block] /\
     xp st' = (if completed block then Z.max 0 (xp st - 50) else xp st) /\
     (0 <= xp st -> 0 <= xp st')%Z) /\
  (forall message,
     let st' := Backend.deleteTimeBlock st id (Rejected message) in
     tasks st' = tasks st /\ timeBlocks st' = timeBlocks st /\ xp st' = xp st).
Proof.
  split; [|split].
  - intros Hnone response. unfold Backend.deleteTimeBlock.
    apply find_none_iff in Hnone. rewrite Hnone. reflexivity.
  - intros [b [Hin Hid]].
    destruct (find (fun b => String.eqb (block_id b) id) (timeBlocks st))
      as [block|] eqn:Hf.
    + destruct (find_some_id _ _ _ Hf) as [Hbin Hbid].
      exists block. split; [exact Hbin|]. split; [exact Hbid|].
      unfold Backend.deleteTimeBlock. rewrite Hf. cbv zeta.
      destruct (completed block); simpl.
      * split; [intros b0; apply In_filter_other_ids|].
        split; [reflexivity|]. split; [reflexivity|]. lia.
      * split; [intros b0; apply In_filter_other_ids|].
        split; [reflexivity|]. split; [reflexivity|]. lia.
    + exfalso. rewrite find_none_iff in Hf. exact (Hf b Hin Hid).
  - intros message. unfold Backend.deleteTimeBlock.
    destruct (find _ (timeBlocks st)); simpl; repeat split; reflexivity.
Qed.

Lemma deleteTimeBlock_spec_witness :
  let t := mkTask "task-1" "Deep Work" 60 "bg-blue-500" in
  let b := mkTimeBlock "41" t 9 10 true in
  let st := mkState [] [b] 20 None false false in
  Backend.deleteTimeBlock st "40" (Resolved tt) = st /\
  Backend.deleteTimeBlock st "41" (Resolved tt) = mkState [t] [] 0 None false false.
Proof.
  intros t b st. split.
  - apply (proj1 (deleteTimeBlock_spec st "40")).
    intros b' [Hb|[]]. subst b'. discriminate.
  - reflexivity.
Defined.

(** C8 as stated fails when the persistence call is rejected: the block is
    there, and it stays; nothing is appended to the pool and the XP total of
    the completed block is kept. *)
Lemma deleteTimeBlock_rejected_keeps_block :
  let t := mkTask "task-1" "Deep Work" 60 "bg-blue-500" in
  let b := mkTimeBlock "41" t 9 10 true in
  let st := mkState [] [b] 50 None false false in
  let st' := Backend.deleteTimeBlock st "41" (Rejected "Network Error") in
  In b (timeBlocks st) /\ block_id b = "41"%string /\
  timeBlocks st' = [b] /\ tasks st' = [] /\ xp st' = 50%Z /\
  ~ (tasks st' = tasks st ++ [task b]).
Proof.
  simpl. repeat split; try reflexivity; [left; reflexivity|discriminate].
Qed.

(** A rejected persistence call leaves pool, blocks and XP as they were. *)
Lemma deleteTimeBlock_rejected (st : State) (id message : string) :
  let st' := Backend.deleteTimeBlock st id (Rejected message) in
  tasks st' = tasks st /\ timeBlocks st' = timeBlocks st /\ xp st' = xp st.
Proof.
  unfold Backend.deleteTimeBlock.
  destruct (find _ (timeBlocks st)); simpl; repeat split; reflexivity.
Qed.

(** ** Placement *)

(** C4 (amended).  [addTimeBlock] rejects, before any state change and
    whatever the persistence layer would answer, every target whose end lies
    after 21:00, wherever the target came from; the target is refused with the
    alert about 9 PM, never shortened.  Both pages behave alike. *)
Theorem addTimeBlock_rejects_end_after_21 (st : State) (task' : Task)
    (startHour' endHour' : Q) :
  21 < endHour' ->
  (forall response,
     Backend.addTimeBlock st task' startHour' endHour' response =
     (st, Alert "This task would extend beyond 9 PM.")) /\
  (forall storage fresh,
     Mock.addTimeBlock st storage fresh task' startHour' endHour' =
     (st, storage,
      Alert "This task would extend beyond 9 PM. Please choose an earlier time.")).
Proof.
  intros H. apply Qlt_bool_iff in H.
  split; intros; [unfold Backend.addTimeBlock | unfold Mock.addTimeBlock];
    rewrite H; reflexivity.
Qed.

Lemma addTimeBlock_rejects_end_after_21_witness :
  let t := mkTask "task-2" "Review" 90 "bg-red-500" in
  let st := mkState [t] [] 0 None false false in
  21 < 43 # 2 /\
  Backend.addTimeBlock st t 20 (43 # 2) (Resolved (mkTimeBlock "7" t 20 (43 # 2) false)) =
  (st, Alert "This task would extend beyond 9 PM.").
Proof.
  intros t st. split; [lra|].
  apply (addTimeBlock_rejects_end_after_21 st t 20 (43 # 2)). lra.
Defined.

(** C4 as stated fails on the lower bound: [addTimeBlock] has no check of
    [startHour < 8], so the target [7, 8) is accepted and its block added. *)
Lemma addTimeBlock_accepts_start_before_8 :
  let t := mkTask "task-1" "Deep Work" 60 "bg-blue-500" in
  let st := mkState [t] [] 0 None false false in
  let b := mkTimeBlock "7" t 7 8 false in
  7 < 8 /\
  Backend.addTimeBlock st t 7 8 (Resolved b) =
  (mkState [] [b] 0 None false false, Returned).
Proof. split; [lra|reflexivity]. Qed.

(** Every target the drop handler hands to [addTimeBlock] comes from
    [calculateDropPosition]: a drop that changes the block set placed a block
    inside the day window. *)
Lemma handleDropOnSchedule_within_day (st st' : State) (dragged : option Task)
    (ref : option Container) (clientY : Q) (response : api_result TimeBlock)
    (o : Outcome) :
  Backend.handleDropOnSchedule st dragged ref clientY response = (st', o) ->
  timeBlocks st' <> timeBlocks st ->
  exists t p, dragged = Some t /\ calculateDropPosition ref clientY t = Some p /\
              8 <= drop_startHour p /\ drop_endHour p <= 21.
Proof.
  unfold Backend.handleDropOnSchedule. intros H Hne.
  destruct dragged as [t|]; [|injection H as H _; subst st'; contradiction].
  destruct (calculateDropPosition ref clientY t) as [p|] eqn:Hp;
    [|injection H as H _; subst st'; contradiction].
  exists t, p. split; [reflexivity|]. split; [exact Hp|].
  apply (calculateDropPosition_bounds _ _ _ _ Hp).
Qed.

(** ** Place, then delete *)

Lemma filter_all_id {A : Type} (f : A -> bool) (l : list A) :
  (forall x, In x l -> f x = true) -> filter f l = l.
Proof.
  induction l as [|a l IH]; simpl; intros H; [reflexivity|].
  rewrite (H a (or_introl eq_refl)). f_equal. apply IH.
  intros x Hx. apply H. right. exact Hx.
Qed.

(** Filtering a pool with distinct ids by the id of one of its tasks removes
    that task and no other. *)
Lemma filter_pool_removes_one (pool : list Task) (t : Task) :
  In t pool -> NoDup (map task_id pool) ->
  S (List.length (filter (fun t' => negb (String.eqb (task_id t') (task_id t))) pool))
  = List.length pool.
Proof.
  induction pool as [|a l IH]; simpl; intros Hin Hnd; [contradiction|].
  inversion Hnd as [|x xs Hnotin Hnd']; subst.
  destruct Hin as [Heq|Hin].
  - subst a. rewrite String.eqb_refl. simpl. f_equal.
    rewrite filter_all_id; [reflexivity|].
    intros x Hx. apply negb_true_iff, String.eqb_neq. intros E.
    apply Hnotin. rewrite <- E. apply in_map. exact Hx.
  - destruct (String.eqb (task_id a) (task_id t)) eqn:E; simpl.
    + apply String.eqb_eq in E. exfalso. apply Hnotin. rewrite E.
      apply in_map. exact Hin.
    + f_equal. apply IH; assumption.
Qed.

Lemma find_app_fresh (l : list TimeBlock) (b : TimeBlock) :
  (forall b', In b' l -> block_id b' <> block_id b) ->
  find (fun x => String.eqb (block_id x) (block_id b)) (l ++ [b]) = Some b.
Proof.
  induction l as [|a l IH]; simpl; intros H.
  - rewrite String.eqb_refl. reflexivity.
  - destruct (String.eqb (block_id a) (block_id b)) eqn:E.
    + apply String.eqb_eq in E. exfalso. exact (H a (or_introl eq_refl) E).
    + apply IH. intros b' Hb'. apply H. right. exact Hb'.
Qed.

Lemma filter_app_fresh (l : list TimeBlock) (b : TimeBlock) :
  (forall b', In b' l -> block_id b' <> block_id b) ->
  filter (fun x => negb (String.eqb (block_id x) (block_id b))) (l ++ [b]) = l.
Proof.
  intros H. rewrite filter_app. simpl. rewrite String.eqb_refl. simpl.
  rewrite app_nil_r. apply filter_all_id.
  intros x Hx. apply negb_true_iff, String.eqb_neq. apply H. exact Hx.
Qed.

(** Filtering a pool with distinct ids by the id of one of its tasks takes
    out that very entry and leaves the others in place. *)
Lemma filter_pool_split (pool : list Task) (t : Task) :
  In t pool -> NoDup (map task_id pool) ->
  exists l1 l2,
    pool = l1 ++ t :: l2 /\
    filter (fun t' => negb (String.eqb (task_id t') (task_id t))) pool = l1 ++ l2.
Proof.
  induction pool as [|a l IH]; simpl; intros Hin Hnd; [contradiction|].
  inversion Hnd as [|x xs Hnotin Hnd']; subst.
  destruct Hin as [Heq|Hin].
  - subst a. exists [], l. split; [reflexivity|].
    rewrite String.eqb_refl. simpl. apply filter_all_id.
    intros x Hx. apply negb_true_iff, String.eqb_neq. intros E.
    apply Hnotin. rewrite <- E. apply in_map. exact Hx.
  - destruct (IH Hin Hnd') as [l1 [l2 [E1 E2]]].
    exists (a :: l1), l2. split; [simpl; rewrite E1; reflexivity|].
    destruct (String.eqb (task_id a) (task_id t)) eqn:E; simpl.
    + apply String.eqb_eq in E. exfalso. apply Hnotin. rewrite E.
      apply in_map. exact Hin.
    + rewrite E2. reflexivity.
Qed.

Lemma NoDup_snoc_iff (pool : list Task) (t : Task) :
  NoDup (map task_id pool) ->
  (NoDup (map task_id (pool ++ [t])) <-> ~ In (task_id t) (map task_id pool)).
Proof.
  induction pool as [|a l IH]; simpl; intros Hnd.
  - split; [intros _ []|intros _; constructor; [intros []|constructor]].
  - inversion Hnd as [|x xs Hnotin Hnd']; subst.
    specialize (IH Hnd'). split.
    + intros H. inversion H as [|x xs Hn Hn']; subst.
      intros [E|Hin'].
      * apply Hn. rewrite map_app, in_app_iff. right. left. symmetry. exact E.
      * apply IH in Hn'. exact (Hn' Hin').
    + intros H. constructor.
      * rewrite map_app, in_app_iff. simpl. intros [Hin'|[E|[]]].
        -- exact (Hnotin Hin').
        -- apply H. left. symmetry. exact E.
      * apply IH. intros Hin'. apply H. right. exact Hin'.
Qed.

(** With the server in view, [addTimeBlock] is the handler read on the bare
    outcome, given the server's answer to the request the page posts. *)
Lemma remote_addTimeBlock_posts (api_create : Backend.TimeBlockCreate -> api_result TimeBlock)
    (st : State) (t : Task) (s e : Q) :
  Remote.addTimeBlock api_create st t s e =
  Backend.addTimeBlock st t s e
    (api_create (Backend.mkTimeBlockCreate (title t) (duration t) (color t) s e)).
Proof.
  unfold Remote.addTimeBlock, Backend.addTimeBlock,
    Remote.createTimeBlock, Backend.createTimeBlock.
  reflexivity.
Qed.

Lemma remote_addTimeBlock_returned (api_create : Backend.TimeBlockCreate -> api_result TimeBlock)
    (st : State) (t : Task) (s e : Q) :
  snd (Remote.addTimeBlock api_create st t s e) = Returned ->
  exists b,
    api_create (Backend.mkTimeBlockCreate (title t) (duration t) (color t) s e)
      = Resolved b /\
    e <= 21 /\ hasConflict (timeBlocks st) s e None = false /\
    fst (Remote.addTimeBlock api_create st t s e) =
    setTasks (filter (fun t' => negb (String.eqb (task_id t') (task_id t))) (tasks st))
      (setTimeBlocks (timeBlocks st ++ [b]) (setError None st)).
Proof.
  unfold Remote.addTimeBlock, Remote.createTimeBlock.
  destruct (Qlt_bool 21 e) eqn:E21; [discriminate|].
  destruct (hasConflict (timeBlocks st) s e None) eqn:Hc; [discriminate|].
  cbv zeta.
  destruct (api_create _) as [b|msg] eqn:Ea; simpl; [|discriminate].
  intros _. exists b. apply Qlt_bool_false_iff in E21. repeat split; assumption.
Qed.

(** C5 (amended).  Take a pool with distinct ids and a server that answers a
    creation with a block under an unused block id carrying the display
    fields and the interval of the request it was sent.  Whenever
    [addTimeBlock] places a pooled task (the target is accepted and the call
    resolves), exactly the entry of that task leaves the pool, the others
    stay in place, and exactly one block is appended: the server's answer to
    the request built from the task and the target.  When the deletion of
    that block resolves, exactly that block leaves the block set and exactly
    one entry is appended to the pool: the task embedded in the block, whose
    title, duration and color are the original's and whose id is the one the
    block carries; the pool ids are distinct afterwards exactly when that id
    is not among the ids left in the pool.  Pool size plus block count is the
    same before, between and after. *)
Theorem place_then_delete_round_trip
    (api_create : Backend.TimeBlockCreate -> api_result TimeBlock)
    (st : State) (t : Task) (s e : Q) :
  In t (tasks st) ->
  NoDup (map task_id (tasks st)) ->
  (forall data b, api_create data = Resolved b ->
     Backend.honours_create data b /\
     forall b', In b' (timeBlocks st) -> block_id b' <> block_id b) ->
  snd (Remote.addTimeBlock api_create st t s e) = Returned ->
  let st1 := fst (Remote.addTimeBlock api_create st t s e) in
  exists b l1 l2,
    tasks st = l1 ++ t :: l2 /\ tasks st1 = l1 ++ l2 /\
    timeBlocks st1 = timeBlocks st ++ [b] /\
    title (task b) = title t /\ duration (task b) = duration t /\
    color (task b) = color t /\
    startHour b = s /\ endHour b = e /\ completed b = false /\
    let st2 := Backend.deleteTimeBlock st1 (block_id b) (Resolved tt) in
    timeBlocks st2 = timeBlocks st /\
    tasks st2 = l1 ++ l2 ++ [task b] /\
    xp st2 = xp st /\
    (NoDup (map task_id (tasks st2)) <->
     ~ In (task_id (task b)) (map task_id (l1 ++ l2))) /\
    (List.length (tasks st1) + List.length (timeBlocks st1) =
     List.length (tasks st) + List.length (timeBlocks st))%nat /\
    (List.length (tasks st2) + List.length (timeBlocks st2) =
     List.length (tasks st) + List.length (timeBlocks st))%nat.
Proof.
  intros Hin Hnd Hserver Hret st1.
  destruct (remote_addTimeBlock_returned api_create st t s e Hret)
    as [b [Ea [_ [_ E1]]]].
  destruct (Hserver _ b Ea) as [[Ht [Hd [Hcol [Hs [He Hcomp]]]]] Hfresh].
  simpl in Ht, Hd, Hcol, Hs, He.
  destruct (filter_pool_split _ _ Hin Hnd) as [l1 [l2 [Epool Efilter]]].
  exists b, l1, l2. unfold st1. rewrite E1, Efilter.
  cbn [tasks timeBlocks xp setTasks setTimeBlocks setError].
  split; [exact Epool|]. split; [reflexivity|]. split; [reflexivity|].
  split; [exact Ht|]. split; [exact Hd|]. split; [exact Hcol|].
  split; [exact Hs|]. split; [exact He|]. split; [exact Hcomp|].
  unfold Backend.deleteTimeBlock.
  cbn [tasks timeBlocks xp setTasks setTimeBlocks setError].
  rewrite (find_app_fresh _ _ Hfresh).
  cbn [tasks timeBlocks xp setTasks setTimeBlocks setError].
  rewrite (filter_app_fresh _ _ Hfresh), Hcomp.
  cbn [tasks timeBlocks xp setTasks setTimeBlocks setError].
  assert (Hrest : NoDup (map task_id (l1 ++ l2))).
  { rewrite Epool, map_app in Hnd. simpl in Hnd.
    apply NoDup_remove_1 in Hnd. rewrite map_app. exact Hnd. }
  split; [reflexivity|]. split; [rewrite <- app_assoc; reflexivity|].
  split; [reflexivity|].
  split; [apply (NoDup_snoc_iff _ _ Hrest)|].
  rewrite Epool. repeat (rewrite ?length_app; cbn [List.length]). lia.
Qed.

Lemma place_then_delete_round_trip_witness :
  let t := mkTask "task-1" "Deep Work" 60 "bg-blue-500" in
  let u := mkTask "task-2" "Review" 30 "bg-red-500" in
  let b0 := mkTimeBlock "41" u 9 10 true in
  let st := mkState [t] [b0] 50 None false false in
  let server := fun data =>
    Resolved (mkTimeBlock "42"
                (mkTask "17" (Backend.create_title data) (Backend.create_duration data)
                   (Backend.create_color data))
                (Backend.create_startHour data) (Backend.create_endHour data) false) in
  let st1 := fst (Remote.addTimeBlock server st t 10 11) in
  snd (Remote.addTimeBlock server st t 10 11) = Returned /\
  exists b l1 l2,
    tasks st = l1 ++ t :: l2 /\ tasks st1 = l1 ++ l2 /\
    timeBlocks st1 = timeBlocks st ++ [b] /\ title (task b) = title t.
Proof.
  intros t u b0 st server st1.
  assert (H1 : In t (tasks st)) by (left; reflexivity).
  assert (H2 : NoDup (map task_id (tasks st))).
  { simpl. constructor; [intros []|constructor]. }
  assert (H3 : forall data b, server data = Resolved b ->
             Backend.honours_create data b /\
             forall b', In b' (timeBlocks st) -> block_id b' <> block_id b).
  { intros data b E. unfold server in E. injection E as E. subst b. split.
    - repeat split.
    - intros b' [Hb|[]]. subst b'. discriminate. }
  assert (H4 : snd (Remote.addTimeBlock server st t 10 11) = Returned) by reflexivity.
  split; [exact H4|].
  destruct (place_then_delete_round_trip server st t 10 11 H1 H2 H3 H4)
    as [b [l1 [l2 [Ha [Hb [Hc [Hd _]]]]]]].
  exists b, l1, l2. repeat split; assumption.
Defined.

(** C5 as stated fails on each count.  Deletion appends the task embedded in
    the block as the server returned it, and no id is made: with a server
    that puts the same task id into its answers, two round trips leave two
    pool entries under one id, so the second entry did not come back under a
    new id.  Placing one of the two then removes both entries for one block.
    A rejected creation places nothing, and a rejected deletion removes
    nothing. *)
Lemma place_then_delete_outside_conditions :
  let t1 := mkTask "task-1" "Deep Work" 60 "bg-blue-500" in
  let t2 := mkTask "task-2" "Review" 30 "bg-red-500" in
  let server := fun (blockId : string) (data : Backend.TimeBlockCreate) =>
    Resolved (mkTimeBlock blockId
                (mkTask "17" (Backend.create_title data) (Backend.create_duration data)
                   (Backend.create_color data))
                (Backend.create_startHour data) (Backend.create_endHour data) false) in
  let st0 := mkState [t1; t2] [] 0 None false false in
  let st1 := fst (Remote.addTimeBlock (server "b1"%string) st0 t1 9 10) in
  let st2 := Backend.deleteTimeBlock st1 "b1"%string (Resolved tt) in
  let st3 := fst (Remote.addTimeBlock (server "b2"%string) st2 t2 10 11) in
  let st4 := Backend.deleteTimeBlock st3 "b2"%string (Resolved tt) in
  let restored := mkTask "17" "Deep Work" 60 "bg-blue-500" in
  let st5 := fst (Remote.addTimeBlock (server "b3"%string) st4 restored 9 10) in
  let failed := Remote.addTimeBlock (fun _ => Rejected "Network Error") st0 t1 9 10 in
  let kept := Backend.deleteTimeBlock st1 "b1"%string (Rejected "Network Error") in
  map task_id (tasks st2) = ["task-2"; "17"]%string /\
  map task_id (tasks st4) = ["17"; "17"]%string /\
  In restored (tasks st4) /\ List.length (tasks st4) = 2%nat /\
  tasks st5 = [] /\ List.length (timeBlocks st5) = 1%nat /\
  tasks (fst failed) = [t1; t2] /\ timeBlocks (fst failed) = [] /\
  timeBlocks kept = timeBlocks st1 /\ tasks kept = tasks st1.
Proof.
  simpl. repeat split; try reflexivity. left. reflexivity.
Qed.

(** On the mock-backed page the block embeds the dragged task itself, so the
    pool entry comes back under its old id. *)
Lemma place_then_delete_keeps_task_id :
  let t := mkTask "task-1" "Deep Work" 60 "bg-blue-500" in
  let st := mkState [t] [] 0 None false false in
  let '(st1, storage1, _) := Mock.addTimeBlock st [] "block-1" t 9 10 in
  let '(st2, _) := Mock.deleteBlock st1 storage1 "block-1" in
  tasks st1 = [] /\
  timeBlocks st1 = [mkTimeBlock "block-1" t 9 10 false] /\
  timeBlocks st2 = [] /\
  tasks st2 = [t] /\
  ~ (exists t', tasks st2 = tasks st1 ++ [t'] /\ task_id t' <> task_id t).
Proof.
  simpl. repeat split.
  intros [t' [E Hne]]. injection E as E. subst t'. apply Hne. reflexivity.
Qed.

(** On the mock-backed page the round trip hands back the dragged task
    itself, id included. *)
Lemma mock_place_then_delete_restores_task (st : State) (storage : Mock.Storage)
    (fresh : string) (t : Task) (s e : Q) :
  e <= 21 ->
  hasConflict (timeBlocks st) s e None = false ->
  (forall b', In b' (timeBlocks st) -> block_id b' <> fresh) ->
  let st1 := fst (fst (Mock.addTimeBlock st storage fresh t s e)) in
  let storage1 := snd (fst (Mock.addTimeBlock st storage fresh t s e)) in
  let st2 := fst (Mock.deleteBlock st1 storage1 fresh) in
  timeBlocks st1 = timeBlocks st ++ [mkTimeBlock fresh t s e false] /\
  timeBlocks st2 = timeBlocks st /\
  tasks st2 = tasks st1 ++ [t] /\
  xp st2 = xp st.
Proof.
  intros He Hc Hfresh.
  assert (E21 : Qlt_bool 21 e = false) by (apply Qlt_bool_false_iff; exact He).
  unfold Mock.addTimeBlock. rewrite E21, Hc. simpl.
  unfold Mock.deleteBlock. simpl.
  set (b := mkTimeBlock fresh t s e false).
  assert (Hf : forall b', In b' (timeBlocks st) -> block_id b' <> block_id b)
    by exact Hfresh.
  pose proof (find_app_fresh _ _ Hf) as E1.
  pose proof (filter_app_fresh _ _ Hf) as E2.
  simpl in E1, E2. fold b. rewrite E1. simpl. rewrite E2.
  repeat split; reflexivity.
Qed.

(** ** Completing a block *)

(** The mock-backed page guards the handler: completing a block that is
    already completed changes nothing. *)
Lemma completeBlock_completed_noop (st : State) (storage : Mock.Storage)
    (blockId : string) (block : TimeBlock) :
  find (fun b => String.eqb (block_id b) blockId) (timeBlocks st) = Some block ->
  completed block = true ->
  Mock.completeBlock st storage blockId = (st, storage).
Proof.
  intros Hf Hc. unfold Mock.completeBlock. rewrite Hf, Hc. reflexivity.
Qed.

(** An unknown id is a no-op as well. *)
Lemma completeBlock_unknown_noop (st : State) (storage : Mock.Storage)
    (blockId : string) :
  (forall b, In b (timeBlocks st) -> block_id b <> blockId) ->
  Mock.completeBlock st storage blockId = (st, storage).
Proof.
  intros H. apply find_none_iff in H. unfold Mock.completeBlock.
  rewrite H. reflexivity.
Qed.

(** C6.  The API-backed handler [completeTimeBlock] has no such guard: on a
    block that is already completed, a resolved call awards 50 XP a second
    time (50 becomes 100) and raises the perfect-day signal again, while the
    guarded [completeBlock] leaves the same state untouched. *)
Theorem completeTimeBlock_awards_twice :
  let t := mkTask "task-1" "Deep Work" 60 "bg-blue-500" in
  let b := mkTimeBlock "block-1" t 9 10 true in
  let st := mkState [] [b] 50 None false false in
  Backend.completeTimeBlock st "block-1" (Resolved b) =
    mkState [] [b] 100 None false true /\
  Mock.completeBlock st [b] "block-1" = (st, [b]).
Proof. split; reflexivity. Qed.

(** ** Formatting *)

Lemma padStart_two_digits (n : Z) :
  (0 <= n < 100)%Z -> padStart (toString n) 2 "0" = two_digits n.
Proof.
  intros Hn.
  assert (Hall : forallb (fun k => String.eqb (padStart (toString (Z.of_nat k)) 2 "0")
                                     (two_digits (Z.of_nat k)))
                   (seq 0 100) = true) by (vm_compute; reflexivity).
  rewrite forallb_forall in Hall.
  specialize (Hall (Z.to_nat n)).
  rewrite Z2Nat.id in Hall by lia.
  apply String.eqb_eq, Hall, in_seq. lia.
Qed.

Lemma Math_floor_day (hour : Q) :
  0 <= hour -> hour < 24 -> (0 <= Math_floor hour <= 23)%Z.
Proof.
  intros H0 H24. unfold Math_floor.
  pose proof (Qfloor_le hour) as Hfl.
  assert (H1 : (0 <= Qfloor hour)%Z).
  { rewrite <- (Qfloor_Z 0). apply Qfloor_resp_le. exact H0. }
  assert (H2 : (Qfloor hour < 24)%Z).
  { rewrite Zlt_Qlt. change (inject_Z 24) with 24. lra. }
  lia.
Qed.

Lemma minutes_field_range (hour : Q) :
  0 <= hour -> (0 <= Math_round (js_rem hour 1 * 60) <= 60)%Z.
Proof.
  intros H0.
  assert (G : js_rem hour 1 * 60 == (hour - inject_Z (Qfloor hour)) * 60).
  { now rewrite (js_rem_1_nonneg hour H0). }
  rewrite (Math_round_comp _ _ G).
  destruct (frac_bounds hour) as [Hlo Hhi].
  destruct (Math_round_bounds ((hour - inject_Z (Qfloor hour)) * 60)) as [Hrl Hru].
  set (m := Math_round _) in *.
  assert (H1 : (-1 < m)%Z) by (rewrite Zlt_Qlt; change (inject_Z (-1)) with (-1); lra).
  assert (H2 : (m < 61)%Z) by (rewrite Zlt_Qlt; change (inject_Z 61) with 61; lra).
  lia.
Qed.

(** The minutes field reads 60 exactly when the time is within half a
    minute of the next full hour. *)
Lemma minutes_field_60_iff (hour : Q) :
  0 <= hour ->
  (Math_round (js_rem hour 1 * 60) = 60%Z <->
   119 # 120 <= hour - inject_Z (Math_floor hour)).
Proof.
  intros H0. unfold Math_floor.
  assert (G : js_rem hour 1 * 60 == (hour - inject_Z (Qfloor hour)) * 60).
  { now rewrite (js_rem_1_nonneg hour H0). }
  rewrite (Math_round_comp _ _ G).
  destruct (frac_bounds hour) as [Hlo Hhi].
  split.
  - intros E.
    destruct (Math_round_bounds ((hour - inject_Z (Qfloor hour)) * 60)) as [Hrl _].
    rewrite E in Hrl. change (inject_Z 60) with 60 in Hrl. lra.
  - intros H. apply Math_round_unique; change (inject_Z 60) with 60; lra.
Qed.

(** C10.  [formatTime] prints the rounded minutes without carrying into the
    hour: whenever the minutes past the hour round to 60 the text ends in
    ":60" under the unchanged hour, and 9.9999 prints as "09:60".  For a time
    of day in [0, 24) the minutes field lies in [0, 60], it is 60 exactly for
    the times within half a minute of the next hour and lies in [0, 59]
    otherwise, and both fields are written with two digits. *)
Theorem formatTime_no_carry (hour : Q) :
  let h := Math_floor hour in
  let m := Math_round (js_rem hour 1 * 60) in
  (m = 60%Z -> formatTime hour = (padStart (toString h) 2 "0" ++ ":60")%string) /\
  formatTime (99999 # 10000) = "09:60"%string /\
  (0 <= hour -> hour < 24 ->
   (0 <= h <= 23)%Z /\ (0 <= m <= 60)%Z /\
   (m = 60%Z <-> 119 # 120 <= hour - inject_Z h) /\
   (m <> 60%Z -> (0 <= m <= 59)%Z) /\
   formatTime hour = (two_digits h ++ ":" ++ two_digits m)%string /\
   String.length (formatTime hour) = 5%nat).
Proof.
  intros h m.
  split; [intros E; unfold formatTime; fold h m; rewrite E; reflexivity|].
  split; [vm_compute; reflexivity|].
  intros H0 H24.
  pose proof (Math_floor_day hour H0 H24) as Hh. fold h in Hh.
  pose proof (minutes_field_range hour H0) as Hm. fold m in Hm.
  assert (Hfmt : formatTime hour = (two_digits h ++ ":" ++ two_digits m)%string).
  { unfold formatTime. fold h m.
    rewrite (padStart_two_digits h) by lia.
    rewrite (padStart_two_digits m) by lia. reflexivity. }
  split; [exact Hh|]. split; [exact Hm|].
  split; [apply minutes_field_60_iff; exact H0|].
  split; [intros Hne; lia|].
  split; [exact Hfmt|]. rewrite Hfmt. reflexivity.
Qed.

Lemma formatTime_no_carry_witness :
  0 <= 37 # 4 /\ 37 # 4 < 24 /\ formatTime (37 # 4) = "09:15"%string.
Proof.
  split; [lra|]. split; [lra|].
  destruct (formatTime_no_carry (37 # 4)) as [_ [_ H]].
  destruct H as [_ [_ [_ [_ [H _]]]]]; [lra|lra|].
  rewrite H. vm_compute. reflexivity.
Defined.

(** * Further properties of the page *)

(** ** Blocks never overlap *)

Lemma pairwise_disjoint_app_one (l : list TimeBlock) (b : TimeBlock) :
  pairwise_disjoint l -> (forall a, In a l -> disjoint_pair a b) ->
  pairwise_disjoint (l ++ [b]).
Proof.
  induction l as [|a l IH]; simpl; intros Hl Hb.
  - split; [intros x []|exact I].
  - destruct Hl as [Ha Hl]. split.
    + intros x Hx. apply in_app_or in Hx. destruct Hx as [Hx|[Hx|[]]].
      * apply Ha. exact Hx.
      * subst x. apply Hb. left. reflexivity.
    + apply IH; [exact Hl|]. intros x Hx. apply Hb. right. exact Hx.
Qed.

Lemma pairwise_disjoint_filter (f : TimeBlock -> bool) (l : list TimeBlock) :
  pairwise_disjoint l -> pairwise_disjoint (filter f l).
Proof.
  induction l as [|a l IH]; simpl; intros Hl; [exact I|].
  destruct Hl as [Ha Hl]. destruct (f a); simpl.
  - split; [|apply IH; exact Hl].
    intros b Hb. apply filter_In in Hb. apply Ha. apply Hb.
  - apply IH. exact Hl.
Qed.

Lemma pairwise_disjoint_map (f : TimeBlock -> TimeBlock) (l : list TimeBlock) :
  (forall b, startHour (f b) = startHour b /\ endHour (f b) = endHour b) ->
  pairwise_disjoint l -> pairwise_disjoint (map f l).
Proof.
  intros Hf. induction l as [|a l IH]; simpl; intros Hl; [exact I|].
  destruct Hl as [Ha Hl]. split; [|apply IH; exact Hl].
  intros b Hb. apply in_map_iff in Hb. destruct Hb as [x [Hx Hin]]. subst b.
  unfold disjoint_pair.
  destruct (Hf a) as [E1 E2]. destruct (Hf x) as [E3 E4].
  rewrite E1, E2, E3, E4. apply Ha. exact Hin.
Qed.

Lemma hasConflict_false_disjoint (blocks : list TimeBlock) (s e : Q) (b : TimeBlock) :
  hasConflict blocks s e None = false ->
  startHour b == s -> endHour b == e ->
  forall a, In a blocks -> disjoint_pair a b.
Proof.
  intros Hc Hs He a Hin. unfold disjoint_pair. rewrite Hs, He.
  destruct (Qlt_le_dec s (endHour a)) as [H1|H1]; [|left; exact H1].
  destruct (Qlt_le_dec (startHour a) e) as [H2|H2]; [|right; exact H2].
  exfalso.
  assert (Ht : hasConflict blocks s e None = true).
  { apply hasConflict_true_iff. exists a. split; [exact Hin|].
    split; [|split; assumption].
    intros [Hm _]. discriminate Hm. }
  congruence.
Qed.

(** X1.  On the API-backed page, a schedule without overlapping blocks stays
    without overlapping blocks through [addTimeBlock], whatever the task, the
    target and the outcome of the call, provided the server answers a
    creation with a block on the interval of the request it was sent; and
    through [deleteTimeBlock] unconditionally. *)
Theorem backend_blocks_stay_disjoint (st : State) :
  pairwise_disjoint (timeBlocks st) ->
  (forall api_create t s e,
     (forall data b, api_create data = Resolved b ->
        startHour b == Backend.create_startHour data /\
        endHour b == Backend.create_endHour data) ->
     pairwise_disjoint (timeBlocks (fst (Remote.addTimeBlock api_create st t s e)))) /\
  (forall id response,
     pairwise_disjoint (timeBlocks (Backend.deleteTimeBlock st id response))).
Proof.
  intros Hd. split.
  - intros api_create t s e Hserver.
    unfold Remote.addTimeBlock, Remote.createTimeBlock.
    destruct (Qlt_bool 21 e); [exact Hd|].
    destruct (hasConflict (timeBlocks st) s e None) eqn:Hc; [exact Hd|].
    cbv zeta.
    destruct (api_create _) as [b|msg] eqn:Ea; simpl; [|exact Hd].
    destruct (Hserver _ b Ea) as [Hs He]. simpl in Hs, He.
    apply pairwise_disjoint_app_one; [exact Hd|].
    apply (hasConflict_false_disjoint _ _ _ _ Hc Hs He).
  - intros id response. unfold Backend.deleteTimeBlock.
    destruct (find _ (timeBlocks st)) as [block|]; [|exact Hd].
    destruct response as [u|msg]; [|exact Hd].
    destruct (completed block); simpl; apply pairwise_disjoint_filter; exact Hd.
Qed.

Lemma backend_blocks_stay_disjoint_witness :
  let t := mkTask "task-1" "Deep Work" 60 "bg-blue-500" in
  let b0 := mkTimeBlock "41" t 9 10 false in
  let server := fun data =>
    Resolved (mkTimeBlock "42"
                (mkTask "17" (Backend.create_title data) (Backend.create_duration data)
                   (Backend.create_color data))
                (Backend.create_startHour data) (Backend.create_endHour data) false) in
  let st := mkState [t] [b0] 0 None false false in
  pairwise_disjoint (timeBlocks st) /\
  timeBlocks (fst (Remote.addTimeBlock server st t 10 11)) =
    [b0; mkTimeBlock "42" (mkTask "17" "Deep Work" 60 "bg-blue-500") 10 11 false] /\
  pairwise_disjoint (timeBlocks (fst (Remote.addTimeBlock server st t 10 11))).
Proof.
  intros t b0 server st.
  assert (H : pairwise_disjoint (timeBlocks st)).
  { simpl. split; [intros x []|exact I]. }
  split; [exact H|]. split; [reflexivity|].
  apply (proj1 (backend_blocks_stay_disjoint st H) server t 10 11).
  intros data b E. unfold server in E. injection E as E. subst b. simpl.
  split; reflexivity.
Defined.

(** ** The invariant of the mock-backed page *)

Lemma NoDup_ids_unique (l : list TimeBlock) (a b : TimeBlock) :
  NoDup (map block_id l) -> In a l -> In b l -> block_id a = block_id b -> a = b.
Proof.
  induction l as [|x l IH]; simpl; intros Hnd Ha Hb E; [contradiction|].
  inversion Hnd as [|y ys Hnotin Hnd']; subst.
  destruct Ha as [Ha|Ha], Hb as [Hb|Hb]; subst.
  - reflexivity.
  - exfalso. apply Hnotin. rewrite E. apply in_map. exact Hb.
  - exfalso. apply Hnotin. rewrite <- E. apply in_map. exact Ha.
  - apply IH; assumption.
Qed.

Lemma NoDup_ids_app_one (l : list TimeBlock) (b : TimeBlock) :
  NoDup (map block_id l) -> (forall a, In a l -> block_id a <> block_id b) ->
  NoDup (map block_id (l ++ [b])).
Proof.
  induction l as [|x l IH]; simpl; intros Hnd Hb.
  - constructor; [intros []|constructor].
  - inversion Hnd as [|y ys Hnotin Hnd']; subst. constructor.
    + rewrite map_app, in_app_iff. simpl. intros [H|[H|[]]].
      * exact (Hnotin H).
      * exact (Hb x (or_introl eq_refl) (eq_sym H)).
    + apply IH; [exact Hnd'|]. intros a Ha. apply Hb. right. exact Ha.
Qed.

Lemma NoDup_ids_filter (f : TimeBlock -> bool) (l : list TimeBlock) :
  NoDup (map block_id l) -> NoDup (map block_id (filter f l)).
Proof.
  induction l as [|x l IH]; simpl; intros Hnd; [constructor|].
  inversion Hnd as [|y ys Hnotin Hnd']; subst.
  destruct (f x); simpl; [|apply IH; exact Hnd'].
  constructor; [|apply IH; exact Hnd'].
  intros H. apply Hnotin. apply in_map_iff in H. destruct H as [a [E Ha]].
  apply filter_In in Ha. rewrite <- E. apply in_map. apply Ha.
Qed.

(** With distinct ids, the in-place update of [mockAPI.updateBlock] and the
    [map] of [updateTimeBlockAPI] rewrite the same single block. *)
Lemma updateBlock_as_map (l : list TimeBlock) (id : string) (old : TimeBlock)
    (f : TimeBlock -> TimeBlock) :
  NoDup (map block_id l) ->
  find (fun b => String.eqb (block_id b) id) l = Some old ->
  Mock.mockAPI_updateBlock l id f =
  (map (fun b => if String.eqb (block_id b) id then f old else b) l,
   Resolved (f old)).
Proof.
  unfold Mock.mockAPI_updateBlock.
  induction l as [|x l IH]; simpl; intros Hnd Hf; [discriminate|].
  inversion Hnd as [|y ys Hnotin Hnd']; subst.
  destruct (String.eqb (block_id x) id) eqn:E.
  - injection Hf as Hf. subst x. simpl. f_equal. f_equal.
    apply String.eqb_eq in E. symmetry. rewrite <- (map_id l) at 2.
    apply map_ext_in. intros a Ha.
    destruct (String.eqb (block_id a) id) eqn:Ea; [|reflexivity].
    apply String.eqb_eq in Ea. exfalso. apply Hnotin. rewrite E, <- Ea.
    apply in_map. exact Ha.
  - specialize (IH Hnd' Hf).
    destruct (Mock.findIndex (fun b => String.eqb (block_id b) id) l) as [i|];
      simpl in *.
    + destruct (nth_error l i) as [o|]; [|discriminate].
      injection IH as IH1 IH2. rewrite IH1, IH2. reflexivity.
    + discriminate.
Qed.

Lemma mark_found_as_map (l : list TimeBlock) (id : string) (old : TimeBlock) :
  NoDup (map block_id l) ->
  find (fun b => String.eqb (block_id b) id) l = Some old ->
  map (fun b => if String.eqb (block_id b) id then Mock.mark_completed old else b) l =
  map (fun b => if String.eqb (block_id b) id then Mock.mark_completed b else b) l.
Proof.
  intros Hnd Hf. destruct (find_some_id _ _ _ Hf) as [Hin Hid].
  apply map_ext_in. intros a Ha.
  destruct (String.eqb (block_id a) id) eqn:E; [|reflexivity].
  apply String.eqb_eq in E. f_equal.
  apply (NoDup_ids_unique l); try assumption. congruence.
Qed.

Lemma completed_count_after_mark (l : list TimeBlock) (id : string) (old : TimeBlock) :
  NoDup (map block_id l) ->
  find (fun b => String.eqb (block_id b) id) l = Some old ->
  completed old = false ->
  completedBlocks
    (map (fun b => if String.eqb (block_id b) id then Mock.mark_completed b else b) l)
  = S (completedBlocks l).
Proof.
  unfold completedBlocks.
  induction l as [|x l IH]; simpl; intros Hnd Hf Hc; [discriminate|].
  inversion Hnd as [|y ys Hnotin Hnd']; subst.
  destruct (String.eqb (block_id x) id) eqn:E.
  - injection Hf as Hf. subst x. simpl. rewrite Hc. f_equal. f_equal. f_equal.
    apply String.eqb_eq in E. rewrite <- (map_id l) at 2.
    apply map_ext_in. intros a Ha.
    destruct (String.eqb (block_id a) id) eqn:Ea; [|reflexivity].
    apply String.eqb_eq in Ea. exfalso. apply Hnotin. rewrite E, <- Ea.
    apply in_map. exact Ha.
  - specialize (IH Hnd' Hf Hc).
    destruct (completed x); simpl; rewrite IH; reflexivity.
Qed.

Lemma completed_count_after_delete (l : list TimeBlock) (id : string) (old : TimeBlock) :
  NoDup (map block_id l) ->
  find (fun b => String.eqb (block_id b) id) l = Some old ->
  completedBlocks l =
  (completedBlocks (filter (fun b => negb (String.eqb (block_id b) id)) l)
   + (if completed old then 1 else 0))%nat.
Proof.
  unfold completedBlocks.
  induction l as [|x l IH]; simpl; intros Hnd Hf; [discriminate|].
  inversion Hnd as [|y ys Hnotin Hnd']; subst.
  destruct (String.eqb (block_id x) id) eqn:E; simpl.
  - injection Hf as Hf. subst x.
    apply String.eqb_eq in E.
    rewrite (filter_all_id (fun b => negb (String.eqb (block_id b) id)) l).
    + destruct (completed old); simpl; lia.
    + intros a Ha. apply negb_true_iff, String.eqb_neq. intros Ea.
      apply Hnotin. rewrite E, <- Ea. apply in_map. exact Ha.
  - specialize (IH Hnd' Hf).
    destruct (completed x); simpl; rewrite IH; lia.
Qed.

Lemma completed_count_app_open (l : list TimeBlock) (b : TimeBlock) :
  completed b = false -> completedBlocks (l ++ [b]) = completedBlocks l.
Proof.
  intros H. unfold completedBlocks. rewrite filter_app. simpl. rewrite H.
  rewrite app_nil_r. reflexivity.
Qed.

Lemma mock_step_invariant (s s' : State * Mock.Storage) :
  mock_step s s' ->
  mock_invariant (fst s) (snd s) -> mock_invariant (fst s') (snd s').
Proof.
  intros Hstep. destruct Hstep as [st storage fresh t s e Hfresh
                                  | st storage blockId | st storage blockId];
    simpl; intros [Hsync [Hnd [Hdis Hxp]]].
  - unfold Mock.addTimeBlock.
    destruct (Qlt_bool 21 e); [simpl; repeat split; assumption|].
    destruct (hasConflict (timeBlocks st) s e None) eqn:Hc;
      [simpl; repeat split; assumption|].
    simpl. set (nb := mkTimeBlock fresh t s e false).
    split; [rewrite Hsync; reflexivity|].
    split; [apply NoDup_ids_app_one; [exact Hnd|exact Hfresh]|].
    split.
    + apply pairwise_disjoint_app_one; [exact Hdis|].
      rewrite Hsync in Hc.
      apply (hasConflict_false_disjoint _ s e nb Hc); reflexivity.
    + cbn [xp timeBlocks setTasks setTimeBlocks].
      rewrite (completed_count_app_open _ nb eq_refl). exact Hxp.
  - unfold Mock.completeBlock.
    destruct (find (fun b => String.eqb (block_id b) blockId) (timeBlocks st))
      as [block|] eqn:Hf; [|simpl; repeat split; assumption].
    destruct (completed block) eqn:Hc; [simpl; repeat split; assumption|].
    unfold Mock.updateTimeBlockAPI.
    rewrite Hsync in Hf.
    rewrite (updateBlock_as_map _ _ _ Mock.mark_completed Hnd Hf).
    rewrite Hsync. unfold signalCompletion.
    rewrite (mark_found_as_map _ _ _ Hnd Hf).
    set (g := fun b => if String.eqb (block_id b) blockId
                       then Mock.mark_completed b else b).
    assert (Hg : forall b, block_id (g b) = block_id b /\
                           startHour (g b) = startHour b /\
                           endHour (g b) = endHour b).
    { intros b. unfold g. destruct (String.eqb (block_id b) blockId);
        simpl; repeat split. }
    assert (Hids : map block_id (map g storage) = map block_id storage).
    { rewrite map_map. apply map_ext. intros b. apply Hg. }
    pose proof (completed_count_after_mark _ _ _ Hnd Hf Hc) as Hcount.
    fold g in Hcount.
    unfold mock_invariant.
    destruct (willBePerfect storage blockId);
      cbn [fst snd xp timeBlocks setXp setTimeBlocks setShowPerfectDay
           setShowDoneCheck setError];
      (split; [reflexivity|]); (split; [rewrite Hids; exact Hnd|]);
      (split; [apply pairwise_disjoint_map; [intros b; apply Hg|exact Hdis]|]);
      rewrite Hcount, Hxp, Hsync; lia.
  - unfold Mock.deleteBlock.
    destruct (find (fun b => String.eqb (block_id b) blockId) (timeBlocks st))
      as [block|] eqn:Hf; [|simpl; repeat split; assumption].
    rewrite Hsync in Hf.
    pose proof (completed_count_after_delete _ _ _ Hnd Hf) as Hcount.
    unfold Mock.deleteTimeBlockAPI, Mock.mockAPI_deleteBlock. rewrite Hsync.
    unfold mock_invariant.
    destruct (completed block) eqn:Hc;
      cbn [fst snd xp tasks timeBlocks setXp setTasks setTimeBlocks];
      (split; [reflexivity|]); (split; [apply NoDup_ids_filter; exact Hnd|]);
      (split; [apply pairwise_disjoint_filter; exact Hdis|]);
      rewrite Hxp, Hsync; lia.
Qed.

(** Each handler of the mock-backed page is its first half followed by its
    continuation. *)
Lemma addTimeBlock_two_halves (st : State) (storage : Mock.Storage) (fresh : string)
    (t : Task) (s e : Q) :
  Mock.addTimeBlock st storage fresh t s e =
  match MockAsync.addTimeBlock_start st t s e with
  | inl alert => (st, storage, alert)
  | inr p => (MockAsync.resume p fresh st storage, Returned)
  end.
Proof.
  unfold Mock.addTimeBlock, MockAsync.addTimeBlock_start.
  destruct (Qlt_bool 21 e); [reflexivity|].
  destruct (hasConflict (timeBlocks st) s e None); reflexivity.
Qed.

Lemma completeBlock_two_halves (st : State) (storage : Mock.Storage)
    (fresh blockId : string) :
  Mock.completeBlock st storage blockId =
  match MockAsync.completeBlock_start st blockId with
  | None => (st, storage)
  | Some p => MockAsync.resume p fresh st storage
  end.
Proof.
  unfold Mock.completeBlock, MockAsync.completeBlock_start.
  destruct (find _ (timeBlocks st)) as [block|]; [|reflexivity].
  destruct (completed block); reflexivity.
Qed.

Lemma deleteBlock_two_halves (st : State) (storage : Mock.Storage)
    (fresh blockId : string) :
  Mock.deleteBlock st storage blockId =
  match MockAsync.deleteBlock_start st blockId with
  | None => (st, storage)
  | Some p => MockAsync.resume p fresh st storage
  end.
Proof.
  unfold Mock.deleteBlock, MockAsync.deleteBlock_start.
  destruct (find _ (timeBlocks st)) as [block|]; reflexivity.
Qed.

Lemma async_run_trans (c c' c'' : State * Mock.Storage * list MockAsync.Pending) :
  async_run c c' -> async_run c' c'' -> async_run c c''.
Proof.
  intros H. induction H as [c|c c1 c2 Hstep _ IH]; intros H'; [exact H'|].
  apply (async_next _ _ _ Hstep). apply IH. exact H'.
Qed.

(** A handler run from start to end is the interleaving in which its timer
    fires before anything else happens. *)
Lemma mock_step_async (s s' : State * Mock.Storage) :
  mock_step s s' -> async_run (s, []) (s', []).
Proof.
  intros Hstep.
  destruct Hstep as [st storage fresh t s e Hfresh
                    | st storage blockId | st storage blockId].
  - rewrite addTimeBlock_two_halves.
    destruct (MockAsync.addTimeBlock_start st t s e) as [alert|p] eqn:E.
    + apply async_done.
    + apply (async_next _ _ _ (start_addTimeBlock st storage [] t s e p E)).
      apply (async_next _ _ _ (timer_fires st storage [] p [] fresh
                                 (fun _ _ _ _ _ => Hfresh))).
      apply async_done.
  - rewrite (completeBlock_two_halves st storage EmptyString).
    destruct (MockAsync.completeBlock_start st blockId) as [p|] eqn:E.
    + apply (async_next _ _ _ (start_completeBlock st storage [] blockId p E)).
      assert (Hp : forall pool t s e, p = MockAsync.AwaitCreate pool t s e ->
                   forall b, In b storage -> block_id b <> EmptyString).
      { intros pool t s e Ep. exfalso. unfold MockAsync.completeBlock_start in E.
        destruct (find _ (timeBlocks st)) as [block|]; [|discriminate].
        destruct (completed block); [discriminate|]. congruence. }
      apply (async_next _ _ _ (timer_fires st storage [] p [] EmptyString Hp)).
      apply async_done.
    + apply async_done.
  - rewrite (deleteBlock_two_halves st storage EmptyString).
    destruct (MockAsync.deleteBlock_start st blockId) as [p|] eqn:E.
    + apply (async_next _ _ _ (start_deleteBlock st storage [] blockId p E)).
      assert (Hp : forall pool t s e, p = MockAsync.AwaitCreate pool t s e ->
                   forall b, In b storage -> block_id b <> EmptyString).
      { intros pool t s e Ep. exfalso. unfold MockAsync.deleteBlock_start in E.
        destruct (find _ (timeBlocks st)) as [block|]; [|discriminate]. congruence. }
      apply (async_next _ _ _ (timer_fires st storage [] p [] EmptyString Hp)).
      apply async_done.
    + apply async_done.
Qed.

Lemma find_none_findIndex (l : list TimeBlock) (id : string) :
  find (fun b => String.eqb (block_id b) id) l = None ->
  Mock.findIndex (fun b => String.eqb (block_id b) id) l = None.
Proof.
  induction l as [|x l IH]; simpl; [reflexivity|].
  destruct (String.eqb (block_id x) id); [discriminate|].
  intros H. rewrite (IH H). reflexivity.
Qed.

(** A continuation keeps the page in step with the store, whatever the
    render it was started in. *)
Lemma resume_store_invariant (p : MockAsync.Pending) (fresh : string)
    (st : State) (storage : Mock.Storage) :
  (forall pool t s e, p = MockAsync.AwaitCreate pool t s e ->
     forall b, In b storage -> block_id b <> fresh) ->
  store_invariant st storage ->
  store_invariant (fst (MockAsync.resume p fresh st storage))
                  (snd (MockAsync.resume p fresh st storage)).
Proof.
  intros Hfresh [Hsync [Hnd Hxp]].
  destruct p as [pool t s e|blocks blockId|pool block blockId];
    unfold MockAsync.resume.
  - unfold Mock.createTimeBlockAPI, Mock.mockAPI_createBlock.
    unfold store_invariant.
    cbn [fst snd xp timeBlocks setTasks setTimeBlocks
         Mock.new_task Mock.new_startHour Mock.new_endHour Mock.new_completed].
    split; [rewrite Hsync; reflexivity|]. split; [|exact Hxp].
    apply NoDup_ids_app_one; [exact Hnd|].
    exact (Hfresh pool t s e eq_refl).
  - unfold Mock.updateTimeBlockAPI.
    destruct (find (fun b => String.eqb (block_id b) blockId) storage)
      as [old|] eqn:Hf.
    + rewrite (updateBlock_as_map _ _ _ Mock.mark_completed Hnd Hf).
      rewrite Hsync. unfold signalCompletion, store_invariant.
      set (g := fun b => if String.eqb (block_id b) blockId
                         then Mock.mark_completed old else b).
      assert (Hids : map block_id (map g storage) = map block_id storage).
      { rewrite map_map. apply map_ext. intros b. unfold g.
        destruct (String.eqb (block_id b) blockId) eqn:E; [|reflexivity].
        apply String.eqb_eq in E. destruct (find_some_id _ _ _ Hf) as [_ Hid].
        simpl. congruence. }
      destruct (willBePerfect blocks blockId);
        cbn [fst snd xp timeBlocks setXp setTimeBlocks setShowPerfectDay
             setShowDoneCheck setError];
        (split; [reflexivity|]); (split; [rewrite Hids; exact Hnd|]); lia.
    + unfold Mock.mockAPI_updateBlock. rewrite (find_none_findIndex _ _ Hf).
      unfold store_invariant. cbn [fst snd xp timeBlocks setError].
      repeat split; assumption.
  - unfold Mock.deleteTimeBlockAPI, Mock.mockAPI_deleteBlock. rewrite Hsync.
    unfold store_invariant.
    destruct (completed block);
      cbn [fst snd xp tasks timeBlocks setXp setTasks setTimeBlocks];
      (split; [reflexivity|]); (split; [apply NoDup_ids_filter; exact Hnd|]); lia.
Qed.

Lemma async_step_store_invariant (c c' : State * Mock.Storage * list MockAsync.Pending) :
  async_step c c' ->
  store_invariant (fst (fst c)) (snd (fst c)) ->
  store_invariant (fst (fst c')) (snd (fst c')).
Proof.
  intros Hstep.
  destruct Hstep as [st storage pending t s e p _
                    | st storage pending blockId p _
                    | st storage pending blockId p _
                    | st storage before p after fresh Hfresh];
    cbn [fst snd]; intros Hinv; try exact Hinv.
  apply resume_store_invariant; assumption.
Qed.

(** X2.  On the mock-backed page, once [fetchTimeBlocks] has loaded a storage
    whose blocks have distinct ids, the page stays in step with the storage
    whatever the timing: handlers (placements, completions, deletions) may
    start while others await [mockAPI], and the timers may fire in any
    order; after every event the blocks shown are the blocks stored, ids are
    distinct (a created block draws an unused one), and the XP total is not
    negative.  When moreover the loaded blocks do not overlap and each
    handler runs to the end of its continuation before the next one starts,
    the run is one of those interleavings, no two blocks ever overlap, and
    the XP total is 50 per completed block. *)
Theorem mock_page_invariant (st : State) (storage : Mock.Storage) :
  NoDup (map block_id storage) ->
  let loaded := fst (MockForm.fetchTimeBlocks st storage) in
  (forall c', async_run (loaded, storage, []) c' ->
     store_invariant (fst (fst c')) (snd (fst c'))) /\
  (pairwise_disjoint storage ->
   forall s', mock_run (loaded, storage) s' ->
     mock_invariant (fst s') (snd s') /\
     async_run (loaded, storage, []) (s', [])).
Proof.
  intros Hnd loaded. split.
  - intros c' Hrun.
    assert (H0 : store_invariant loaded storage).
    { unfold store_invariant, loaded, MockForm.fetchTimeBlocks.
      cbn [fst xp timeBlocks setXp setTimeBlocks setError].
      repeat split; try assumption. lia. }
    remember (loaded, storage, @nil MockAsync.Pending) as c0 eqn:E0.
    assert (Hinv : store_invariant (fst (fst c0)) (snd (fst c0)))
      by (subst c0; exact H0).
    clear E0 H0. induction Hrun as [c|c c1 c2 Hstep _ IH]; [exact Hinv|].
    apply IH. apply (async_step_store_invariant c c1 Hstep Hinv).
  - intros Hdis s' Hrun.
    assert (H0 : mock_invariant loaded storage).
    { unfold mock_invariant, loaded, MockForm.fetchTimeBlocks, completedBlocks.
      cbn [fst xp timeBlocks setXp setTimeBlocks setError].
      repeat split; try assumption. apply Z.mul_comm. }
    remember (loaded, storage) as s0 eqn:E0.
    assert (Hinv : mock_invariant (fst s0) (snd s0)) by (subst s0; exact H0).
    clear E0 H0. induction Hrun as [s|s s1 s2 Hstep _ IH].
    + split; [exact Hinv|apply async_done].
    + destruct (IH (mock_step_invariant s s1 Hstep Hinv)) as [H1 H2].
      split; [exact H1|].
      apply (async_run_trans _ _ _ (mock_step_async s s1 Hstep) H2).
Qed.

Lemma mock_page_invariant_witness :
  let t := mkTask "task-1" "Deep Work" 60 "bg-blue-500" in
  let b := mkTimeBlock "block-1" t 9 10 false in
  let st0 := mkState [] [] 0 None false false in
  let st1 := fst (MockForm.fetchTimeBlocks st0 [b]) in
  let s2 := Mock.completeBlock st1 [b] "block-1" in
  xp (fst s2) = 50%Z /\ mock_invariant (fst s2) (snd s2).
Proof.
  intros t b st0 st1 s2. split; [reflexivity|].
  assert (Hnd : NoDup (map block_id [b])).
  { simpl. constructor; [intros []|constructor]. }
  assert (Hdis : pairwise_disjoint [b]).
  { simpl. split; [intros x []|exact I]. }
  apply (proj2 (mock_page_invariant st0 [b] Hnd) Hdis s2).
  apply (run_step _ _ _ (step_completeBlock st1 [b] "block-1")). apply run_done.
Defined.

(** Outside the sequential runs the XP total and the completed blocks part
    ways: two clicks on the same open block, the second before the timer of
    the first has fired, award 100 XP for one completed block; the page and
    the store still agree. *)
Example double_click_awards_twice :
  let t := mkTask "task-1" "Deep Work" 60 "bg-blue-500" in
  let b := mkTimeBlock "block-1" t 9 10 false in
  let st := mkState [] [b] 0 None false false in
  exists p st',
    MockAsync.completeBlock_start st "block-1" = Some p /\
    async_run (st, [b], []) (st', [Mock.mark_completed b], []) /\
    timeBlocks st' = [Mock.mark_completed b] /\
    xp st' = 100%Z /\ completedBlocks (timeBlocks st') = 1%nat.
Proof.
  intros t b st.
  exists (MockAsync.AwaitUpdate [b] "block-1").
  set (p := MockAsync.AwaitUpdate [b] "block-1").
  assert (Hp : forall (storage : Mock.Storage) pool t' s e,
             p = MockAsync.AwaitCreate pool t' s e ->
             forall x, In x storage -> block_id x <> EmptyString)
    by (intros; discriminate).
  set (r1 := MockAsync.resume p EmptyString st [b]).
  set (r2 := MockAsync.resume p EmptyString (fst r1) (snd r1)).
  exists (fst r2).
  split; [reflexivity|]. split; [|repeat split].
  apply (async_next _ _ _ (start_completeBlock st [b] [] "block-1" p eq_refl)).
  apply (async_next _ _ _ (start_completeBlock st [b] ([] ++ [p]) "block-1" p eq_refl)).
  apply (async_next _ _ _ (timer_fires st [b] [] p [p] EmptyString (Hp [b]))).
  change (MockAsync.resume p EmptyString st [b], [] ++ [p])
    with (fst r1, snd r1, [] ++ p :: []).
  apply (async_next _ _ _ (timer_fires (fst r1) (snd r1) [] p [] EmptyString
                             (Hp (snd r1)))).
  apply async_done.
Qed.

(** ** The completion signal *)

Lemma willBePerfect_after_update (blocks : list TimeBlock) (id : string)
    (u : TimeBlock) :
  completed u = true ->
  willBePerfect blocks id =
  isPerfectDay (map (fun b => if String.eqb (block_id b) id then u else b) blocks).
Proof.
  intros Hu. unfold willBePerfect, isPerfectDay, completedBlocks, totalBlocks.
  rewrite length_map. f_equal. f_equal.
  induction blocks as [|a l IH]; simpl; [reflexivity|].
  destruct (String.eqb (block_id a) id); simpl.
  - rewrite Hu. simpl. f_equal. exact IH.
  - destruct (completed a); simpl; [f_equal|]; exact IH.
Qed.

(** X3.  A completion that goes through awards 50 XP and raises exactly one
    signal, chosen by the state it produces: the perfect-day animation when
    every block of the new block set is completed, the single check mark
    otherwise.  This holds for [completeTimeBlock] when the server answers
    with a completed block, and for [completeBlock] whenever it awards XP. *)
Theorem completion_signal_matches_new_state (st : State) (id : string) :
  (forall u, completed u = true ->
     let st' := Backend.completeTimeBlock st id (Resolved u) in
     xp st' = (xp st + 50)%Z /\
     if isPerfectDay (timeBlocks st')
     then showPerfectDay st' = true /\ showDoneCheck st' = showDoneCheck st
     else showDoneCheck st' = true /\ showPerfectDay st' = showPerfectDay st) /\
  (forall storage,
     let st' := fst (Mock.completeBlock st storage id) in
     xp st' = (xp st + 50)%Z ->
     if isPerfectDay (timeBlocks st')
     then showPerfectDay st' = true /\ showDoneCheck st' = showDoneCheck st
     else showDoneCheck st' = true /\ showPerfectDay st' = showPerfectDay st).
Proof.
  split.
  - intros u Hu. unfold Backend.completeTimeBlock, signalCompletion.
    cbn [timeBlocks setError].
    rewrite (willBePerfect_after_update _ id u Hu).
    destruct (isPerfectDay (map _ (timeBlocks st))) eqn:E; cbn;
      rewrite E; repeat split; reflexivity.
  - intros storage. unfold Mock.completeBlock.
    destruct (find _ (timeBlocks st)) as [block|]; [|cbn; intros; lia].
    destruct (completed block); [cbn; intros; lia|].
    unfold Mock.updateTimeBlockAPI, Mock.mockAPI_updateBlock.
    destruct (Mock.findIndex _ storage) as [i|]; [|cbn; intros; lia].
    destruct (nth_error storage i) as [old|]; [|cbn; intros; lia].
    unfold signalCompletion.
    rewrite (willBePerfect_after_update _ id (Mock.mark_completed old) eq_refl).
    destruct (isPerfectDay (map _ (timeBlocks st))) eqn:E; cbn;
      rewrite E; repeat split; reflexivity.
Qed.

Lemma completion_signal_matches_new_state_witness :
  let t := mkTask "task-1" "Deep Work" 60 "bg-blue-500" in
  let b1 := mkTimeBlock "1" t 9 10 true in
  let b2 := mkTimeBlock "2" t 10 11 false in
  let st := mkState [] [b1; b2] 50 None false false in
  let st' := Backend.completeTimeBlock st "2" (Resolved (mkTimeBlock "2" t 10 11 true)) in
  xp st' = 100%Z /\ showPerfectDay st' = true /\ showDoneCheck st' = false.
Proof.
  intros t b1 b2 st st'.
  destruct (proj1 (completion_signal_matches_new_state st "2")
              (mkTimeBlock "2" t 10 11 true) eq_refl) as [H1 H2].
  split; [exact H1|]. exact H2.
Defined.

(** ** Dropping a task on the schedule *)

Lemma calculateDropPosition_some (c : Container) (clientY : Q) (t : Task)
    (p : DropPosition) :
  calculateDropPosition (Some c) clientY t = Some p ->
  let hourDecimal := 8 + (clientY - rect_top c + scrollTop c) / HOUR_HEIGHT in
  drop_startHour p = snapToInterval hourDecimal SNAP_INTERVAL /\
  drop_endHour p = snapToInterval hourDecimal SNAP_INTERVAL + duration t / 60 /\
  0 <= hourDecimal.
Proof.
  intros H hourDecimal.
  destruct (Qlt_le_dec hourDecimal 0) as [Hneg|Hpos].
  - rewrite (calculateDropPosition_negative_hour c clientY t Hneg) in H.
    discriminate H.
  - unfold calculateDropPosition in H. cbv zeta in H. fold hourDecimal in H.
    destruct (Qlt_bool (snapToInterval hourDecimal SNAP_INTERVAL) 8
              || Qlt_bool 21 (snapToInterval hourDecimal SNAP_INTERVAL + duration t / 60));
      [discriminate H|].
    injection H as H. subst p. simpl. repeat split. exact Hpos.
Qed.

Lemma snap_15_close (h : Q) :
  0 <= h ->
  - (1 # 8) <= snapToInterval h 15 - h /\ snapToInterval h 15 - h <= 1 # 8.
Proof.
  intros Hh.
  destruct (snapToInterval_snapped h 15 Hh ltac:(lra)) as [s [[_ [Hlo Hhi]] E]].
  unfold sub_hour_minutes in Hlo, Hhi. change (Qabs 15) with 15 in Hlo, Hhi.
  rewrite E. split; qlra.
Qed.

(** X4.  A target returned by [calculateDropPosition] starts within an
    eighth of an hour of the pointer hour, so a block placed there is drawn
    with its top edge within 10 pixels of the pointer. *)
Theorem drop_lands_near_pointer (c : Container) (clientY : Q) (t : Task)
    (p : DropPosition) :
  calculateDropPosition (Some c) clientY t = Some p ->
  let relativeY := clientY - rect_top c + scrollTop c in
  (- (1 # 8) <= drop_startHour p - (8 + relativeY / 80) /\
   drop_startHour p - (8 + relativeY / 80) <= 1 # 8) /\
  forall b, startHour b == drop_startHour p ->
            - 10 <= topPosition b - relativeY /\ topPosition b - relativeY <= 10.
Proof.
  intros H relativeY.
  destruct (calculateDropPosition_some c clientY t p H) as [Hs [_ Hpos]].
  fold relativeY in Hs, Hpos. unfold HOUR_HEIGHT, SNAP_INTERVAL in Hs, Hpos.
  destruct (snap_15_close _ Hpos) as [Hlo Hhi]. rewrite <- Hs in Hlo, Hhi.
  split; [split; assumption|].
  intros b Hb. unfold topPosition, HOUR_HEIGHT. rewrite Hb. split; qlra.
Qed.

Lemma drop_lands_near_pointer_witness :
  let t := mkTask "task-1" "Deep Work" 60 "bg-blue-500" in
  let p := mkDropPosition (snapToInterval (8 + (268 # 3) / 80) 15)
             (snapToInterval (8 + (268 # 3) / 80) 15 + 60 / 60) in
  calculateDropPosition (Some (mkContainer 0 0)) (268 # 3) t = Some p /\
  - (1 # 8) <= drop_startHour p - (8 + ((268 # 3) - 0 + 0) / 80).
Proof.
  intros t p.
  assert (H : calculateDropPosition (Some (mkContainer 0 0)) (268 # 3) t = Some p).
  { vm_compute. reflexivity. }
  split; [exact H|].
  destruct (drop_lands_near_pointer _ _ _ _ H) as [[H1 _] _]. exact H1.
Defined.

Lemma drag_preview_some (st : State) (d : Drag) (view : Viewport) (clientY : Q)
    (t : Task) (p : DropPosition) :
  draggedTask d = Some t ->
  dragPreview (handleDragOverSchedule st d (Some view) clientY) = Some p ->
  calculateDropPosition (Some (container view)) clientY t = Some p /\
  hasConflict (timeBlocks st) (drop_startHour p) (drop_endHour p) None = false.
Proof.
  intros Hd. unfold handleDragOverSchedule. rewrite Hd. cbv zeta.
  cbn [dragPreview].
  destruct (calculateDropPosition (Some (container view)) clientY t) as [q|];
    [|discriminate].
  destruct (hasConflict (timeBlocks st) (drop_startHour q) (drop_endHour q) None)
    eqn:Hc; cbn [negb]; [discriminate|].
  intros E. injection E as E. subst q. split; [reflexivity|exact Hc].
Qed.

(** X5.  What the preview shows is what the drop does.  If, during a drag,
    [handleDragOverSchedule] shows a preview at a pointer position, then
    dropping at that position places the dragged task on exactly the
    previewed interval as soon as the persistence call resolves, and no alert
    is raised.  If no preview is shown, the drop leaves the block set as it
    is, whatever the call would answer. *)
Theorem preview_shows_what_drop_does (st : State) (d : Drag) (view : Viewport)
    (clientY : Q) (t : Task) :
  draggedTask d = Some t ->
  let preview := dragPreview (handleDragOverSchedule st d (Some view) clientY) in
  let drop := Backend.handleDropOnSchedule st (Some t) (Some (container view)) clientY in
  (forall p, preview = Some p ->
     (forall b, drop (Resolved b) =
        (setTasks (filter (fun t' => negb (String.eqb (task_id t') (task_id t))) (tasks st))
           (setTimeBlocks (timeBlocks st ++ [b]) (setError None st)),
         Returned)) /\
     (forall message, snd (drop (Rejected message)) = Logged "Failed to add time block:") /\
     8 <= drop_startHour p /\ drop_endHour p <= 21) /\
  (preview = None -> forall response, timeBlocks (fst (drop response)) = timeBlocks st).
Proof.
  intros Hd preview drop. split.
  - intros p Hp.
    destruct (drag_preview_some st d view clientY t p Hd Hp) as [Hcalc Hc].
    destruct (calculateDropPosition_bounds _ _ _ _ Hcalc) as [H8 H21].
    assert (E21 : Qlt_bool 21 (drop_endHour p) = false)
      by (apply Qlt_bool_false_iff; exact H21).
    unfold drop, Backend.handleDropOnSchedule, Backend.addTimeBlock.
    rewrite Hcalc, E21, Hc. repeat split; try assumption.
  - unfold preview, drop, handleDragOverSchedule, Backend.handleDropOnSchedule,
      Backend.addTimeBlock.
    rewrite Hd. cbv zeta. cbn [dragPreview].
    destruct (calculateDropPosition (Some (container view)) clientY t) as [q|];
      [|reflexivity].
    destruct (hasConflict (timeBlocks st) (drop_startHour q) (drop_endHour q) None);
      cbn [negb]; [|discriminate].
    intros _ response. destruct (Qlt_bool 21 (drop_endHour q)); reflexivity.
Qed.

Lemma preview_shows_what_drop_does_witness :
  let t := mkTask "task-1" "Deep Work" 60 "bg-blue-500" in
  let st := mkState [t] [mkTimeBlock "41" t 11 12 false] 0 None false false in
  let d := mkDrag (Some t) None None in
  let view := mkViewport (mkContainer 0 0) 400 in
  let b := mkTimeBlock "42" t 9 10 false in
  draggedTask d = Some t /\
  timeBlocks (fst (Backend.handleDropOnSchedule st (Some t) (Some (container view))
                     (268 # 3) (Resolved b))) =
  [mkTimeBlock "41" t 11 12 false; b].
Proof.
  intros t st d view b. split; [reflexivity|].
  destruct (preview_shows_what_drop_does st d view (268 # 3) t eq_refl) as [H _].
  destruct (H (mkDropPosition (snapToInterval (8 + ((268 # 3) - 0 + 0) / 80) 15)
                 (snapToInterval (8 + ((268 # 3) - 0 + 0) / 80) 15 + 60 / 60)))
    as [Hdrop _]; [vm_compute; reflexivity|].
  rewrite (Hdrop b). reflexivity.
Defined.

(** X6.  A drop never raises the 9 PM alert of [addTimeBlock], whatever the
    page, the dragged task, the pointer and the server.  And when every block
    lies within 8:00 and 21:00, every block lies there after the drop,
    provided the server answers a creation with a block on the interval of
    the request it was sent. *)
Theorem drop_keeps_blocks_within_day
    (api_create : Backend.TimeBlockCreate -> api_result TimeBlock)
    (st : State) (dragged : option Task) (ref : option Container) (clientY : Q) :
  snd (Remote.handleDropOnSchedule api_create st dragged ref clientY)
    <> Alert "This task would extend beyond 9 PM." /\
  ((forall data b, api_create data = Resolved b ->
      startHour b == Backend.create_startHour data /\
      endHour b == Backend.create_endHour data) ->
   Forall within_day (timeBlocks st) ->
   Forall within_day
     (timeBlocks (fst (Remote.handleDropOnSchedule api_create st dragged ref clientY)))).
Proof.
  unfold Remote.handleDropOnSchedule.
  destruct dragged as [t|]; [|split; [discriminate|intros _ Hall; exact Hall]].
  destruct (calculateDropPosition ref clientY t) as [p|] eqn:Hp;
    [|split; [discriminate|intros _ Hall; exact Hall]].
  destruct (calculateDropPosition_bounds _ _ _ _ Hp) as [H8 H21].
  assert (E21 : Qlt_bool 21 (drop_endHour p) = false)
    by (apply Qlt_bool_false_iff; exact H21).
  unfold Remote.addTimeBlock, Remote.createTimeBlock. rewrite E21.
  destruct (hasConflict (timeBlocks st) (drop_startHour p) (drop_endHour p) None);
    [split; [discriminate|intros _ Hall; exact Hall]|].
  cbv zeta.
  destruct (api_create _) as [b|msg] eqn:Ea; simpl;
    [|split; [discriminate|intros _ Hall; exact Hall]].
  split; [discriminate|]. intros Hserver Hall.
  apply Forall_app. split; [exact Hall|].
  constructor; [|constructor].
  destruct (Hserver _ b Ea) as [Es Ee]. simpl in Es, Ee.
  unfold within_day. rewrite Es, Ee. split; assumption.
Qed.

Lemma drop_keeps_blocks_within_day_witness :
  let t := mkTask "task-1" "Deep Work" 60 "bg-blue-500" in
  let st := mkState [t] [] 0 None false false in
  let server := fun data =>
    Resolved (mkTimeBlock "42"
                (mkTask "17" (Backend.create_title data) (Backend.create_duration data)
                   (Backend.create_color data))
                (Backend.create_startHour data) (Backend.create_endHour data) false) in
  List.length (timeBlocks (fst (Remote.handleDropOnSchedule server st (Some t)
                                  (Some (mkContainer 0 0)) (268 # 3)))) = 1%nat /\
  Forall within_day
    (timeBlocks (fst (Remote.handleDropOnSchedule server st (Some t)
                        (Some (mkContainer 0 0)) (268 # 3)))).
Proof.
  intros t st server. split; [reflexivity|].
  apply (proj2 (drop_keeps_blocks_within_day server st (Some t)
                  (Some (mkContainer 0 0)) (268 # 3))).
  - intros data b E. unfold server in E. injection E as E. subst b. simpl.
    split; reflexivity.
  - constructor.
Defined.

(** ** Rendering *)

Lemma Math_max_spec (a b : Q) :
  a <= Math_max a b /\ b <= Math_max a b /\
  (a <= b -> Math_max a b = b) /\ (b < a -> Math_max a b = a).
Proof.
  unfold Math_max. destruct (Qle_bool a b) eqn:E.
  - apply Qle_bool_iff in E.
    split; [exact E|]. split; [lra|]. split; [reflexivity|].
    intros H. exfalso. lra.
  - assert (H : b < a).
    { apply Qnot_le_lt. intros H. apply Qle_bool_iff in H. congruence. }
    split; [lra|]. split; [lra|]. split; [|reflexivity].
    intros H'. exfalso. lra.
Qed.

(** X7.  A block is never drawn lower than 36 pixels.  A block of at least
    27 minutes is drawn clear of every block that starts after it ends.  A
    shorter block is drawn 36 pixels high whatever its length, so it covers
    the top of a block that starts right when it ends. *)
Theorem blocks_drawn_without_overlap (a b : TimeBlock) :
  endHour a <= startHour b ->
  36 <= styleHeight a /\
  (9 # 20 <= endHour a - startHour a ->
   topPosition a + styleHeight a <= topPosition b) /\
  (endHour a == startHour b -> endHour a - startHour a < 9 # 20 ->
   styleHeight a = 36 /\ topPosition b < topPosition a + styleHeight a).
Proof.
  intros Hab. unfold styleHeight, topPosition, height, HOUR_HEIGHT. cbv zeta.
  destruct (Math_max_spec ((endHour a - startHour a) * 80 - 4) 36)
    as [H1 [H2 [H3 H4]]].
  split; [exact H2|]. split.
  - intros Hlong. destruct (Qlt_le_dec 36 ((endHour a - startHour a) * 80 - 4)) as [H|H].
    + rewrite (H4 H). clear H1 H2 H3 H4. lra.
    + rewrite (H3 H). clear H1 H2 H3 H4. lra.
  - intros Htouch Hshort.
    assert (H : (endHour a - startHour a) * 80 - 4 <= 36) by lra.
    rewrite (H3 H). split; [reflexivity|]. clear H1 H2 H3 H4. lra.
Qed.

Lemma blocks_drawn_without_overlap_witness :
  let t := mkTask "task-1" "Deep Work" 60 "bg-blue-500" in
  let a := mkTimeBlock "1" t 9 10 false in
  let b := mkTimeBlock "2" t 10 11 false in
  endHour a <= startHour b /\ topPosition a + styleHeight a <= topPosition b.
Proof.
  intros t a b.
  assert (H : endHour a <= startHour b) by (simpl; lra).
  split; [exact H|].
  destruct (blocks_drawn_without_overlap a b H) as [_ [H1 _]].
  apply H1. simpl. lra.
Defined.

(** X8.  The height limit of the schedule viewport lies between 400 and 900
    pixels, grows by 60 pixels per block and stays at 900 from the ninth
    block on; the two components of the file compute the same limit. *)
Theorem scheduleHeight_bounds (blocks : list TimeBlock) :
  MockForm.calculateScheduleHeight blocks = scheduleHeight blocks /\
  (400 <= scheduleHeight blocks <= 900)%Z /\
  ((List.length blocks <= 8)%nat ->
   scheduleHeight blocks = (400 + 60 * Z.of_nat (List.length blocks))%Z) /\
  ((9 <= List.length blocks)%nat -> scheduleHeight blocks = 900%Z).
Proof.
  unfold MockForm.calculateScheduleHeight, scheduleHeight. cbv zeta.
  split.
  - destruct (List.length blocks) eqn:E; simpl; [reflexivity|].
    reflexivity.
  - split; [lia|]. split; intros; lia.
Qed.

(** ** Failure of the persistence layer *)

(** X9.  On the API-backed page a rejected call never changes the pool, the
    block set, the XP total or the animation flags: [addTimeBlock],
    [completeTimeBlock] and [deleteTimeBlock] only record the message of the
    rejection (when they got as far as calling). *)
Theorem rejected_call_changes_nothing (st : State) (message : string) :
  let same st' :=
    tasks st' = tasks st /\ timeBlocks st' = timeBlocks st /\ xp st' = xp st /\
    showDoneCheck st' = showDoneCheck st /\ showPerfectDay st' = showPerfectDay st in
  (forall t s e,
     let r := Backend.addTimeBlock st t s e (Rejected message) in
     same (fst r) /\
     (snd r = Logged "Failed to add time block:" -> error (fst r) = Some message) /\
     (snd r <> Logged "Failed to add time block:" -> fst r = st)) /\
  (forall id,
     let st' := Backend.completeTimeBlock st id (Rejected message) in
     same st' /\ error st' = Some message) /\
  (forall id,
     let st' := Backend.deleteTimeBlock st id (Rejected message) in
     same st' /\
     ((exists b, In b (timeBlocks st) /\ block_id b = id) -> error st' = Some message)).
Proof.
  intros same. unfold same. split; [|split].
  - intros t s e. unfold Backend.addTimeBlock.
    destruct (Qlt_bool 21 e); [cbn; repeat split; try reflexivity; intros H; discriminate H|].
    destruct (hasConflict (timeBlocks st) s e None);
      [cbn; repeat split; try reflexivity; intros H; discriminate H|].
    cbn. repeat split; try reflexivity. intros H. contradiction H. reflexivity.
  - intros id. cbn. repeat split; reflexivity.
  - intros id. unfold Backend.deleteTimeBlock.
    destruct (find _ (timeBlocks st)) as [block|] eqn:Hf; cbn.
    + repeat split; reflexivity.
    + repeat split; try reflexivity.
      intros [b [Hin Hid]]. rewrite find_none_iff in Hf.
      exfalso. exact (Hf b Hin Hid).
Qed.

(** ** The block store of the mock API *)

Lemma findIndex_none (l : list TimeBlock) (id : string) :
  (forall b, In b l -> block_id b <> id) ->
  Mock.findIndex (fun b => String.eqb (block_id b) id) l = None.
Proof.
  induction l as [|x l IH]; simpl; intros H; [reflexivity|].
  destruct (String.eqb (block_id x) id) eqn:E.
  - apply String.eqb_eq in E. exfalso. exact (H x (or_introl eq_refl) E).
  - rewrite IH; [reflexivity|]. intros b Hb. apply H. right. exact Hb.
Qed.

Lemma updateBlock_first (l1 l2 : list TimeBlock) (old : TimeBlock) (id : string)
    (f : TimeBlock -> TimeBlock) :
  (forall b, In b l1 -> block_id b <> id) -> block_id old = id ->
  Mock.mockAPI_updateBlock (l1 ++ old :: l2) id f =
  (l1 ++ f old :: l2, Resolved (f old)).
Proof.
  unfold Mock.mockAPI_updateBlock. intros H1 Hid.
  induction l1 as [|x l1 IH]; simpl.
  - subst id. rewrite String.eqb_refl. reflexivity.
  - destruct (String.eqb (block_id x) id) eqn:E.
    + apply String.eqb_eq in E. exfalso. exact (H1 x (or_introl eq_refl) E).
    + assert (H1' : forall b, In b l1 -> block_id b <> id)
        by (intros b Hb; apply H1; right; exact Hb).
      specialize (IH H1').
      destruct (Mock.findIndex (fun b => String.eqb (block_id b) id) (l1 ++ old :: l2))
        as [i|]; simpl in *.
      * destruct (nth_error (l1 ++ old :: l2) i) as [o|]; [|discriminate].
        injection IH as IH1 IH2. rewrite IH1, IH2. reflexivity.
      * discriminate.
Qed.

Lemma split_at_first (l : list TimeBlock) (id : string) :
  (exists b, In b l /\ block_id b = id) ->
  exists l1 old l2, l = l1 ++ old :: l2 /\ block_id old = id /\
                    forall b, In b l1 -> block_id b <> id.
Proof.
  induction l as [|x l IH]; intros [b [Hin Hid]]; [contradiction|].
  destruct (String.eqb (block_id x) id) eqn:E.
  - apply String.eqb_eq in E. exists [], x, l. repeat split; [exact E|intros ? []].
  - apply String.eqb_neq in E. destruct Hin as [Hx|Hin]; [subst x; contradiction|].
    destruct (IH (ex_intro _ b (conj Hin Hid))) as [l1 [old [l2 [El [Ho Hl1]]]]].
    exists (x :: l1), old, l2. repeat split.
    + simpl. rewrite El. reflexivity.
    + exact Ho.
    + intros c [Hc|Hc]; [subst c; exact E|apply Hl1; exact Hc].
Qed.

(** X10.  [mockAPI.updateBlock] on an id that no stored block carries is
    rejected with "Block not found" and leaves the store as it is.  On an id
    that is stored it resolves with the update of the first block carrying
    it, and the store differs from the old one in exactly that position. *)
Theorem mockAPI_updateBlock_spec (storage : Mock.Storage) (id : string)
    (f : TimeBlock -> TimeBlock) :
  ((forall b, In b storage -> block_id b <> id) ->
   Mock.mockAPI_updateBlock storage id f = (storage, Rejected "Block not found")) /\
  ((exists b, In b storage /\ block_id b = id) ->
   exists l1 old l2,
     storage = l1 ++ old :: l2 /\ block_id old = id /\
     (forall b, In b l1 -> block_id b <> id) /\
     Mock.mockAPI_updateBlock storage id f = (l1 ++ f old :: l2, Resolved (f old))).
Proof.
  split.
  - intros H. unfold Mock.mockAPI_updateBlock.
    rewrite (findIndex_none _ _ H). reflexivity.
  - intros H. destruct (split_at_first _ _ H) as [l1 [old [l2 [El [Ho Hl1]]]]].
    exists l1, old, l2. split; [exact El|]. split; [exact Ho|].
    split; [exact Hl1|]. rewrite El. apply updateBlock_first; assumption.
Qed.

Lemma mockAPI_updateBlock_spec_witness :
  let t := mkTask "task-1" "Deep Work" 60 "bg-blue-500" in
  let b := mkTimeBlock "block-1" t 9 10 false in
  Mock.mockAPI_updateBlock [b] "block-2" Mock.mark_completed =
  ([b], Rejected "Block not found").
Proof.
  intros t b. apply (proj1 (mockAPI_updateBlock_spec [b] "block-2" Mock.mark_completed)).
  intros x [Hx|[]]. subst x. discriminate.
Defined.

(** X11.  Round trips through the block store.  A block created under a
    fresh id is found again: completing it through [mockAPI.updateBlock]
    resolves with that very block, marked completed, and rewrites only the
    last position of the store.  After [mockAPI.deleteBlock] no stored block
    carries the id, an update of it is rejected, and deleting again changes
    nothing. *)
Theorem mockAPI_store_round_trips (storage : Mock.Storage) (id : string) :
  (forall block,
     (forall b, In b storage -> block_id b <> id) ->
     let created := Mock.mockAPI_createBlock storage id block in
     block_id (snd created) = id /\
     fst created = storage ++ [snd created] /\
     Mock.mockAPI_updateBlock (fst created) id Mock.mark_completed =
     (storage ++ [Mock.mark_completed (snd created)],
      Resolved (Mock.mark_completed (snd created)))) /\
  (let deleted := Mock.mockAPI_deleteBlock storage id in
   (forall b, In b deleted <-> In b storage /\ block_id b <> id) /\
   Mock.mockAPI_updateBlock deleted id Mock.mark_completed =
     (deleted, Rejected "Block not found") /\
   Mock.mockAPI_deleteBlock deleted id = deleted).
Proof.
  split.
  - intros block Hfresh. unfold Mock.mockAPI_createBlock. cbn [fst snd block_id].
    split; [reflexivity|]. split; [reflexivity|].
    apply updateBlock_first; [exact Hfresh|reflexivity].
  - cbv zeta. unfold Mock.mockAPI_deleteBlock.
    assert (Hgone : forall b,
              In b (filter (fun b => negb (String.eqb (block_id b) id)) storage) ->
              block_id b <> id).
    { intros b Hb. apply In_filter_other_ids in Hb. apply Hb. }
    split; [intros b; apply In_filter_other_ids|]. split.
    + unfold Mock.mockAPI_updateBlock. rewrite (findIndex_none _ _ Hgone). reflexivity.
    + apply filter_all_id. intros b Hb.
      apply negb_true_iff, String.eqb_neq. apply Hgone. exact Hb.
Qed.

Lemma mockAPI_store_round_trips_witness :
  let t := mkTask "task-1" "Deep Work" 60 "bg-blue-500" in
  let b := mkTimeBlock "block-1" t 9 10 false in
  let nb := Mock.mkNewBlock t 10 11 false in
  Mock.mockAPI_updateBlock (fst (Mock.mockAPI_createBlock [b] "block-2" nb))
    "block-2" Mock.mark_completed =
  ([b; mkTimeBlock "block-2" t 10 11 true], Resolved (mkTimeBlock "block-2" t 10 11 true)).
Proof.
  intros t b nb.
  destruct (proj1 (mockAPI_store_round_trips [b] "block-2") nb) as [_ [_ H]].
  - intros x [Hx|[]]. subst x. discriminate.
  - exact H.
Defined.

(** ** Labels of a placed block *)

Lemma formatTime_comp (x y : Q) : x == y -> formatTime x = formatTime y.
Proof.
  intros E. unfold formatTime.
  assert (G : js_rem x 1 * 60 == js_rem y 1 * 60) by (now rewrite E).
  rewrite (Math_floor_comp _ _ E), (Math_round_comp _ _ G). reflexivity.
Qed.

(** A time that is a whole number of minutes prints as its hour and its
    minute, exactly. *)
Lemma formatTime_whole_minutes (n : Z) :
  (0 <= n < 1440)%Z ->
  formatTime (inject_Z n / 60) =
  (two_digits (n / 60) ++ ":" ++ two_digits (n mod 60))%string.
Proof.
  intros Hn.
  pose proof (Z.div_mod n 60 ltac:(lia)) as Hdm.
  pose proof (Z.mod_pos_bound n 60 ltac:(lia)) as Hr.
  set (q := (n / 60)%Z) in *. set (r := (n mod 60)%Z) in *.
  assert (Hq : (0 <= q < 24)%Z) by lia.
  assert (En : inject_Z n == 60 * inject_Z q + inject_Z r).
  { rewrite Hdm, inject_Z_plus, inject_Z_mult. reflexivity. }
  assert (Hr0 : 0 <= inject_Z r) by (change 0 with (inject_Z 0); rewrite <- Zle_Qle; lia).
  assert (Hr59 : inject_Z r <= 59) by (change 59 with (inject_Z 59); rewrite <- Zle_Qle; lia).
  assert (Hq0 : 0 <= inject_Z q) by (change 0 with (inject_Z 0); rewrite <- Zle_Qle; lia).
  assert (Hx : 0 <= inject_Z n / 60) by (rewrite En; qlra).
  assert (Hfl : Qfloor (inject_Z n / 60) = q).
  { apply Qfloor_unique; rewrite En; qlra. }
  assert (G : js_rem (inject_Z n / 60) 1 * 60 == inject_Z r).
  { rewrite (js_rem_1_nonneg _ Hx), Hfl, En. field. }
  unfold formatTime, Math_floor. rewrite Hfl, (Math_round_comp _ _ G).
  rewrite Math_round_inject_Z.
  rewrite (padStart_two_digits q) by lia.
  rewrite (padStart_two_digits r) by lia. reflexivity.
Qed.

(** X12.  The labels of a drop target are exact.  For a task lasting a whole
    number of minutes, the start and the end of every target returned by
    [calculateDropPosition] print as the hour and minute they denote: the
    start on a quarter hour, the end with a minute between 0 and 59, so the
    ":60" form never appears on a placed block. *)
Theorem drop_target_labels_exact (c : Container) (clientY : Q) (t : Task)
    (p : DropPosition) (d : Z) :
  calculateDropPosition (Some c) clientY t = Some p ->
  duration t == inject_Z d -> (0 <= d)%Z ->
  exists hs ms he me : Z,
    formatTime (drop_startHour p) = (two_digits hs ++ ":" ++ two_digits ms)%string /\
    formatTime (drop_endHour p) = (two_digits he ++ ":" ++ two_digits me)%string /\
    drop_startHour p == inject_Z hs + inject_Z ms / 60 /\
    drop_endHour p == inject_Z he + inject_Z me / 60 /\
    (8 <= hs <= 21)%Z /\ (ms = 0 \/ ms = 15 \/ ms = 30 \/ ms = 45)%Z /\
    (8 <= he <= 21)%Z /\ (0 <= me <= 59)%Z.
Proof.
  intros H Hd Hd0.
  destruct (calculateDropPosition_some c clientY t p H) as [Hs [He Hpos]].
  destruct (calculateDropPosition_bounds _ _ _ _ H) as [H8 H21].
  unfold SNAP_INTERVAL in Hs, He.
  destruct (snapToInterval_15_nonneg_grid _ Hpos) as [z [Hz Ez]].
  rewrite <- Hs in Ez.
  assert (Es : drop_startHour p == inject_Z (15 * z) / 60).
  { rewrite Ez, inject_Z_mult. change (inject_Z 15) with 15. field. }
  assert (Ee : drop_endHour p == inject_Z (15 * z + d) / 60).
  { rewrite He, <- Hs, Ez, Hd, inject_Z_plus, inject_Z_mult.
    change (inject_Z 15) with 15. field. }
  assert (Hz32 : (32 <= z)%Z).
  { rewrite Zle_Qle. change (inject_Z 32) with 32. rewrite Ez in H8. qlra. }
  assert (Hn : (15 * z + d <= 1260)%Z).
  { rewrite Zle_Qle. change (inject_Z 1260) with 1260. rewrite Ee in H21. qlra. }
  pose proof (Z.div_mod (15 * z) 60 ltac:(lia)) as Hdm1.
  pose proof (Z.mod_pos_bound (15 * z) 60 ltac:(lia)) as Hr1.
  pose proof (Z.div_mod (15 * z + d) 60 ltac:(lia)) as Hdm2.
  pose proof (Z.mod_pos_bound (15 * z + d) 60 ltac:(lia)) as Hr2.
  exists ((15 * z) / 60)%Z, ((15 * z) mod 60)%Z,
         ((15 * z + d) / 60)%Z, ((15 * z + d) mod 60)%Z.
  split.
  { rewrite (formatTime_comp _ _ Es). apply formatTime_whole_minutes. lia. }
  split.
  { rewrite (formatTime_comp _ _ Ee). apply formatTime_whole_minutes. lia. }
  split.
  { rewrite Es. rewrite Hdm1 at 1. rewrite inject_Z_plus, inject_Z_mult.
    change (inject_Z 60) with 60. field. }
  split.
  { rewrite Ee. rewrite Hdm2 at 1. rewrite inject_Z_plus, inject_Z_mult.
    change (inject_Z 60) with 60. field. }
  repeat split; lia.
Qed.

Lemma drop_target_labels_exact_witness :
  let t := mkTask "task-1" "Deep Work" 50 "bg-blue-500" in
  let p := mkDropPosition (snapToInterval (8 + (268 # 3) / 80) 15)
             (snapToInterval (8 + (268 # 3) / 80) 15 + 50 / 60) in
  calculateDropPosition (Some (mkContainer 0 0)) (268 # 3) t = Some p /\
  formatTime (drop_startHour p) = "09:00"%string /\
  formatTime (drop_endHour p) = "09:50"%string /\
  exists hs ms he me : Z,
    formatTime (drop_endHour p) = (two_digits he ++ ":" ++ two_digits me)%string /\
    (8 <= hs <= 21)%Z /\ (ms = 0 \/ ms = 15 \/ ms = 30 \/ ms = 45)%Z /\
    (0 <= me <= 59)%Z.
Proof.
  intros t p.
  assert (H : calculateDropPosition (Some (mkContainer 0 0)) (268 # 3) t = Some p).
  { vm_compute. reflexivity. }
  split; [exact H|]. split; [vm_compute; reflexivity|].
  split; [vm_compute; reflexivity|].
  destruct (drop_target_labels_exact _ _ _ _ 50 H) as [hs [ms [he [me Hall]]]];
    [reflexivity|lia|].
  exists hs, ms, he, me.
  destruct Hall as [_ [H2 [_ [_ [H5 [H6 [_ H8]]]]]]].
  repeat split; try assumption; apply H5 || apply H8.
Defined.

(** ** Task identifiers never repeat *)

Lemma toString_inj (a b : Z) : toString a = toString b -> a = b.
Proof.
  unfold toString. intros E.
  assert (Hnn : forall z, Z.to_int z <> Decimal.Pos Decimal.Nil /\
                          Z.to_int z <> Decimal.Neg Decimal.Nil).
  { intros z. destruct z as [|q|q]; simpl; split; try discriminate;
      intros H; injection H as H; exact (DecimalPos.Unsigned.to_uint_nonnil q H). }
  pose proof (NilZero.isi (Z.to_int a) (proj1 (Hnn a)) (proj2 (Hnn a))) as Ha.
  pose proof (NilZero.isi (Z.to_int b) (proj1 (Hnn b)) (proj2 (Hnn b))) as Hb.
  rewrite E, Hb in Ha. injection Ha as Ha.
  symmetry. apply DecimalZ.to_int_inj. exact Ha.
Qed.

Lemma dash_free_uint (d : Decimal.uint) :
  dash_free (NilEmpty.string_of_uint d) = true.
Proof. induction d; simpl; try reflexivity; exact IHd. Qed.

Lemma dash_free_toString (n : Z) : (0 <= n)%Z -> dash_free (toString n) = true.
Proof.
  intros Hn. unfold toString. destruct n as [|q|q]; [reflexivity| |lia].
  simpl. unfold NilZero.string_of_uint.
  pose proof (dash_free_uint (Pos.to_uint q)) as H.
  destruct (Pos.to_uint q); exact H.
Qed.

Lemma split_at_dash (u u' v v' : string) :
  dash_free u = true -> dash_free u' = true ->
  (u ++ "-" ++ v)%string = (u' ++ "-" ++ v')%string -> u = u' /\ v = v'.
Proof.
  revert u'. induction u as [|c u IH]; intros u' Hu Hu' E.
  - destruct u' as [|c' u']; simpl in *.
    + injection E as E. split; [reflexivity|exact E].
    + injection E as Ec _. subst c'. discriminate Hu'.
  - destruct u' as [|c' u']; simpl in *.
    + injection E as Ec _. subst c. discriminate Hu.
    + injection E as Ec E. subst c'.
      apply andb_true_iff in Hu. apply andb_true_iff in Hu'.
      destruct (IH u' (proj2 Hu) (proj2 Hu') E) as [E1 E2].
      subst u'. split; [reflexivity|exact E2].
Qed.

Lemma task_id_format_inj (now now' c c' : Z) :
  (0 <= now)%Z -> (0 <= now')%Z ->
  ("task-" ++ toString now ++ "-" ++ toString c)%string =
  ("task-" ++ toString now' ++ "-" ++ toString c')%string ->
  now = now' /\ c = c'.
Proof.
  intros Hn Hn' E. simpl in E. injection E as E.
  destruct (split_at_dash _ _ _ _ (dash_free_toString now Hn)
              (dash_free_toString now' Hn') E) as [E1 E2].
  split; apply toString_inj; assumption.
Qed.

(** X13.  [generateTaskId] never hands out the same identifier twice: two
    identifiers made at different counter values differ whatever the clock
    read, and each call moves the counter up by one, so the identifiers of
    successive calls are pairwise different. *)
Theorem generateTaskId_never_repeats (counter counter' now now' : Z) :
  (0 <= now)%Z -> (0 <= now')%Z ->
  fst (generateTaskId counter now) = (counter + 1)%Z /\
  (snd (generateTaskId counter now) = snd (generateTaskId counter' now') ->
   counter = counter' /\ now = now') /\
  snd (generateTaskId counter now)
    <> snd (generateTaskId (fst (generateTaskId counter now)) now').
Proof.
  intros Hn Hn'. unfold generateTaskId. cbn [fst snd].
  split; [reflexivity|]. split.
  - intros E. destruct (task_id_format_inj _ _ _ _ Hn Hn' E) as [E1 E2].
    split; [lia|exact E1].
  - intros E. destruct (task_id_format_inj _ _ _ _ Hn Hn' E) as [_ E2]. lia.
Qed.

Lemma generateTaskId_never_repeats_witness :
  (0 <= 1700000000000)%Z /\
  snd (generateTaskId 0 1700000000000)
    <> snd (generateTaskId (fst (generateTaskId 0 1700000000000)) 1700000000000).
Proof.
  split; [lia|].
  apply (generateTaskId_never_repeats 0 0 1700000000000 1700000000000); lia.
Defined.

(** ** White space and numbers of the form fields *)

Lemma trimStart_all_white_space (s : string) :
  all_white_space s = true -> trimStart s = EmptyString.
Proof.
  induction s as [|c r IH]; simpl; [reflexivity|].
  intros H. apply andb_true_iff in H. destruct H as [Hc Hr].
  rewrite Hc. apply IH. exact Hr.
Qed.

Lemma trimEnd_empty_iff (s : string) :
  trimEnd s = EmptyString <-> all_white_space s = true.
Proof.
  induction s as [|c r IH]; simpl; [split; reflexivity|].
  destruct (trimEnd r) as [|c' r'] eqn:E.
  - destruct (is_white_space c); simpl.
    + split; [intros _; apply IH; reflexivity|reflexivity].
    + split; discriminate.
  - split; [discriminate|].
    intros H. apply andb_true_iff in H. destruct H as [_ Hr].
    apply IH in Hr. discriminate Hr.
Qed.

Lemma trimStart_head (s : string) :
  trimStart s = EmptyString \/
  exists c r, trimStart s = String c r /\ is_white_space c = false.
Proof.
  induction s as [|c r IH]; simpl; [left; reflexivity|].
  destruct (is_white_space c) eqn:E; [exact IH|].
  right. exists c, r. split; [reflexivity|exact E].
Qed.

Lemma trimStart_empty_iff (s : string) :
  trimStart s = EmptyString <-> all_white_space s = true.
Proof.
  split; [|apply trimStart_all_white_space].
  induction s as [|c r IH]; simpl; [reflexivity|].
  destruct (is_white_space c); simpl; [exact IH|discriminate].
Qed.

(** A title is blank for the form exactly when it is white space only. *)
Lemma trim_empty_iff (s : string) :
  trim s = EmptyString <-> all_white_space s = true.
Proof.
  unfold trim. rewrite trimEnd_empty_iff. split.
  - intros H. destruct (trimStart_head s) as [E|[c [r [E Hc]]]].
    + apply trimStart_empty_iff. exact E.
    + rewrite E in H. simpl in H. rewrite Hc in H. discriminate H.
  - intros H. rewrite (trimStart_all_white_space s H). reflexivity.
Qed.

Lemma trimEnd_idempotent (s : string) : trimEnd (trimEnd s) = trimEnd s.
Proof.
  induction s as [|c r IH]; simpl; [reflexivity|].
  destruct (trimEnd r) as [|c' r'] eqn:E.
  - destruct (is_white_space c) eqn:Hc; simpl; [reflexivity|].
    rewrite Hc. reflexivity.
  - simpl. simpl in IH. destruct (trimEnd r') as [|c'' r''] eqn:E'.
    + destruct (is_white_space c'); [discriminate IH|]. rewrite IH. reflexivity.
    + rewrite IH. reflexivity.
Qed.

Lemma trimStart_no_lead (c : ascii) (r : string) :
  is_white_space c = false ->
  trimStart (trimEnd (String c r)) = trimEnd (String c r).
Proof.
  intros Hc. simpl. destruct (trimEnd r); [rewrite Hc|]; simpl; rewrite Hc; reflexivity.
Qed.

Lemma trim_idempotent (s : string) : trim (trim s) = trim s.
Proof.
  unfold trim. destruct (trimStart_head s) as [E|[c [r [E Hc]]]].
  - rewrite E. reflexivity.
  - rewrite E. rewrite (trimStart_no_lead c r Hc). apply trimEnd_idempotent.
Qed.

Lemma parse_digits_acc (d : Decimal.uint) (acc : positive) :
  parse_digits 10 (NilEmpty.string_of_uint d) (Some (Zpos acc)) =
  Some (Zpos (Pos.of_uint_acc d acc)).
Proof.
  revert acc. induction d; intros acc;
    cbn [NilEmpty.string_of_uint parse_digits Pos.of_uint_acc];
    try reflexivity;
    match goal with
    | |- context [digit_value 10 ?c] =>
        let v := eval vm_compute in (digit_value 10 c) in
        change (digit_value 10 c) with v
    end;
    cbv beta iota; rewrite <- IHd; f_equal; f_equal; lia.
Qed.

Lemma parse_digits_zero (d : Decimal.uint) :
  parse_digits 10 (NilEmpty.string_of_uint d) (Some 0%Z) =
  Some (Z.of_N (Pos.of_uint d)).
Proof.
  induction d; cbn [NilEmpty.string_of_uint parse_digits Pos.of_uint];
    try reflexivity;
    match goal with
    | |- context [digit_value 10 ?c] =>
        let v := eval vm_compute in (digit_value 10 c) in
        change (digit_value 10 c) with v
    end;
    cbv beta iota; [exact IHd|..]; apply parse_digits_acc.
Qed.

Lemma parse_digits_uint (d : Decimal.uint) :
  d <> Decimal.Nil ->
  parse_digits 10 (NilEmpty.string_of_uint d) None = Some (Z.of_N (Pos.of_uint d)).
Proof.
  intros Hd. destruct d; [contradiction|..];
    cbn [NilEmpty.string_of_uint parse_digits Pos.of_uint];
    match goal with
    | |- context [digit_value 10 ?c] =>
        let v := eval vm_compute in (digit_value 10 c) in
        change (digit_value 10 c) with v
    end;
    cbv beta iota; [apply parse_digits_zero|..]; apply parse_digits_acc.
Qed.

(** The print of a number that is not negative reads back as that number,
    as long as it does not look like a hexadecimal literal, which no print
    does. *)
Lemma parseInt_uint (d : Decimal.uint) :
  d <> Decimal.Nil ->
  parseInt (NilEmpty.string_of_uint d) = Some (Z.of_N (Pos.of_uint d)).
Proof.
  intros Hd. pose proof (parse_digits_uint d Hd) as H.
  unfold parseInt.
  destruct d as [|d|d|d|d|d|d|d|d|d|d]; [contradiction|..];
    try (cbn [NilEmpty.string_of_uint trimStart] in *;
         match goal with
         | |- context [is_white_space ?c] =>
             change (is_white_space c) with false
         end;
         cbv beta iota; rewrite H; f_equal; lia).
  cbn [NilEmpty.string_of_uint trimStart] in *.
  change (is_white_space "0") with false. cbv beta iota.
  destruct d; cbn [NilEmpty.string_of_uint] in *; rewrite H; f_equal; lia.
Qed.

Lemma parseInt_toString (n : Z) : parseInt (toString n) = Some n.
Proof.
  unfold toString. destruct n as [|q|q].
  - reflexivity.
  - simpl. unfold NilZero.string_of_uint.
    pose proof (DecimalPos.Unsigned.to_uint_nonnil q) as Hnn.
    pose proof (parseInt_uint _ Hnn) as H.
    rewrite DecimalPos.Unsigned.of_to in H.
    destruct (Pos.to_uint q); [contradiction|..]; exact H.
  - simpl. unfold NilZero.string_of_uint.
    pose proof (DecimalPos.Unsigned.to_uint_nonnil q) as Hnn.
    pose proof (parse_digits_uint _ Hnn) as H.
    rewrite DecimalPos.Unsigned.of_to in H.
    assert (E : (match Pos.to_uint q with
                 | Decimal.Nil => "0"
                 | _ => NilEmpty.string_of_uint (Pos.to_uint q)
                 end)%string = NilEmpty.string_of_uint (Pos.to_uint q)).
    { destruct (Pos.to_uint q); [contradiction|..]; reflexivity. }
    rewrite E. unfold parseInt. cbn [trimStart].
    change (is_white_space "-") with false. cbv beta iota.
    destruct (Pos.to_uint q) as [|d|d|d|d|d|d|d|d|d|d]; [contradiction|..];
      try (cbn [NilEmpty.string_of_uint] in *; rewrite H; reflexivity).
    cbn [NilEmpty.string_of_uint] in *.
    destruct d; cbn [NilEmpty.string_of_uint] in *; rewrite H; reflexivity.
Qed.

(** ** The task pool *)

Lemma handleCreateTask_cases (st : State) (f : Form) (counter now : Z) :
  let r := BackendForm.handleCreateTask st f counter now in
  (fst (fst (fst r)) = st /\ snd (fst (fst r)) = f /\ snd (fst r) = counter /\
   (exists message, snd r = Alert message) /\
   (trim (newTaskTitle f) = EmptyString \/
    parseInt (newTaskDuration f) = None \/
    exists d, parseInt (newTaskDuration f) = Some d /\ (d <= 0)%Z)) \/
  (exists d,
     trim (newTaskTitle f) <> EmptyString /\
     parseInt (newTaskDuration f) = Some d /\ (0 < d)%Z /\
     fst (fst (fst r)) =
       setTasks (tasks st ++ [mkTask (snd (generateTaskId counter now))
                                (trim (newTaskTitle f)) (inject_Z d) (newTaskColor f)]) st /\
     snd (fst (fst r)) =
       mkForm EmptyString "30" PRESET_COLOR_0 (editingTaskId f)
         (editTitle f) (editDuration f) (editColor f) /\
     snd (fst r) = (counter + 1)%Z /\ snd r = Returned).
Proof.
  intros r. unfold r, BackendForm.handleCreateTask.
  destruct (trim (newTaskTitle f)) as [|c0 r0] eqn:Et.
  - left. cbn. repeat split; try (eexists; reflexivity). left. reflexivity.
  - destruct (parseInt (newTaskDuration f)) as [d|] eqn:Ep.
    + destruct (d <=? 0)%Z eqn:Ed.
      * left. cbn. repeat split; try (eexists; reflexivity).
        right. right. exists d. split; [reflexivity|]. apply Z.leb_le. exact Ed.
      * right. exists d. apply Z.leb_gt in Ed. cbn.
        repeat split; try assumption; try reflexivity. discriminate.
    + left. cbn. repeat split; try (eexists; reflexivity). right. left. reflexivity.
Qed.

Lemma mock_handleCreateTask_cases (st : State) (f : Form) (counter now : Z) :
  let r := MockForm.handleCreateTask st f counter now in
  (fst (fst (fst r)) = st /\ snd (fst (fst r)) = f /\ snd (fst r) = counter /\
   (exists message, snd r = Alert message) /\
   (trim (newTaskTitle f) = EmptyString \/
    parseInt (newTaskDuration f) = None \/
    exists d, parseInt (newTaskDuration f) = Some d /\ (d <= 0)%Z)) \/
  (exists d,
     trim (newTaskTitle f) <> EmptyString /\
     parseInt (newTaskDuration f) = Some d /\ (0 < d)%Z /\
     fst (fst (fst r)) =
       setTasks (tasks st ++ [mkTask (snd (generateTaskId counter now))
                                (trim (newTaskTitle f)) (inject_Z d) (newTaskColor f)]) st /\
     snd (fst (fst r)) =
       mkForm EmptyString "30" PRESET_COLOR_0 (editingTaskId f)
         (editTitle f) (editDuration f) (editColor f) /\
     snd (fst r) = (counter + 1)%Z /\ snd r = Returned).
Proof.
  intros r. unfold r, MockForm.handleCreateTask.
  destruct (trim (newTaskTitle f)) as [|c0 r0] eqn:Et.
  - left. cbn. repeat split; try (eexists; reflexivity). left. reflexivity.
  - destruct (parseInt (newTaskDuration f)) as [d|] eqn:Ep.
    + destruct (d <=? 0)%Z eqn:Ed.
      * left. cbn. repeat split; try (eexists; reflexivity).
        right. right. exists d. split; [reflexivity|]. apply Z.leb_le. exact Ed.
      * right. exists d. apply Z.leb_gt in Ed. cbn.
        repeat split; try assumption; try reflexivity. discriminate.
    + left. cbn. repeat split; try (eexists; reflexivity). right. left. reflexivity.
Qed.

Lemma saveEditedTask_cases (st : State) (f : Form) :
  let r := BackendForm.saveEditedTask st f in
  (fst (fst r) = st /\ snd (fst r) = f /\ exists message, snd r = Alert message) \/
  (exists d,
     trim (editTitle f) <> EmptyString /\ editDuration f <> EmptyString /\
     parseInt (editDuration f) = Some d /\ (0 < d)%Z /\
     fst (fst r) =
       setTasks (apply_edit (editingTaskId f) (trim (editTitle f)) d (editColor f)
                   (tasks st)) st /\
     snd (fst r) = cancelEditingTask f /\ snd r = Returned).
Proof.
  intros r. unfold r, BackendForm.saveEditedTask.
  destruct (trim (editTitle f)) as [|c0 r0] eqn:Et.
  - left. cbn. repeat split. eexists; reflexivity.
  - destruct (editDuration f) as [|c1 r1] eqn:Eu.
    + left. cbn. repeat split. eexists; reflexivity.
    + destruct (parseInt (String c1 r1)) as [d|] eqn:Ep.
      * destruct (d <=? 0)%Z eqn:Ed.
        -- left. cbn. repeat split. eexists; reflexivity.
        -- right. exists d. apply Z.leb_gt in Ed. cbn.
           repeat split; try assumption; try reflexivity; discriminate.
      * left. cbn. repeat split. eexists; reflexivity.
Qed.

Lemma mock_saveEditedTask_cases (st : State) (f : Form) :
  let r := MockForm.saveEditedTask st f in
  (fst (fst r) = st /\ snd (fst r) = f /\ exists message, snd r = Alert message) \/
  (exists d,
     trim (editTitle f) <> EmptyString /\
     parseInt (editDuration f) = Some d /\ (0 < d)%Z /\
     fst (fst r) =
       setTasks (apply_edit (editingTaskId f) (trim (editTitle f)) d (editColor f)
                   (tasks st)) st /\
     snd (fst r) = cancelEditingTask f /\ snd r = Returned).
Proof.
  intros r. unfold r, MockForm.saveEditedTask.
  destruct (trim (editTitle f)) as [|c0 r0] eqn:Et.
  - left. cbn. repeat split. eexists; reflexivity.
  - destruct (parseInt (editDuration f)) as [d|] eqn:Ep.
    + destruct (d <=? 0)%Z eqn:Ed.
      * left. cbn. repeat split. eexists; reflexivity.
      * right. exists d. apply Z.leb_gt in Ed. cbn.
        repeat split; try assumption; try reflexivity; discriminate.
    + left. cbn. repeat split. eexists; reflexivity.
Qed.

Lemma apply_edit_ids (editing : option string) (title' : string) (d : Z)
    (color' : string) (pool : list Task) :
  map task_id (apply_edit editing title' d color' pool) = map task_id pool.
Proof.
  unfold apply_edit. rewrite map_map. apply map_ext. intros t.
  destruct (id_equals (task_id t) editing); reflexivity.
Qed.

Lemma addTimeBlock_pool (st : State) (t : Task) (s e : Q)
    (response : api_result TimeBlock) :
  tasks (fst (Backend.addTimeBlock st t s e response)) = tasks st \/
  tasks (fst (Backend.addTimeBlock st t s e response)) =
  filter (fun t' => negb (String.eqb (task_id t') (task_id t))) (tasks st).
Proof.
  unfold Backend.addTimeBlock.
  destruct (Qlt_bool 21 e); [left; reflexivity|].
  destruct (hasConflict (timeBlocks st) s e None); [left; reflexivity|].
  destruct response; [right|left]; reflexivity.
Qed.

Lemma mock_addTimeBlock_pool (st : State) (storage : Mock.Storage) (fresh : string)
    (t : Task) (s e : Q) :
  tasks (fst (fst (Mock.addTimeBlock st storage fresh t s e))) = tasks st \/
  tasks (fst (fst (Mock.addTimeBlock st storage fresh t s e))) =
  filter (fun t' => negb (String.eqb (task_id t') (task_id t))) (tasks st).
Proof.
  unfold Mock.addTimeBlock.
  destruct (Qlt_bool 21 e); [left; reflexivity|].
  destruct (hasConflict (timeBlocks st) s e None); [left; reflexivity|].
  right. reflexivity.
Qed.

(** What a pool operation can do to the pool: nothing, drop entries, rewrite
    entries in place under their ids, or append one task made by the form. *)
Lemma pool_step_shape (s s' : State * Z) :
  pool_step s s' ->
  (tasks (fst s') = tasks (fst s) /\ snd s' = snd s) \/
  (exists g, tasks (fst s') = filter g (tasks (fst s)) /\ snd s' = snd s) \/
  (exists editing title' d color',
     title' <> EmptyString /\ trim title' = title' /\ (0 < d)%Z /\
     tasks (fst s') = apply_edit editing title' d color' (tasks (fst s)) /\
     snd s' = snd s) \/
  (exists now title' d color',
     (0 <= now)%Z /\ title' <> EmptyString /\ trim title' = title' /\ (0 < d)%Z /\
     tasks (fst s') =
       tasks (fst s) ++ [mkTask (snd (generateTaskId (snd s) now)) title'
                           (inject_Z d) color'] /\
     snd s' = (snd s + 1)%Z).
Proof.
  intros Hstep.
  destruct Hstep as [st f c now Hnow | st f c now Hnow | st f c | st f c
                    | st id c | st t s e response c | st storage fresh t s e c];
    cbn [fst snd].
  - destruct (handleCreateTask_cases st f c now) as [[E1 [_ [E3 _]]]|[d H]].
    + left. rewrite E1, E3. split; reflexivity.
    + destruct H as [Ht [_ [Hd [E1 [_ [E3 _]]]]]].
      right. right. right. exists now, (trim (newTaskTitle f)), d, (newTaskColor f).
      rewrite E1, E3.
      repeat split; try assumption; try reflexivity. apply trim_idempotent.
  - destruct (mock_handleCreateTask_cases st f c now) as [[E1 [_ [E3 _]]]|[d H]].
    + left. rewrite E1, E3. split; reflexivity.
    + destruct H as [Ht [_ [Hd [E1 [_ [E3 _]]]]]].
      right. right. right. exists now, (trim (newTaskTitle f)), d, (newTaskColor f).
      rewrite E1, E3.
      repeat split; try assumption; try reflexivity. apply trim_idempotent.
  - destruct (saveEditedTask_cases st f) as [[E1 _]|[d H]].
    + left. rewrite E1. split; reflexivity.
    + destruct H as [Ht [_ [_ [Hd [E1 _]]]]].
      right. right. left.
      exists (editingTaskId f), (trim (editTitle f)), d, (editColor f).
      rewrite E1.
      repeat split; try assumption; try reflexivity. apply trim_idempotent.
  - destruct (mock_saveEditedTask_cases st f) as [[E1 _]|[d H]].
    + left. rewrite E1. split; reflexivity.
    + destruct H as [Ht [_ [Hd [E1 _]]]].
      right. right. left.
      exists (editingTaskId f), (trim (editTitle f)), d, (editColor f).
      rewrite E1.
      repeat split; try assumption; try reflexivity. apply trim_idempotent.
  - right. left. eexists. split; reflexivity.
  - destruct (addTimeBlock_pool st t s e response) as [E|E].
    + left. split; [exact E|reflexivity].
    + right. left. eexists. split; [exact E|reflexivity].
  - destruct (mock_addTimeBlock_pool st storage fresh t s e) as [E|E].
    + left. split; [exact E|reflexivity].
    + right. left. eexists. split; [exact E|reflexivity].
Qed.

Lemma NoDup_task_ids_filter (g : Task -> bool) (l : list Task) :
  NoDup (map task_id l) -> NoDup (map task_id (filter g l)).
Proof.
  induction l as [|x l IH]; simpl; intros Hnd; [constructor|].
  inversion Hnd as [|y ys Hnotin Hnd']; subst.
  destruct (g x); simpl; [|apply IH; exact Hnd'].
  constructor; [|apply IH; exact Hnd'].
  intros H. apply Hnotin. apply in_map_iff in H. destruct H as [a [E Ha]].
  apply filter_In in Ha. rewrite <- E. apply in_map. apply Ha.
Qed.

Lemma NoDup_task_ids_app_one (l : list Task) (t : Task) :
  NoDup (map task_id l) -> ~ In (task_id t) (map task_id l) ->
  NoDup (map task_id (l ++ [t])).
Proof.
  induction l as [|x l IH]; simpl; intros Hnd Hnew.
  - constructor; [intros []|constructor].
  - inversion Hnd as [|y ys Hnotin Hnd']; subst. constructor.
    + rewrite map_app, in_app_iff. simpl. intros [H|[H|[]]].
      * exact (Hnotin H).
      * apply Hnew. left. symmetry. exact H.
    + apply IH; [exact Hnd'|]. intros H. apply Hnew. right. exact H.
Qed.

Lemma issued_mono (c c' : Z) (id : string) :
  (c <= c')%Z -> issued c id -> issued c' id.
Proof.
  intros Hle [now [c0 [Hn [Hc E]]]]. exists now, c0. repeat split; [exact Hn|lia|exact E].
Qed.

Lemma pool_step_ids (s s' : State * Z) :
  pool_step s s' ->
  NoDup (map task_id (tasks (fst s))) /\
  Forall (fun t => issued (snd s) (task_id t)) (tasks (fst s)) ->
  NoDup (map task_id (tasks (fst s'))) /\
  Forall (fun t => issued (snd s') (task_id t)) (tasks (fst s')).
Proof.
  intros Hstep [Hnd Hiss].
  destruct (pool_step_shape s s' Hstep)
    as [[E Ec]|[[g [E Ec]]|[[ed [ti [d [co [_ [_ [_ [E Ec]]]]]]]]
       |[now [ti [d [co [Hnow [_ [_ [_ [E Ec]]]]]]]]]]]]; rewrite E, Ec.
  - split; assumption.
  - split; [apply NoDup_task_ids_filter; exact Hnd|].
    apply Forall_forall. intros t Ht. apply filter_In in Ht.
    rewrite Forall_forall in Hiss. apply Hiss. apply Ht.
  - split; [rewrite apply_edit_ids; exact Hnd|].
    apply Forall_forall. intros t Ht. unfold apply_edit in Ht.
    apply in_map_iff in Ht. destruct Ht as [t0 [Et Hin]].
    rewrite Forall_forall in Hiss. specialize (Hiss t0 Hin).
    destruct (id_equals (task_id t0) ed); subst t; exact Hiss.
  - split.
    + apply NoDup_task_ids_app_one; [exact Hnd|].
      cbn [task_id]. intros Hin. apply in_map_iff in Hin.
      destruct Hin as [t0 [Et Hin]].
      rewrite Forall_forall in Hiss. destruct (Hiss t0 Hin) as [now0 [c0 [Hn0 [Hc0 E0]]]].
      rewrite E0 in Et. unfold generateTaskId in Et. cbn [snd] in Et.
      destruct (task_id_format_inj _ _ _ _ Hn0 Hnow Et) as [_ Ecc]. lia.
    + apply Forall_app. split.
      * apply Forall_forall. intros t Ht. rewrite Forall_forall in Hiss.
        apply (issued_mono (snd s)); [lia|]. apply Hiss. exact Ht.
      * constructor; [|constructor]. cbn [task_id]. exists now, (snd s + 1)%Z.
        repeat split; [exact Hnow|lia].
Qed.

(** X14.  Ids in the pool stay distinct.  From a pool whose ids are distinct
    and were handed out by [generateTaskId] (the empty pool of a fresh page,
    for one), every sequence of submissions of the creation form, saved
    edits, deleted tasks and placements leaves a pool in which no two tasks
    share an id, whatever the clock reads at each submission. *)
Theorem pool_ids_stay_distinct (s s' : State * Z) :
  pool_run s s' ->
  NoDup (map task_id (tasks (fst s))) ->
  Forall (fun t => issued (snd s) (task_id t)) (tasks (fst s)) ->
  NoDup (map task_id (tasks (fst s'))).
Proof.
  intros Hrun Hnd Hiss.
  assert (H : NoDup (map task_id (tasks (fst s'))) /\
              Forall (fun t => issued (snd s') (task_id t)) (tasks (fst s'))).
  { induction Hrun as [s|s s1 s2 Hstep _ IH]; [split; assumption|].
    destruct (pool_step_ids s s1 Hstep (conj Hnd Hiss)) as [H1 H2].
    apply IH; assumption. }
  apply H.
Qed.

Lemma pool_ids_stay_distinct_witness :
  let st0 := mkState [] [] 0 None false false in
  let f1 := mkForm "Deep Work" "60" "bg-blue-500" None "" "" "" in
  let f2 := mkForm "Review" "30" "bg-red-500" None "" "" "" in
  let r1 := BackendForm.handleCreateTask st0 f1 0 1700000000000 in
  let st1 := fst (fst (fst r1)) in
  let r2 := BackendForm.handleCreateTask st1 f2 (snd (fst r1)) 1700000000000 in
  let st2 := fst (fst (fst r2)) in
  map task_id (tasks st2) = ["task-1700000000000-1"; "task-1700000000000-2"]%string /\
  NoDup (map task_id (tasks st2)).
Proof.
  intros st0 f1 f2 r1 st1 r2 st2. split; [vm_compute; reflexivity|].
  apply (pool_ids_stay_distinct (st0, 0%Z) (st2, snd (fst r2))).
  - apply (pool_next _ (st1, snd (fst r1))).
    + apply (pool_create st0 f1 0 1700000000000). lia.
    + apply (pool_next _ (st2, snd (fst r2))).
      * apply (pool_create st1 f2 (snd (fst r1)) 1700000000000). lia.
      * apply pool_done.
  - constructor.
  - constructor.
Defined.

(** The exact operations are pool operations. *)
Lemma exact_pool_step_pool_step (s s' : State * Z) :
  exact_pool_step s s' -> pool_step s s'.
Proof.
  intros H. destruct H; constructor; assumption.
Qed.

Lemma exact_number_positive (field : string) (d : Z) :
  exact_number field -> parseInt field = Some d -> (0 < d)%Z ->
  (0 < d <= 2 ^ 53)%Z.
Proof.
  intros He Hp Hd. specialize (He d Hp). lia.
Qed.

Lemma well_formed_append (pool : list Task) (id title' color' : string) (d : Z) :
  trim title' <> EmptyString -> (0 < d <= 2 ^ 53)%Z ->
  Forall well_formed_task pool ->
  Forall well_formed_task (pool ++ [mkTask id (trim title') (inject_Z d) color']).
Proof.
  intros Hne Hd Hwf. apply Forall_app. split; [exact Hwf|].
  constructor; [|constructor].
  split; [exact Hne|]. split; [apply trim_idempotent|].
  exists d. split; [exact Hd|reflexivity].
Qed.

Lemma well_formed_apply_edit (pool : list Task) (editing : option string)
    (title' color' : string) (d : Z) :
  trim title' <> EmptyString -> (0 < d <= 2 ^ 53)%Z ->
  Forall well_formed_task pool ->
  Forall well_formed_task (apply_edit editing (trim title') d color' pool).
Proof.
  intros Hne Hd Hwf. apply Forall_forall. intros t Ht. unfold apply_edit in Ht.
  apply in_map_iff in Ht. destruct Ht as [t0 [Et Hin]].
  rewrite Forall_forall in Hwf. specialize (Hwf t0 Hin).
  destruct (id_equals (task_id t0) editing); subst t; [|exact Hwf].
  split; [exact Hne|]. split; [apply trim_idempotent|].
  exists d. split; [exact Hd|reflexivity].
Qed.

Lemma well_formed_filter (g : Task -> bool) (pool : list Task) :
  Forall well_formed_task pool -> Forall well_formed_task (filter g pool).
Proof.
  intros Hwf. apply Forall_forall. intros t Ht. apply filter_In in Ht.
  rewrite Forall_forall in Hwf. apply Hwf. apply Ht.
Qed.

Lemma exact_pool_step_well_formed (s s' : State * Z) :
  exact_pool_step s s' ->
  Forall well_formed_task (tasks (fst s)) ->
  Forall well_formed_task (tasks (fst s')).
Proof.
  intros Hstep.
  destruct Hstep as [st f c now Hnow Hex | st f c now Hnow Hex | st f c Hex
                    | st f c Hex | st id c | st t s e response c
                    | st storage fresh t s e c];
    cbn [fst snd]; intros Hwf.
  - destruct (handleCreateTask_cases st f c now) as [[E1 _]|[d H]].
    + rewrite E1. exact Hwf.
    + destruct H as [Ht [Hp [Hd [E1 _]]]]. rewrite E1. cbn [tasks setTasks].
      apply well_formed_append; [exact Ht| |exact Hwf].
      exact (exact_number_positive _ _ Hex Hp Hd).
  - destruct (mock_handleCreateTask_cases st f c now) as [[E1 _]|[d H]].
    + rewrite E1. exact Hwf.
    + destruct H as [Ht [Hp [Hd [E1 _]]]]. rewrite E1. cbn [tasks setTasks].
      apply well_formed_append; [exact Ht| |exact Hwf].
      exact (exact_number_positive _ _ Hex Hp Hd).
  - destruct (saveEditedTask_cases st f) as [[E1 _]|[d H]].
    + rewrite E1. exact Hwf.
    + destruct H as [Ht [_ [Hp [Hd [E1 _]]]]]. rewrite E1. cbn [tasks setTasks].
      apply well_formed_apply_edit; [exact Ht| |exact Hwf].
      exact (exact_number_positive _ _ Hex Hp Hd).
  - destruct (mock_saveEditedTask_cases st f) as [[E1 _]|[d H]].
    + rewrite E1. exact Hwf.
    + destruct H as [Ht [Hp [Hd [E1 _]]]]. rewrite E1. cbn [tasks setTasks].
      apply well_formed_apply_edit; [exact Ht| |exact Hwf].
      exact (exact_number_positive _ _ Hex Hp Hd).
  - unfold handleDeleteTask. cbn [tasks setTasks].
    apply well_formed_filter. exact Hwf.
  - destruct (addTimeBlock_pool st t s e response) as [E|E]; rewrite E;
      [exact Hwf|apply well_formed_filter; exact Hwf].
  - destruct (mock_addTimeBlock_pool st storage fresh t s e) as [E|E]; rewrite E;
      [exact Hwf|apply well_formed_filter; exact Hwf].
Qed.

(** X15.  Tasks in the pool stay well formed as long as the duration fields
    read numbers in the range where [parseInt] is exact (at most 2^53 in
    magnitude).  If every pooled task has a title that is not empty and
    carries no white space around it, and a duration that is a positive
    whole number of minutes of at most 2^53, then this is still so after any
    sequence of submissions, saved edits, deleted tasks and placements with
    such duration fields, whatever else was typed into the forms. *)
Theorem pool_tasks_stay_well_formed (s s' : State * Z) :
  exact_pool_run s s' ->
  Forall well_formed_task (tasks (fst s)) ->
  Forall well_formed_task (tasks (fst s')).
Proof.
  intros Hrun Hwf. induction Hrun as [s|s s1 s2 Hstep _ IH]; [exact Hwf|].
  apply IH. apply (exact_pool_step_well_formed s s1 Hstep Hwf).
Qed.

Lemma pool_tasks_stay_well_formed_witness :
  let st0 := mkState [] [] 0 None false false in
  let f1 := mkForm "  Deep Work " "60" "bg-blue-500" None "" "" "" in
  let r1 := BackendForm.handleCreateTask st0 f1 0 1700000000000 in
  tasks (fst (fst (fst r1))) =
    [mkTask "task-1700000000000-1" "Deep Work" 60 "bg-blue-500"] /\
  Forall well_formed_task (tasks (fst (fst (fst r1)))).
Proof.
  intros st0 f1 r1. split; [vm_compute; reflexivity|].
  apply (pool_tasks_stay_well_formed (st0, 0%Z) (fst (fst (fst r1)), snd (fst r1))).
  - apply (exact_next _ (fst (fst (fst r1)), snd (fst r1))).
    + apply (exact_create st0 f1 0 1700000000000); [lia|].
      intros d Hd. vm_compute in Hd. injection Hd as Hd. subst d.
      vm_compute. discriminate.
    + apply exact_done.
  - constructor.
Defined.

(** X16.  The creation form accepts a submission exactly when the title is
    not white space only and the duration field parses to a whole number
    above zero.  A refused submission changes neither the page, nor the form,
    nor the counter.  An accepted one appends exactly one task at the end of
    the pool and resets the three fields.  A printed whole number above zero
    is always a valid duration. *)
Theorem handleCreateTask_validation (st : State) (f : Form) (counter now : Z) :
  let r := BackendForm.handleCreateTask st f counter now in
  let st' := fst (fst (fst r)) in
  (snd r = Returned <->
   all_white_space (newTaskTitle f) = false /\
   exists d, parseInt (newTaskDuration f) = Some d /\ (0 < d)%Z) /\
  (snd r <> Returned ->
   st' = st /\ snd (fst (fst r)) = f /\ snd (fst r) = counter) /\
  (snd r = Returned ->
   (exists t, tasks st' = tasks st ++ [t]) /\
   timeBlocks st' = timeBlocks st /\ xp st' = xp st /\
   newTaskTitle (snd (fst (fst r))) = EmptyString /\
   newTaskDuration (snd (fst (fst r))) = "30"%string /\
   newTaskColor (snd (fst (fst r))) = PRESET_COLOR_0 /\
   snd (fst r) = (counter + 1)%Z) /\
  (forall d, (0 < d)%Z -> newTaskDuration f = toString d ->
             all_white_space (newTaskTitle f) = false -> snd r = Returned).
Proof.
  intros r st'.
  assert (Hblank : trim (newTaskTitle f) = EmptyString <->
                   all_white_space (newTaskTitle f) = true)
    by apply trim_empty_iff.
  destruct (handleCreateTask_cases st f counter now)
    as [[E1 [E2 [E3 [[msg Em] Hwhy]]]]|[d [Ht [Hp [Hd [E1 [E2 [E3 E4]]]]]]]];
    fold r in E1, E2, E3; fold st' in E1.
  - assert (Hno : ~ (all_white_space (newTaskTitle f) = false /\
                     exists d, parseInt (newTaskDuration f) = Some d /\ (0 < d)%Z)).
    { intros [Hw [d [Hp Hd]]]. destruct Hwhy as [H|[H|[d' [H Hd']]]].
      - apply Hblank in H. congruence.
      - congruence.
      - rewrite Hp in H. injection H as H. lia. }
    fold r in Em. split; [|split; [|split]].
    + split; [rewrite Em; discriminate|]. intros H. contradiction (Hno H).
    + intros _. repeat split; assumption.
    + rewrite Em. discriminate.
    + intros d Hd Hf Hw. exfalso. apply Hno. split; [exact Hw|].
      exists d. rewrite Hf. split; [apply parseInt_toString|exact Hd].
  - fold r in E4. split; [|split; [|split]].
    + split; [|intros _; exact E4]. intros _. split.
      * destruct (all_white_space (newTaskTitle f)) eqn:Hw; [|reflexivity].
        exfalso. apply Ht. apply Hblank. reflexivity.
      * exists d. split; assumption.
    + intros H. contradiction (H E4).
    + intros _. rewrite E1, E2, E3. cbn.
      repeat split; try reflexivity. eexists. reflexivity.
    + intros; exact E4.
Qed.

(** ** Editing a task *)

Lemma NoDup_task_ids_unique (l : list Task) (a b : Task) :
  NoDup (map task_id l) -> In a l -> In b l -> task_id a = task_id b -> a = b.
Proof.
  induction l as [|x l IH]; simpl; intros Hnd Ha Hb E; [contradiction|].
  inversion Hnd as [|y ys Hnotin Hnd']; subst.
  destruct Ha as [Ha|Ha], Hb as [Hb|Hb]; subst.
  - reflexivity.
  - exfalso. apply Hnotin. rewrite E. apply in_map. exact Hb.
  - exfalso. apply Hnotin. rewrite <- E. apply in_map. exact Ha.
  - apply IH; assumption.
Qed.

Lemma apply_edit_same (pool : list Task) (t : Task) (d : Z) :
  In t pool -> NoDup (map task_id pool) -> duration t = inject_Z d ->
  apply_edit (Some (task_id t)) (title t) d (color t) pool = pool.
Proof.
  intros Hin Hnd Hd. unfold apply_edit. rewrite <- (map_id pool) at 2.
  apply map_ext_in. intros a Ha. simpl.
  destruct (String.eqb (task_id a) (task_id t)) eqn:E; [|reflexivity].
  apply String.eqb_eq in E.
  assert (Eat : a = t) by (apply (NoDup_task_ids_unique pool); assumption).
  subst a. rewrite <- Hd. destruct t; reflexivity.
Qed.

Lemma setTasks_same (st : State) : setTasks (tasks st) st = st.
Proof. destruct st; reflexivity. Qed.

Lemma Number_toString_whole (d : Z) :
  (Z.abs d < 10 ^ 21)%Z -> Number_toString (inject_Z d) = Some (toString d).
Proof.
  intros Hd. unfold Number_toString. rewrite Qfloor_Z.
  assert (E1 : Qeq_bool (inject_Z d) (inject_Z d) = true)
    by (apply Qeq_bool_iff; reflexivity).
  assert (E2 : (Z.abs d <? 10 ^ 21)%Z = true) by (apply Z.ltb_lt; exact Hd).
  rewrite E1, E2. reflexivity.
Qed.

(** X17.  Opening the editor on a pooled task and saving at once changes
    nothing: for a well-formed task of a pool with distinct ids (its
    duration a whole number of minutes between 1 and 2^53, which
    [startEditingTask] prints digit by digit and [parseInt] reads back
    exactly), [startEditingTask] followed by [saveEditedTask] returns the
    page as it was and closes the editor, on both pages. *)
Theorem edit_without_change_is_identity (st : State) (f : Form) (t : Task) :
  In t (tasks st) -> NoDup (map task_id (tasks st)) -> well_formed_task t ->
  exists f',
    startEditingTask f t = Some f' /\
    exact_number (editDuration f') /\
    BackendForm.saveEditedTask st f' = (st, cancelEditingTask f', Returned) /\
    MockForm.saveEditedTask st f' = (st, cancelEditingTask f', Returned) /\
    editingTaskId (cancelEditingTask f') = None /\
    newTaskTitle (cancelEditingTask f') = newTaskTitle f.
Proof.
  intros Hin Hnd [Hne [Htr [d [Hd Hdur]]]].
  assert (Hpow : (2 ^ 53 < 10 ^ 21)%Z) by (vm_compute; reflexivity).
  assert (Hprint : Number_toString (duration t) = Some (toString d)).
  { rewrite Hdur. apply Number_toString_whole. lia. }
  assert (Hp : parseInt (toString d) = Some d) by apply parseInt_toString.
  assert (Hle : (d <=? 0)%Z = false) by (apply Z.leb_gt; lia).
  assert (Hsame : setTasks (apply_edit (Some (task_id t)) (title t) d (color t)
                              (tasks st)) st = st).
  { rewrite (apply_edit_same _ _ _ Hin Hnd Hdur). apply setTasks_same. }
  unfold startEditingTask. rewrite Hprint. eexists. split; [reflexivity|].
  split.
  { cbn [editDuration]. intros d' Hd'. rewrite Hp in Hd'. injection Hd' as Hd'.
    subst d'. lia. }
  unfold BackendForm.saveEditedTask, MockForm.saveEditedTask.
  cbn [editTitle editDuration editingTaskId editColor].
  rewrite Htr.
  destruct (title t) as [|c0 r0] eqn:Et; [contradiction|].
  destruct (toString d) as [|c1 r1] eqn:Es; [discriminate Hp|].
  rewrite Hp, Hle, Hsame. repeat split; reflexivity.
Qed.

Lemma edit_without_change_is_identity_witness :
  let t := mkTask "task-1" "Deep Work" 60 "bg-blue-500" in
  let st := mkState [t] [] 0 None false false in
  let f := mkForm "" "30" "bg-blue-500" None "" "" "" in
  In t (tasks st) /\
  exists f', startEditingTask f t = Some f' /\
             fst (fst (BackendForm.saveEditedTask st f')) = st.
Proof.
  intros t st f.
  assert (H1 : In t (tasks st)) by (left; reflexivity).
  split; [exact H1|].
  assert (H2 : NoDup (map task_id (tasks st))).
  { simpl. constructor; [intros []|constructor]. }
  assert (H3 : well_formed_task t).
  { split; [discriminate|]. split; [reflexivity|].
    exists 60%Z. split; [split; [lia|vm_compute; discriminate]|reflexivity]. }
  destruct (edit_without_change_is_identity st f t H1 H2 H3) as [f' [E [_ [H _]]]].
  exists f'. split; [exact E|]. rewrite H. reflexivity.
Defined.

(** X18.  A saved edit keeps every task in its place: the pool has the same
    ids in the same order, a task whose id is not the one under edit is
    untouched, and a task whose id is the one under edit keeps its id and
    takes the trimmed title, the parsed duration and the color of the
    editor.  Blocks and XP are not touched, and a refused save changes
    nothing at all. *)
Theorem saveEditedTask_keeps_positions (st : State) (f : Form) :
  let r := BackendForm.saveEditedTask st f in
  let st' := fst (fst r) in
  map task_id (tasks st') = map task_id (tasks st) /\
  timeBlocks st' = timeBlocks st /\ xp st' = xp st /\
  (snd r <> Returned -> st' = st /\ snd (fst r) = f) /\
  (forall n t, nth_error (tasks st) n = Some t ->
     id_equals (task_id t) (editingTaskId f) = false ->
     nth_error (tasks st') n = Some t) /\
  (snd r = Returned ->
   exists d, parseInt (editDuration f) = Some d /\ (0 < d)%Z /\
     forall n t, nth_error (tasks st) n = Some t ->
       id_equals (task_id t) (editingTaskId f) = true ->
       nth_error (tasks st') n =
       Some (mkTask (task_id t) (trim (editTitle f)) (inject_Z d) (editColor f))).
Proof.
  intros r st'.
  destruct (saveEditedTask_cases st f)
    as [[E1 [E2 [msg Em]]]|[d [Ht [Hu [Hp [Hd [E1 [E2 E3]]]]]]]];
    fold r in E1, E2; fold st' in E1.
  - fold r in Em. rewrite E1. repeat split; try assumption.
    + intros n t Hn _. exact Hn.
    + rewrite Em. discriminate.
  - fold r in E3. rewrite E1. cbn [tasks timeBlocks xp setTasks].
    split; [apply apply_edit_ids|]. split; [reflexivity|]. split; [reflexivity|].
    split; [intros H; contradiction (H E3)|]. split.
    + intros n t Hn Hid. unfold apply_edit.
      rewrite nth_error_map, Hn. simpl. rewrite Hid. reflexivity.
    + intros _. exists d. split; [exact Hp|]. split; [exact Hd|].
      intros n t Hn Hid. unfold apply_edit.
      rewrite nth_error_map, Hn. simpl. rewrite Hid. reflexivity.
Qed.

(** ** Placing and deleting on the mock-backed page *)

(** X19.  On the mock-backed page a placement followed by the deletion of
    the new block is a round trip for the schedule: with a fresh block id and
    an accepted target, the block set and the block store return to what
    they were, the XP total is untouched, and the task that comes back at the
    end of the pool is the dragged task itself. *)
Theorem mock_place_then_delete_round_trip (st : State) (storage : Mock.Storage)
    (fresh : string) (t : Task) (s e : Q) :
  e <= 21 ->
  hasConflict (timeBlocks st) s e None = false ->
  (forall b, In b (timeBlocks st) -> block_id b <> fresh) ->
  (forall b, In b storage -> block_id b <> fresh) ->
  let placed := Mock.addTimeBlock st storage fresh t s e in
  let st1 := fst (fst placed) in
  let storage1 := snd (fst placed) in
  let deleted := Mock.deleteBlock st1 storage1 fresh in
  snd placed = Returned /\
  timeBlocks st1 = timeBlocks st ++ [mkTimeBlock fresh t s e false] /\
  storage1 = storage ++ [mkTimeBlock fresh t s e false] /\
  timeBlocks (fst deleted) = timeBlocks st /\
  snd deleted = storage /\
  tasks (fst deleted) = tasks st1 ++ [t] /\
  xp (fst deleted) = xp st.
Proof.
  intros He Hc Hfresh Hstore.
  assert (E21 : Qlt_bool 21 e = false) by (apply Qlt_bool_false_iff; exact He).
  set (b := mkTimeBlock fresh t s e false).
  assert (Hf : forall b', In b' (timeBlocks st) -> block_id b' <> block_id b)
    by exact Hfresh.
  assert (Hs : forall b', In b' storage -> block_id b' <> block_id b)
    by exact Hstore.
  pose proof (find_app_fresh _ _ Hf) as E1.
  pose proof (filter_app_fresh _ _ Hf) as E2.
  pose proof (filter_app_fresh _ _ Hs) as E3.
  simpl in E1, E2, E3.
  unfold Mock.addTimeBlock. rewrite E21, Hc. cbv zeta.
  unfold Mock.createTimeBlockAPI, Mock.mockAPI_createBlock.
  cbn [fst snd timeBlocks tasks xp setTasks setTimeBlocks Mock.new_task
       Mock.new_startHour Mock.new_endHour Mock.new_completed].
  fold b. unfold Mock.deleteBlock, Mock.deleteTimeBlockAPI, Mock.mockAPI_deleteBlock.
  cbn [fst snd timeBlocks tasks xp setTasks setTimeBlocks].
  rewrite E1. cbn [completed b fst snd timeBlocks tasks xp setTasks setTimeBlocks task].
  rewrite E2, E3. repeat split; reflexivity.
Qed.

Lemma mock_place_then_delete_round_trip_witness :
  let t := mkTask "task-1" "Deep Work" 60 "bg-blue-500" in
  let st := mkState [t] [] 0 None false false in
  9 + 1 <= 21 /\
  fst (Mock.deleteBlock (fst (fst (Mock.addTimeBlock st [] "block-1" t 9 (9 + 1))))
         (snd (fst (Mock.addTimeBlock st [] "block-1" t 9 (9 + 1)))) "block-1") = st.
Proof.
  intros t st. split; [lra|].
  assert (H1 : 9 + 1 <= 21) by lra.
  assert (H2 : hasConflict (timeBlocks st) 9 (9 + 1) None = false) by reflexivity.
  assert (H3 : forall b, In b (timeBlocks st) -> block_id b <> "block-1"%string)
    by (intros b []).
  assert (H4 : forall b, In b (@nil TimeBlock) -> block_id b <> "block-1"%string)
    by (intros b []).
  destruct (mock_place_then_delete_round_trip st [] "block-1" t 9 (9 + 1) H1 H2 H3 H4)
    as [_ [_ [_ [_ [_ _]]]]].
  reflexivity.
Defined.

(** ** Freed slots *)

Lemma disjoint_pair_sym (a b : TimeBlock) : disjoint_pair a b -> disjoint_pair b a.
Proof. unfold disjoint_pair. intros [H|H]; [right|left]; exact H. Qed.

Lemma pairwise_disjoint_in (l : list TimeBlock) (a b : TimeBlock) :
  pairwise_disjoint l -> In a l -> In b l -> a <> b -> disjoint_pair a b.
Proof.
  induction l as [|x l IH]; simpl; intros Hd Ha Hb Hne; [contradiction|].
  destruct Hd as [Hx Hl].
  destruct Ha as [Ha|Ha], Hb as [Hb|Hb]; subst.
  - contradiction.
  - apply Hx. exact Hb.
  - apply disjoint_pair_sym. apply Hx. exact Ha.
  - apply IH; assumption.
Qed.

(** X20.  Deleting a block frees its slot.  In a schedule without overlaps,
    once [deleteTimeBlock] has removed a block, the interval of that block
    is accepted by [hasConflict] again, and every interval that was free
    before the deletion is still free after it. *)
Theorem deleted_slot_is_free (st : State) (block : TimeBlock) :
  pairwise_disjoint (timeBlocks st) ->
  In block (timeBlocks st) ->
  let st' := Backend.deleteTimeBlock st (block_id block) (Resolved tt) in
  hasConflict (timeBlocks st') (startHour block) (endHour block) None = false /\
  (forall s e, hasConflict (timeBlocks st) s e None = false ->
               hasConflict (timeBlocks st') s e None = false).
Proof.
  intros Hdis Hin st'.
  assert (Hblocks : timeBlocks st' =
                    filter (fun b => negb (String.eqb (block_id b) (block_id block)))
                      (timeBlocks st)).
  { unfold st', Backend.deleteTimeBlock.
    destruct (find (fun b => String.eqb (block_id b) (block_id block)) (timeBlocks st))
      as [found|] eqn:Hf.
    - destruct (completed found); reflexivity.
    - rewrite find_none_iff in Hf. exfalso. exact (Hf block Hin eq_refl). }
  rewrite Hblocks. split.
  - destruct (hasConflict _ (startHour block) (endHour block) None) eqn:Hc;
      [|reflexivity].
    apply hasConflict_true_iff in Hc. destruct Hc as [a [Ha [_ [H1 H2]]]].
    apply In_filter_other_ids in Ha. destruct Ha as [Ha Hid].
    assert (Hne : a <> block) by (intros E; subst a; contradiction).
    destruct (pairwise_disjoint_in _ a block Hdis Ha Hin Hne) as [H|H]; lra.
  - intros s e Hfree.
    destruct (hasConflict
                (filter (fun b => negb (String.eqb (block_id b) (block_id block)))
                   (timeBlocks st)) s e None) eqn:Hc; [|reflexivity].
    apply hasConflict_true_iff in Hc. destruct Hc as [a [Ha [Hn Hov]]].
    apply In_filter_other_ids in Ha.
    assert (Ht : hasConflict (timeBlocks st) s e None = true).
    { apply hasConflict_true_iff. exists a. split; [apply Ha|]. split; assumption. }
    congruence.
Qed.

Lemma deleted_slot_is_free_witness :
  let t := mkTask "task-1" "Deep Work" 60 "bg-blue-500" in
  let b1 := mkTimeBlock "1" t 9 10 false in
  let b2 := mkTimeBlock "2" t 10 11 false in
  let st := mkState [] [b1; b2] 0 None false false in
  hasConflict (timeBlocks st) 9 10 None = true /\
  hasConflict (timeBlocks (Backend.deleteTimeBlock st "1" (Resolved tt))) 9 10 None = false.
Proof.
  intros t b1 b2 st. split; [reflexivity|].
  assert (Hd : pairwise_disjoint (timeBlocks st)).
  { simpl. split; [|split; [intros x []|exact I]].
    intros x [Hx|[]]. subst x. left. simpl. lra. }
  assert (Hin : In b1 (timeBlocks st)) by (left; reflexivity).
  apply (proj1 (deleted_slot_is_free st b1 Hd Hin)).
Defined.

(** ** Progress *)

(** X21.  The progress bar stays between 0 and 100 percent, and on a
    schedule with at least one block it reads 100 exactly on a perfect
    day. *)
Theorem progressPercentage_range (blocks : list TimeBlock) :
  0 <= progressPercentage blocks /\ progressPercentage blocks <= 100 /\
  (progressPercentage blocks == 100 <-> isPerfectDay blocks = true).
Proof.
  unfold progressPercentage, isPerfectDay.
  pose proof (filter_length_le completed blocks) as Hle.
  fold (completedBlocks blocks) in Hle. fold (totalBlocks blocks) in Hle.
  destruct (0 <? totalBlocks blocks)%nat eqn:Hpos.
  - apply Nat.ltb_lt in Hpos.
    set (c := completedBlocks blocks) in *. set (n := totalBlocks blocks) in *.
    assert (HC0 : 0 <= inject_Z (Z.of_nat c))
      by (change 0 with (inject_Z 0); rewrite <- Zle_Qle; lia).
    assert (HCT : inject_Z (Z.of_nat c) <= inject_Z (Z.of_nat n))
      by (rewrite <- Zle_Qle; lia).
    assert (HT : 0 < inject_Z (Z.of_nat n))
      by (change 0 with (inject_Z 0); rewrite <- Zlt_Qlt; lia).
    set (C := inject_Z (Z.of_nat c)) in *. set (T := inject_Z (Z.of_nat n)) in *.
    assert (Hinv : 0 < / T) by (apply Qinv_lt_0_compat; exact HT).
    assert (H1 : 0 <= C * / T) by (apply Qmult_le_0_compat; lra).
    assert (H2 : 0 <= (T - C) * / T) by (apply Qmult_le_0_compat; lra).
    assert (E2 : (T - C) * / T == 1 - C * / T) by (field; lra).
    rewrite E2 in H2. unfold Qdiv.
    split; [lra|]. split; [lra|].
    simpl andb. rewrite Nat.eqb_eq. split.
    + intros E. destruct (Nat.eq_dec c n) as [Ecn|Ecn]; [exact Ecn|].
      exfalso.
      assert (Hlt : C < T) by (unfold C, T; rewrite <- Zlt_Qlt; lia).
      assert (H3 : 0 < (T - C) * / T) by (apply Qmult_lt_0_compat; lra).
      assert (E3 : (T - C) * / T == 1 - C * / T) by (field; lra).
      rewrite E3 in H3. lra.
    + intros Ecn. unfold C, T. rewrite Ecn. field.
      fold T. lra.
  - split; [lra|]. split; [lra|]. simpl. split; [intros H|discriminate].
    exfalso. revert H. unfold Qeq. simpl. discriminate.
Qed.
